(** * huaweicloud/config.go and provider.go: provider setup and the
      service-client factory.

    The development embeds [Config.LoadAndValidate], [genClient],
    [genClients], the three [buildClientBy...] strategies,
    [Config.NewServiceClient], [Config.newServiceClientByName],
    [Config.loadUserProjects] and [configureProvider] as functions of an
    explicit world: the [*Config] receiver, the heap of
    [*golangsdk.ProviderClient] objects, the heap of HTTP transports and the
    trace of calls made to the outside (identity service, file system).

    Further on, the development also covers [generateTLSConfig],
    [Config.newS3Session], the [ConfigureFunc] closure of [Provider],
    [getObsEndpoint], [Config.computeS3conn], the two OBS constructors and
    [sLogger.Log].

    Go conventions followed throughout:
    - a [(T, error)] or [error] result is an [outcome]: [Ret], [Fail] with
      the text of [err.Error()], or [Panic] for a run-time fault (a nil
      dereference, a second [Lock] of a held mutex);
    - a pointer is an [option loc]; [None] is [nil];
    - a Go [map[string]string] is a [gmap string string]; reading a missing
      key gives the zero value;
    - [fmt.Sprintf] and [fmt.Errorf] with [%s] verbs are string appends;
    - a [Config] is only ever built by [configureProvider], which allocates
      [RegionProjectIDMap] and [RPLock]; the two fields therefore have types
      without nil.

    What lies outside the repository (the SDK, the identity service, the
    file system, the S3 session library) is a record [Env.t] of functions.
    Those that reach the network or the disk take the trace so far, so that
    their answers may vary in time; they return values and never write to
    the heap, except [huaweisdk.Authenticate], whose result is the client it
    has filled in. *)

From Stdlib Require Import ZArith Ascii.
From stdpp Require Import base strings gmap list option.

Open Scope string_scope.
Open Scope list_scope.

(** ** Values shared by every layer *)

Definition error := string.
(** Heap locations. *)
Abbreviation loc := nat.

Inductive result (A : Type) : Type :=
| Ok (a : A)
| Err (e : error).
Arguments Ok {A} a.
Arguments Err {A} e.

(** The character U+0022, which two error texts of the source contain. *)
Definition dquote : string := String (ascii_of_nat 34) EmptyString.

(** ** golangsdk: authentication options *)

Module AuthOptions.
Record t := mk {
  IdentityEndpoint : string;
  Username : string;
  UserID : string;
  Password : string;
  DomainID : string;
  DomainName : string;
  TenantID : string;
  TenantName : string;
  TokenID : string;
  AgencyName : string;
  AgencyDomainName : string;
  DelegatedProject : string
}.
Definition zero : t := mk "" "" "" "" "" "" "" "" "" "" "" "".
End AuthOptions.

Module AKSKAuthOptions.
Record t := mk {
  IdentityEndpoint : string;
  ProjectId : string;
  ProjectName : string;
  Region : string;
  Domain : string;
  DomainID : string;
  BssDomain : string;
  BssDomainID : string;
  AccessKey : string;
  SecretKey : string;
  AgencyName : string;
  AgencyDomainName : string;
  DelegatedProject : string
}.
Definition zero : t := mk "" "" "" "" "" "" "" "" "" "" "" "" "".
Definition set_ProjectId (v : string) (a : t) : t :=
  mk (IdentityEndpoint a) v (ProjectName a) (Region a) (Domain a)
     (DomainID a) (BssDomain a) (BssDomainID a) (AccessKey a) (SecretKey a)
     (AgencyName a) (AgencyDomainName a) (DelegatedProject a).
Definition set_Region (v : string) (a : t) : t :=
  mk (IdentityEndpoint a) (ProjectId a) (ProjectName a) v (Domain a)
     (DomainID a) (BssDomain a) (BssDomainID a) (AccessKey a) (SecretKey a)
     (AgencyName a) (AgencyDomainName a) (DelegatedProject a).
End AKSKAuthOptions.

(** The interface [golangsdk.AuthOptionsProvider] has the two implementations
    the source passes to [genClients]. *)
Inductive AuthOptionsProvider :=
| AuthByOptions (ao : AuthOptions.t)
| AuthByAKSK (ao : AKSKAuthOptions.t).

Definition GetIdentityEndpoint (ao : AuthOptionsProvider) : string :=
  match ao with
  | AuthByOptions o => AuthOptions.IdentityEndpoint o
  | AuthByAKSK o => AKSKAuthOptions.IdentityEndpoint o
  end.

(** ** TLS material and the HTTP transport *)

Module TLSConfig.
Record t := mk {
  RootCAs : option string;
  InsecureSkipVerify : bool;
  Certificates : list (string * string)
}.
Definition zero : t := mk None false [].
End TLSConfig.

(** [&LogRoundTripper{Rt: &http.Transport{TLSClientConfig: config}, ...}]:
    one heap object per built client, reached through a pointer. *)
Module LogRoundTripper.
Record t := mk {
  Rt : TLSConfig.t;
  OsDebug : bool;
  MaxRetries : Z
}.
End LogRoundTripper.

(** [http.Client]: the transport is held by pointer; the [CheckRedirect]
    closure of [genClient] captures the pointer of the client it was built
    for and reads that client's AK/SK options. *)
Module HTTPClient.
Record t := mk {
  Transport : option loc;
  CheckRedirect : option loc
}.
Definition zero : t := mk None None.
End HTTPClient.

(** ** golangsdk.ProviderClient and golangsdk.ServiceClient *)

Module ProviderClient.
Record t := mk {
  IdentityBase : string;
  IdentityEndpoint : string;
  TokenID : string;
  ProjectID : string;
  DomainID : string;
  UserAgent : list string;
  HTTPClient : HTTPClient.t;
  AKSKAuthOptions : AKSKAuthOptions.t
}.
Definition zero : t := mk "" "" "" "" "" [] HTTPClient.zero AKSKAuthOptions.zero.
Definition set_ProjectID (v : string) (p : t) : t :=
  mk (IdentityBase p) (IdentityEndpoint p) (TokenID p) v (DomainID p)
     (UserAgent p) (HTTPClient p) (AKSKAuthOptions p).
Definition set_UserAgent (v : list string) (p : t) : t :=
  mk (IdentityBase p) (IdentityEndpoint p) (TokenID p) (ProjectID p)
     (DomainID p) v (HTTPClient p) (AKSKAuthOptions p).
Definition set_HTTPClient (v : HTTPClient.t) (p : t) : t :=
  mk (IdentityBase p) (IdentityEndpoint p) (TokenID p) (ProjectID p)
     (DomainID p) (UserAgent p) v (AKSKAuthOptions p).
Definition set_AKSKAuthOptions (v : AKSKAuthOptions.t) (p : t) : t :=
  mk (IdentityBase p) (IdentityEndpoint p) (TokenID p) (ProjectID p)
     (DomainID p) (UserAgent p) (HTTPClient p) v.
End ProviderClient.

Module ServiceClient.
Record t := mk {
  ProviderClient : option loc;
  Endpoint : string;
  ResourceBase : string
}.
Definition zero : t := mk None "" "".
Definition set_ProviderClient (v : option loc) (s : t) : t :=
  mk v (Endpoint s) (ResourceBase s).
Definition set_Endpoint (v : string) (s : t) : t :=
  mk (ProviderClient s) v (ResourceBase s).
Definition set_ResourceBase (v : string) (s : t) : t :=
  mk (ProviderClient s) (Endpoint s) v.
End ServiceClient.

(** ** The service catalog entry

    The struct is declared next to the table [allServiceCatalog]; its fields
    are the ones [NewServiceClient] and [newServiceClientByName] read. *)
Module ServiceCatalog.
Record t := mk {
  Name : string;
  Version : string;
  Scope : string;
  Admin : bool;
  ResourceBase : string;
  WithOutProjectID : bool
}.
Definition zero : t := mk "" "" "" false "" false.
End ServiceCatalog.

(** ** identity/v3/projects *)

Module Project.
Record t := mk { ID : string; Name : string }.
End Project.

Module ListOpts.
Record t := mk { DomainID : string; Name : string }.
End ListOpts.

(** The body returned by [projects.List(...).AllPages()]. *)
Definition Pages := string.

(** ** S3 session material (aws-sdk-go) *)

Module AwsConfig.
Record t := mk {
  Credentials : string;
  Region : string;
  Debug : bool;
  InsecureSkipVerify : bool
}.
End AwsConfig.

Inductive aws_error :=
| AwsErr (code message : string)
| OtherErr (message : string).

(** [err.(awserr.Error)] and [sErr.Code()]. *)
Definition aws_error_code (e : aws_error) : option string :=
  match e with
  | AwsErr code _ => Some code
  | OtherErr _ => None
  end.

Definition aws_error_text (e : aws_error) : string :=
  match e with
  | AwsErr code message => code +:+ ": " +:+ message
  | OtherErr message => message
  end.

(** ** Config *)

Module Config.
Record t := mk {
  AccessKey : string;
  SecretKey : string;
  CACertFile : string;
  ClientCertFile : string;
  ClientKeyFile : string;
  DomainID : string;
  DomainName : string;
  IdentityEndpoint : string;
  Insecure : bool;
  Password : string;
  Region : string;
  TenantID : string;
  TenantName : string;
  Token : string;
  Username : string;
  UserID : string;
  AgencyName : string;
  AgencyDomainName : string;
  DelegatedProject : string;
  Cloud : string;
  MaxRetries : Z;
  TerraformVersion : string;
  RegionClient : bool;
  EnterpriseProjectID : string;
  HwClient : option loc;
  s3sess : option AwsConfig.t;
  DomainClient : option loc;
  RegionProjectIDMap : gmap string string;
  (** [RPLock]: [true] while the mutex is held. *)
  RPLock : bool
}.

Definition set_HwClient (v : option loc) (c : t) : t :=
  mk (AccessKey c) (SecretKey c) (CACertFile c) (ClientCertFile c)
     (ClientKeyFile c) (DomainID c) (DomainName c) (IdentityEndpoint c)
     (Insecure c) (Password c) (Region c) (TenantID c) (TenantName c)
     (Token c) (Username c) (UserID c) (AgencyName c) (AgencyDomainName c)
     (DelegatedProject c) (Cloud c) (MaxRetries c) (TerraformVersion c)
     (RegionClient c) (EnterpriseProjectID c)
     v (s3sess c) (DomainClient c) (RegionProjectIDMap c) (RPLock c).
Definition set_s3sess (v : option AwsConfig.t) (c : t) : t :=
  mk (AccessKey c) (SecretKey c) (CACertFile c) (ClientCertFile c)
     (ClientKeyFile c) (DomainID c) (DomainName c) (IdentityEndpoint c)
     (Insecure c) (Password c) (Region c) (TenantID c) (TenantName c)
     (Token c) (Username c) (UserID c) (AgencyName c) (AgencyDomainName c)
     (DelegatedProject c) (Cloud c) (MaxRetries c) (TerraformVersion c)
     (RegionClient c) (EnterpriseProjectID c)
     (HwClient c) v (DomainClient c) (RegionProjectIDMap c) (RPLock c).
Definition set_DomainClient (v : option loc) (c : t) : t :=
  mk (AccessKey c) (SecretKey c) (CACertFile c) (ClientCertFile c)
     (ClientKeyFile c) (DomainID c) (DomainName c) (IdentityEndpoint c)
     (Insecure c) (Password c) (Region c) (TenantID c) (TenantName c)
     (Token c) (Username c) (UserID c) (AgencyName c) (AgencyDomainName c)
     (DelegatedProject c) (Cloud c) (MaxRetries c) (TerraformVersion c)
     (RegionClient c) (EnterpriseProjectID c)
     (HwClient c) (s3sess c) v (RegionProjectIDMap c) (RPLock c).
Definition set_RegionProjectIDMap (v : gmap string string) (c : t) : t :=
  mk (AccessKey c) (SecretKey c) (CACertFile c) (ClientCertFile c)
     (ClientKeyFile c) (DomainID c) (DomainName c) (IdentityEndpoint c)
     (Insecure c) (Password c) (Region c) (TenantID c) (TenantName c)
     (Token c) (Username c) (UserID c) (AgencyName c) (AgencyDomainName c)
     (DelegatedProject c) (Cloud c) (MaxRetries c) (TerraformVersion c)
     (RegionClient c) (EnterpriseProjectID c)
     (HwClient c) (s3sess c) (DomainClient c) v (RPLock c).
Definition set_RPLock (v : bool) (c : t) : t :=
  mk (AccessKey c) (SecretKey c) (CACertFile c) (ClientCertFile c)
     (ClientKeyFile c) (DomainID c) (DomainName c) (IdentityEndpoint c)
     (Insecure c) (Password c) (Region c) (TenantID c) (TenantName c)
     (Token c) (Username c) (UserID c) (AgencyName c) (AgencyDomainName c)
     (DelegatedProject c) (Cloud c) (MaxRetries c) (TerraformVersion c)
     (RegionClient c) (EnterpriseProjectID c)
     (HwClient c) (s3sess c) (DomainClient c) (RegionProjectIDMap c) v.
End Config.

(** ** The world *)

(** Calls that leave the process. *)
Inductive Event :=
| CallRead (path : string)
| CallAuthenticate (client : loc) (ao : AuthOptionsProvider)
| CallListProjects (client : option loc) (endpoint : string) (opts : ListOpts.t)
| CallCredentialsGet (creds : string).

Module World.
Record t := mk {
  config : Config.t;
  clients : list ProviderClient.t;
  transports : list LogRoundTripper.t;
  trace : list Event
}.
Definition set_config (v : Config.t) (w : t) : t :=
  mk v (clients w) (transports w) (trace w).
Definition set_clients (v : list ProviderClient.t) (w : t) : t :=
  mk (config w) v (transports w) (trace w).
Definition set_transports (v : list LogRoundTripper.t) (w : t) : t :=
  mk (config w) (clients w) v (trace w).
Definition set_trace (v : list Event) (w : t) : t :=
  mk (config w) (clients w) (transports w) v.
End World.

(** The libraries and services the code calls.  Every call that reaches the
    network or the file system is given the trace so far, so its answer may
    change from one call to the next. *)
Module Env.
Record t := mk {
  huaweisdk_NewClient : string → result ProviderClient.t;
  httpclient_TerraformUserAgent : string → string;
  logging_IsDebugOrHigher : bool;
  pathorcontents_Read : list Event → string → result string;
  tls_X509KeyPair : string → string → result (string * string);
  huaweisdk_Authenticate :
    list Event → ProviderClient.t → AuthOptionsProvider → result ProviderClient.t;
  projects_List_AllPages :
    list Event → ProviderClient.t → string → ListOpts.t → result Pages;
  projects_ExtractProjects : Pages → result (list Project.t);
  GetCredentials : Config.t → result string;
  credentials_Get : list Event → string → aws_error + string;
  session_NewSession : AwsConfig.t → result AwsConfig.t
}.
End Env.

(** ** Outcomes and the state monad *)

Inductive fault :=
| NilDereference
| Deadlock.

Inductive outcome (A : Type) : Type :=
| Ret (a : A)
| Fail (e : error)
| Panic (f : fault).
Arguments Ret {A} a.
Arguments Fail {A} e.
Arguments Panic {A} f.

Definition M (A : Type) : Type := World.t → outcome A * World.t.

#[global] Instance M_ret : MRet M := λ A a w, (Ret a, w).
#[global] Instance M_bind : MBind M := λ A B f m w,
  match m w with
  | (Ret a, w') => f a w'
  | (Fail e, w') => (Fail e, w')
  | (Panic p, w') => (Panic p, w')
  end.

Definition errorf {A} (msg : string) : M A := λ w, (Fail msg, w).
Definition panic {A} (f : fault) : M A := λ w, (Panic f, w).
Definition get_config : M Config.t := λ w, (Ret (World.config w), w).
Definition put_config (c : Config.t) : M unit := λ w, (Ret (), World.set_config c w).
Definition modify_config (f : Config.t → Config.t) : M unit :=
  λ w, (Ret (), World.set_config (f (World.config w)) w).
Definition get_trace : M (list Event) := λ w, (Ret (World.trace w), w).
Definition emit (e : Event) : M unit :=
  λ w, (Ret (), World.set_trace (World.trace w ++ [e]) w).

(** Lifting a library result: [if err != nil { return ..., wrap(err) }]. *)
Definition lift_result {A} (wrap : error → error) (r : result A) : M A :=
  match r with
  | Ok a => mret a
  | Err e => errorf (wrap e)
  end.

(** [new(golangsdk.ProviderClient)] and the three pointer operations. *)
Definition new_ProviderClient (v : ProviderClient.t) : M loc :=
  λ w, (Ret (length (World.clients w)), World.set_clients (World.clients w ++ [v]) w).
Definition load_client (p : option loc) : M ProviderClient.t :=
  λ w, match p with
       | Some l => match World.clients w !! l with
                   | Some v => (Ret v, w)
                   | None => (Panic NilDereference, w)
                   end
       | None => (Panic NilDereference, w)
       end.
Definition store_client (l : loc) (v : ProviderClient.t) : M unit :=
  λ w, (Ret (), World.set_clients (<[l := v]> (World.clients w)) w).
Definition update_client (l : loc) (f : ProviderClient.t → ProviderClient.t) : M unit :=
  v ← load_client (Some l); store_client l (f v).
Definition new_LogRoundTripper (v : LogRoundTripper.t) : M loc :=
  λ w, (Ret (length (World.transports w)),
        World.set_transports (World.transports w ++ [v]) w).

(** [defer d]: [d] runs when the body leaves, by return, error or panic. *)
Definition defer {A} (d : World.t → World.t) (body : M A) : M A :=
  λ w, let '(r, w') := body w in (r, d w').

(** ** provider.go: the configuration bag handed to [configureProvider] *)

Module ResourceData.
Record t := mk {
  access_key : string;
  secret_key : string;
  cacert_file : string;
  cert : string;
  key : string;
  domain_id : string;
  domain_name : string;
  auth_url : string;
  insecure : bool;
  password : string;
  region : string;
  token : string;
  tenant_id : string;
  tenant_name : string;
  user_name : string;
  user_id : string;
  agency_name : string;
  agency_domain_name : string;
  delegated_project : string;
  cloud : string;
  max_retries : Z;
  enterprise_project_id : string
}.
(** [d.GetOk(k)] on a string option: the value, and whether it is set to
    something other than the zero value. *)
Definition GetOk (v : string) : string * bool := (v, bool_decide (v ≠ "")).
End ResourceData.

(** ** The program *)

Section Program.
Context (env : Env.t).
(** [allServiceCatalog], the static table of catalog entries. *)
Context (allServiceCatalog : gmap string ServiceCatalog.t).

(** [allServiceCatalog[srv]]: a missing key reads as the zero entry. *)
Definition catalog_of (srv : string) : ServiceCatalog.t :=
  default ServiceCatalog.zero (allServiceCatalog !! srv).

(** [pathorcontents.Read(path)] with the error wrapped by the caller. *)
Definition read_path (wrap : error → error) (path : string) : M string :=
  h ← get_trace;
  emit (CallRead path);;
  lift_result wrap (Env.pathorcontents_Read env h path).

Definition generateTLSConfig (c : Config.t) : M TLSConfig.t :=
  let config := TLSConfig.zero in
  config ←
    (if decide (Config.CACertFile c ≠ "") then
       caCert ← read_path (λ e, "Error reading CA Cert: " +:+ e) (Config.CACertFile c);
       mret (TLSConfig.mk (Some caCert) (TLSConfig.InsecureSkipVerify config)
                          (TLSConfig.Certificates config))
     else mret config);
  let config :=
    if Config.Insecure c
    then TLSConfig.mk (TLSConfig.RootCAs config) true (TLSConfig.Certificates config)
    else config in
  if decide (Config.ClientCertFile c ≠ "" ∧ Config.ClientKeyFile c ≠ "") then
    clientCert ← read_path (λ e, "Error reading Client Cert: " +:+ e) (Config.ClientCertFile c);
    clientKey ← read_path (λ e, "Error reading Client Key: " +:+ e) (Config.ClientKeyFile c);
    cert ← lift_result id (Env.tls_X509KeyPair env clientCert clientKey);
    mret (TLSConfig.mk (TLSConfig.RootCAs config) (TLSConfig.InsecureSkipVerify config) [cert])
  else mret config.

Definition genClient (ao : AuthOptionsProvider) : M loc :=
  fresh ← lift_result id (Env.huaweisdk_NewClient env (GetIdentityEndpoint ao));
  client ← new_ProviderClient fresh;
  c ← get_config;
  update_client client (λ v,
    ProviderClient.set_UserAgent
      (Env.httpclient_TerraformUserAgent env (Config.TerraformVersion c)
         :: ProviderClient.UserAgent v) v);;
  config ← generateTLSConfig c;
  rt ← new_LogRoundTripper
         (LogRoundTripper.mk config (Env.logging_IsDebugOrHigher env) (Config.MaxRetries c));
  update_client client
    (ProviderClient.set_HTTPClient (HTTPClient.mk (Some rt) (Some client)));;
  (* huaweisdk.Authenticate(client, ao) fills the client in place *)
  v ← load_client (Some client);
  h ← get_trace;
  emit (CallAuthenticate client ao);;
  v' ← lift_result id (Env.huaweisdk_Authenticate env h v ao);
  store_client client v';;
  mret client.

Definition genClients (pao dao : AuthOptionsProvider) : M unit :=
  client ← genClient pao;
  modify_config (Config.set_HwClient (Some client));;
  (* client, err = genClient(c, dao); if err == nil {...}; return err *)
  client ← genClient dao;
  modify_config (Config.set_DomainClient (Some client)).

Definition agency_set (c : Config.t) : Prop :=
  Config.AgencyDomainName c ≠ "" ∧ Config.AgencyName c ≠ "".

Definition buildClientByToken : M unit :=
  c ← get_config;
  let '(pao, dao) :=
    if decide (agency_set c) then
      (AuthOptions.mk "" "" "" "" "" "" "" "" ""
         (Config.AgencyName c) (Config.AgencyDomainName c) (Config.DelegatedProject c),
       AuthOptions.mk "" "" "" "" "" "" "" "" ""
         (Config.AgencyName c) (Config.AgencyDomainName c) "")
    else
      (AuthOptions.mk "" "" "" "" (Config.DomainID c) (Config.DomainName c)
         (Config.TenantID c) (Config.TenantName c) "" "" "" "",
       AuthOptions.mk "" "" "" "" (Config.DomainID c) (Config.DomainName c)
         "" "" "" "" "" "") in
  let fill (ao : AuthOptions.t) :=
    AuthOptions.mk (Config.IdentityEndpoint c)
      (AuthOptions.Username ao) (AuthOptions.UserID ao) (AuthOptions.Password ao)
      (AuthOptions.DomainID ao) (AuthOptions.DomainName ao)
      (AuthOptions.TenantID ao) (AuthOptions.TenantName ao)
      (Config.Token c)
      (AuthOptions.AgencyName ao) (AuthOptions.AgencyDomainName ao)
      (AuthOptions.DelegatedProject ao) in
  genClients (AuthByOptions (fill pao)) (AuthByOptions (fill dao)).

Definition buildClientByAKSK : M unit :=
  c ← get_config;
  let '(pao, dao) :=
    if decide (agency_set c) then
      (AKSKAuthOptions.mk "" "" "" "" (Config.DomainName c) (Config.DomainID c) "" "" "" ""
         (Config.AgencyName c) (Config.AgencyDomainName c) (Config.DelegatedProject c),
       AKSKAuthOptions.mk "" "" "" "" (Config.DomainName c) (Config.DomainID c) "" "" "" ""
         (Config.AgencyName c) (Config.AgencyDomainName c) "")
    else
      (AKSKAuthOptions.mk "" (Config.TenantID c) (Config.TenantName c) "" "" ""
         (Config.DomainName c) (Config.DomainID c) "" "" "" "" "",
       AKSKAuthOptions.mk "" "" "" "" (Config.DomainName c) (Config.DomainID c)
         "" "" "" "" "" "" "") in
  let fill (ao : AKSKAuthOptions.t) :=
    AKSKAuthOptions.mk (Config.IdentityEndpoint c)
      (AKSKAuthOptions.ProjectId ao) (AKSKAuthOptions.ProjectName ao)
      (AKSKAuthOptions.Region ao) (AKSKAuthOptions.Domain ao)
      (AKSKAuthOptions.DomainID ao) (AKSKAuthOptions.BssDomain ao)
      (AKSKAuthOptions.BssDomainID ao)
      (Config.AccessKey c) (Config.SecretKey c)
      (AKSKAuthOptions.AgencyName ao) (AKSKAuthOptions.AgencyDomainName ao)
      (AKSKAuthOptions.DelegatedProject ao) in
  genClients (AuthByAKSK (fill pao)) (AuthByAKSK (fill dao)).

Definition buildClientByPassword : M unit :=
  c ← get_config;
  let '(pao, dao) :=
    if decide (agency_set c) then
      (AuthOptions.mk "" "" "" "" (Config.DomainID c) (Config.DomainName c) "" "" ""
         (Config.AgencyName c) (Config.AgencyDomainName c) (Config.DelegatedProject c),
       AuthOptions.mk "" "" "" "" (Config.DomainID c) (Config.DomainName c) "" "" ""
         (Config.AgencyName c) (Config.AgencyDomainName c) "")
    else
      (AuthOptions.mk "" "" "" "" (Config.DomainID c) (Config.DomainName c)
         (Config.TenantID c) (Config.TenantName c) "" "" "" "",
       AuthOptions.mk "" "" "" "" (Config.DomainID c) (Config.DomainName c)
         "" "" "" "" "" "") in
  let fill (ao : AuthOptions.t) :=
    AuthOptions.mk (Config.IdentityEndpoint c)
      (Config.Username c) (Config.UserID c) (Config.Password c)
      (AuthOptions.DomainID ao) (AuthOptions.DomainName ao)
      (AuthOptions.TenantID ao) (AuthOptions.TenantName ao)
      (AuthOptions.TokenID ao)
      (AuthOptions.AgencyName ao) (AuthOptions.AgencyDomainName ao)
      (AuthOptions.DelegatedProject ao) in
  genClients (AuthByOptions (fill pao)) (AuthByOptions (fill dao)).

Definition newS3Session (osDebug : bool) : M unit :=
  c ← get_config;
  if decide (Config.AccessKey c ≠ "" ∧ Config.SecretKey c ≠ "") then
    creds ← lift_result id (Env.GetCredentials env c);
    h ← get_trace;
    emit (CallCredentialsGet creds);;
    match Env.credentials_Get env h creds with
    | inl e =>
        if decide (aws_error_code e = Some "NoCredentialProviders") then
          errorf "No valid credential sources found for S3 Provider."
        else
          errorf ("Error loading credentials for S3 Provider: " +:+ aws_error_text e)
    | inr _ =>
        let sConfig :=
          AwsConfig.mk creds (Config.Region c) osDebug (Config.Insecure c) in
        match Env.session_NewSession env sConfig with
        | Ok sess => modify_config (Config.set_s3sess (Some sess))
        | Err e =>
            modify_config (Config.set_s3sess None);;
            errorf ("Error creating Swift S3 session: " +:+ e)
        end
    end
  else mret ().

Definition LoadAndValidate : M unit :=
  c ← get_config;
  if decide (Config.MaxRetries c < 0)%Z then
    errorf "max_retries should be a positive value"
  else
    (if decide (Config.Token c ≠ "") then buildClientByToken
     else if decide (Config.AccessKey c ≠ "" ∧ Config.SecretKey c ≠ "") then
       buildClientByAKSK
     else if decide (Config.Password c ≠ "") then
       if decide (Config.Username c = "" ∧ Config.UserID c = "") then
         errorf (dquote +:+ "password" +:+ dquote
                 +:+ ": one of `user_name, user_id` must be specified")
       else buildClientByPassword
     else
       errorf "Must config token or aksk or username password to be authorized");;
    newS3Session (Env.logging_IsDebugOrHigher env).

(** [for _, item := range all { c.RegionProjectIDMap[item.Name] = item.ID }] *)
Definition store_projects (all : list Project.t) (m : gmap string string)
  : gmap string string :=
  foldl (λ m item, <[Project.Name item := Project.ID item]> m) m all.

Definition loadUserProjects (client : option loc) (region : string) : M unit :=
  v ← load_client client;
  c ← get_config;
  let domainID := ProviderClient.DomainID v in
  let opts := ListOpts.mk domainID region in
  let endpoint := Config.IdentityEndpoint c +:+ "/" in
  h ← get_trace;
  emit (CallListProjects client endpoint opts);;
  allPages ← lift_result (λ e, "List projects failed, err=" +:+ e)
               (Env.projects_List_AllPages env h v endpoint opts);
  all ← lift_result (λ e, "Extract projects failed, err=" +:+ e)
          (Env.projects_ExtractProjects env allPages);
  if decide (length all = 0) then
    errorf ("Wrong name or no access to the region: " +:+ region)
  else
    modify_config (λ c,
      Config.set_RegionProjectIDMap (store_projects all (Config.RegionProjectIDMap c)) c).

Definition RPLock_Lock : M unit :=
  c ← get_config;
  if Config.RPLock c then panic Deadlock
  else put_config (Config.set_RPLock true c).

Definition RPLock_Unlock (w : World.t) : World.t :=
  World.set_config (Config.set_RPLock false (World.config w)) w.

Definition newServiceClientByName (client : option loc)
    (catalog : ServiceCatalog.t) (region : string) : M ServiceClient.t :=
  c ← get_config;
  if decide (ServiceCatalog.Name catalog = "" ∨ ServiceCatalog.Version catalog = "") then
    errorf "must specify the service name and api version"
  else if decide (region ≠ Config.Region c
                  ∧ (Config.AccessKey c = "" ∨ Config.SecretKey c = "")) then
    errorf "Resource-level region must be the same as Provider-level region when using non AK/SK authentication if Resource-level region set"
  else
    RPLock_Lock;;
    defer RPLock_Unlock (
      c ← get_config;
      projectID ←
        match Config.RegionProjectIDMap c !! region with
        | Some projectID => mret projectID
        | None =>
            (* Not find in the map, then try to query and store. *)
            loadUserProjects client region;;
            c ← get_config;
            mret (default "" (Config.RegionProjectIDMap c !! region))
        end;
      let sc := ServiceClient.zero in
      clone ← new_ProviderClient ProviderClient.zero;
      v ← load_client client;
      store_client clone v;;
      update_client clone (ProviderClient.set_ProjectID projectID);;
      update_client clone (λ v, ProviderClient.set_AKSKAuthOptions
        (AKSKAuthOptions.set_ProjectId projectID (ProviderClient.AKSKAuthOptions v)) v);;
      update_client clone (λ v, ProviderClient.set_AKSKAuthOptions
        (AKSKAuthOptions.set_Region region (ProviderClient.AKSKAuthOptions v)) v);;
      let sc := ServiceClient.set_ProviderClient (Some clone) sc in
      c ← get_config;
      let sc :=
        if decide (ServiceCatalog.Scope catalog = "global" ∧ Config.RegionClient c = false)
        then ServiceClient.set_Endpoint
               ("https://" +:+ ServiceCatalog.Name catalog +:+ "." +:+ Config.Cloud c +:+ "/") sc
        else ServiceClient.set_Endpoint
               ("https://" +:+ ServiceCatalog.Name catalog +:+ "." +:+ region
                +:+ "." +:+ Config.Cloud c +:+ "/") sc in
      let sc := ServiceClient.set_ResourceBase
                  (ServiceClient.Endpoint sc +:+ ServiceCatalog.Version catalog +:+ "/") sc in
      let sc :=
        if ServiceCatalog.WithOutProjectID catalog then sc
        else ServiceClient.set_ResourceBase
               (ServiceClient.ResourceBase sc +:+ projectID +:+ "/") sc in
      let sc :=
        if decide (ServiceCatalog.ResourceBase catalog ≠ "")
        then ServiceClient.set_ResourceBase
               (ServiceClient.ResourceBase sc +:+ ServiceCatalog.ResourceBase catalog +:+ "/") sc
        else sc in
      mret sc).

Definition NewServiceClient (srv region : string) : M ServiceClient.t :=
  c ← get_config;
  let client :=
    if ServiceCatalog.Admin (catalog_of srv) then Config.DomainClient c
    else Config.HwClient c in
  newServiceClientByName client (catalog_of srv) region.

Definition configureProvider (d : ResourceData.t) (terraformVersion : string) : M unit :=
  let tenant_name :=
    let '(v, ok) := ResourceData.GetOk (ResourceData.tenant_name d) in
    if ok && bool_decide (v ≠ "") then v else ResourceData.region d in
  let delegated_project :=
    let '(v, ok) := ResourceData.GetOk (ResourceData.delegated_project d) in
    if ok && bool_decide (v ≠ "") then v else ResourceData.region d in
  put_config (Config.mk
    (ResourceData.access_key d) (ResourceData.secret_key d)
    (ResourceData.cacert_file d) (ResourceData.cert d) (ResourceData.key d)
    (ResourceData.domain_id d) (ResourceData.domain_name d)
    (ResourceData.auth_url d) (ResourceData.insecure d)
    (ResourceData.password d) (ResourceData.region d)
    (ResourceData.tenant_id d) tenant_name
    (ResourceData.token d) (ResourceData.user_name d) (ResourceData.user_id d)
    (ResourceData.agency_name d) (ResourceData.agency_domain_name d)
    delegated_project (ResourceData.cloud d) (ResourceData.max_retries d)
    terraformVersion false (ResourceData.enterprise_project_id d)
    None None None ∅ false);;
  LoadAndValidate;;
  config ← get_config;
  match Config.HwClient config with
  | Some hw =>
      v ← load_client (Some hw);
      if decide (ProviderClient.ProjectID v ≠ "") then
        modify_config (Config.set_RegionProjectIDMap
          (<[Config.Region config := ProviderClient.ProjectID v]>
             (Config.RegionProjectIDMap config)))
      else mret ()
  | None => mret ()
  end.

End Program.

(** ** provider.go: the [ConfigureFunc] closure of [Provider]

    [provider.TerraformVersion] is the version the SDK reports, empty
    before Terraform 0.12. *)
Definition Provider_ConfigureFunc (env : Env.t) (provider_TerraformVersion : string)
    (d : ResourceData.t) : M unit :=
  let terraformVersion := provider_TerraformVersion in
  let terraformVersion :=
    if decide (terraformVersion = "") then
      (* Terraform 0.12 introduced this field to the protocol *)
      "0.11+compatible"
    else terraformVersion in
  configureProvider env d terraformVersion.

(** ** config.go: the object-storage clients

    These functions only read the configuration.  The OBS constructors
    also write to the log; the lines they write are returned with the
    result. *)

Definition obsLogFile : string := "./.obs-sdk.log".
Definition obsLogFileSize10MB : Z := 1024 * 1024 * 10.

(** [*s3.S3]: the session it is created from, with the endpoint override
    of [c.s3sess.Copy(&aws.Config{Endpoint: ...})]. *)
Module S3.
Record t := mk { Session : AwsConfig.t; Endpoint : string }.
End S3.

(** The OBS SDK (golangsdk/openstack/obs). *)
Module Obs.
Inductive Level := LEVEL_OFF | LEVEL_ERROR | LEVEL_WARN | LEVEL_INFO | LEVEL_DEBUG.
Inductive configurer := WithSignature (signature : string).
Record Sdk (ObsClient : Type) := mkSdk {
  (** [InitLog(logFullPath, maxLogSize, backups, level, logToConsole)] *)
  InitLog : string → Z → Z → Level → bool → result unit;
  (** [New(ak, sk, endpoint, configurers...)] *)
  New : string → string → string → list configurer → result ObsClient
}.
Arguments InitLog {ObsClient} s.
Arguments New {ObsClient} s.
End Obs.

Definition getObsEndpoint (c : Config.t) (region : string) : string :=
  "https://obs." +:+ region +:+ "." +:+ Config.Cloud c +:+ "/".

Definition computeS3conn (c : Config.t) (region : string) : result S3.t :=
  match Config.s3sess c with
  | None =>
      Err "missing credentials for Swift S3 Provider, need access_key and secret_key values for provider"
  | Some s3sess =>
      let obsEndpoint := getObsEndpoint c region in
      Ok (S3.mk s3sess obsEndpoint)
  end.

Section ObjectStorage.
Context (env : Env.t) {ObsClient : Type} (obs : Obs.Sdk ObsClient).

Definition newObjectStorageClientWithSignature (c : Config.t) (region : string)
  : list string * result ObsClient :=
  if decide (Config.AccessKey c = "" ∨ Config.SecretKey c = "") then
    ([], Err "missing credentials for OBS, need access_key and secret_key values for provider")
  else
    (* init log *)
    let log :=
      if Env.logging_IsDebugOrHigher env then
        match Obs.InitLog obs obsLogFile obsLogFileSize10MB 10 Obs.LEVEL_DEBUG false with
        | Err err => ["[WARN] initial obs sdk log failed: " +:+ err]
        | Ok _ => []
        end
      else [] in
    let obsEndpoint := getObsEndpoint c region in
    (log, Obs.New obs (Config.AccessKey c) (Config.SecretKey c) obsEndpoint
            [Obs.WithSignature "OBS"]).

Definition newObjectStorageClient (c : Config.t) (region : string)
  : list string * result ObsClient :=
  if decide (Config.AccessKey c = "" ∨ Config.SecretKey c = "") then
    ([], Err "missing credentials for OBS, need access_key and secret_key values for provider")
  else
    (* init log *)
    let log :=
      if Env.logging_IsDebugOrHigher env then
        match Obs.InitLog obs obsLogFile obsLogFileSize10MB 10 Obs.LEVEL_DEBUG false with
        | Err err => ["[WARN] initial obs sdk log failed: " +:+ err]
        | Ok _ => []
        end
      else [] in
    let obsEndpoint := getObsEndpoint c region in
    (log, Obs.New obs (Config.AccessKey c) (Config.SecretKey c) obsEndpoint []).
End ObjectStorage.

(** ** config.go: the logger handed to the S3 session

    An argument of [Log(args ...interface{})] is a string or a value of
    some other type. *)
Inductive LogArg (T : Type) : Type :=
| StringArg (token : string)
| OtherArg (v : T).
Arguments StringArg {T} token.
Arguments OtherArg {T} v.

(** [strings.Join(elems, sep)] *)
Definition strings_Join (elems : list string) (sep : string) : string :=
  String.concat sep elems.

(** [sLogger.Log]: the line handed to [log.Printf]. *)
Definition sLogger_Log {T} (args : list (LogArg T)) : string :=
  let tokens :=
    foldl (λ tokens arg,
             match arg with
             | StringArg token => tokens ++ [token]
             | OtherArg _ => tokens
             end) [] args in
  "[DEBUG] [aws-sdk-go] " +:+ strings_Join tokens " ".

(** * Views of the program used in the statements *)

Abbreviation rpmap w := (Config.RegionProjectIDMap (World.config w)).

(** ** Frames: what a computation leaves related between start and end *)

Definition framed {A} (R : relation World.t) (m : M A) : Prop :=
  ∀ w r w', m w = (r, w') → R w w'.

(** The relations used below. *)
Definition same_config : relation World.t := λ w w', World.config w' = World.config w.
Definition keys_kept : relation World.t := λ w w',
  dom (Config.RegionProjectIDMap (World.config w))
  ⊆ dom (Config.RegionProjectIDMap (World.config w')).
(** Every field of the configuration but the three that [LoadAndValidate]
    assigns ([HwClient], [DomainClient], [s3sess]) is the same. *)
Definition erase_clients (c : Config.t) : Config.t :=
  Config.set_s3sess None (Config.set_DomainClient None (Config.set_HwClient None c)).
Definition settings_kept : relation World.t := λ w w',
  erase_clients (World.config w') = erase_clients (World.config w).

(** ** The parts of [configureProvider] *)

(** The configuration [configureProvider] builds from a bag, before
    [LoadAndValidate] runs. *)
Definition initial_config (d : ResourceData.t) (terraformVersion : string) : Config.t :=
  Config.mk
    (ResourceData.access_key d) (ResourceData.secret_key d)
    (ResourceData.cacert_file d) (ResourceData.cert d) (ResourceData.key d)
    (ResourceData.domain_id d) (ResourceData.domain_name d)
    (ResourceData.auth_url d) (ResourceData.insecure d)
    (ResourceData.password d) (ResourceData.region d)
    (ResourceData.tenant_id d)
    (if decide (ResourceData.tenant_name d ≠ "") then ResourceData.tenant_name d
     else ResourceData.region d)
    (ResourceData.token d) (ResourceData.user_name d) (ResourceData.user_id d)
    (ResourceData.agency_name d) (ResourceData.agency_domain_name d)
    (if decide (ResourceData.delegated_project d ≠ "") then ResourceData.delegated_project d
     else ResourceData.region d)
    (ResourceData.cloud d) (ResourceData.max_retries d)
    terraformVersion false (ResourceData.enterprise_project_id d)
    None None None ∅ false.

(** provider.go:611-613, after [LoadAndValidate] has succeeded. *)
Definition seed_default_region (w : World.t) : outcome unit * World.t :=
  let config := World.config w in
  match Config.HwClient config with
  | Some hw =>
      match World.clients w !! hw with
      | Some v =>
          if decide (ProviderClient.ProjectID v ≠ "") then
            (Ret (),
             World.set_config
               (Config.set_RegionProjectIDMap
                  (<[Config.Region config := ProviderClient.ProjectID v]>
                     (Config.RegionProjectIDMap config)) config) w)
          else (Ret (), w)
      | None => (Panic NilDereference, w)
      end
  | None => (Ret (), w)
  end.

Definition is_query (e : Event) : bool :=
  match e with CallListProjects _ _ _ => true | _ => false end.

(** The number of project listings a trace holds. *)
Definition count_queries (t : list Event) : nat :=
  length (filter (λ e, is_query e) t).

(** ** The parts of [LoadAndValidate] *)

(** The strategy chosen by the conditional of config.go:79-92. *)
Definition selected_strategy (env : Env.t) (c : Config.t) : M unit :=
  if decide (Config.Token c ≠ "") then buildClientByToken env
  else if decide (Config.AccessKey c ≠ "" ∧ Config.SecretKey c ≠ "") then
    buildClientByAKSK env
  else if decide (Config.Password c ≠ "") then
    if decide (Config.Username c = "" ∧ Config.UserID c = "") then
      errorf (dquote +:+ "password" +:+ dquote
              +:+ ": one of `user_name, user_id` must be specified")
    else buildClientByPassword env
  else
    errorf "Must config token or aksk or username password to be authorized".

(** The requests each strategy sends to the identity service. *)
Definition token_request (c : Config.t) (ao : AuthOptionsProvider) : Prop :=
  match ao with
  | AuthByOptions o =>
      AuthOptions.TokenID o = Config.Token c
      ∧ AuthOptions.Password o = "" ∧ AuthOptions.Username o = ""
      ∧ AuthOptions.UserID o = ""
  | AuthByAKSK _ => False
  end.

Definition key_pair_request (c : Config.t) (ao : AuthOptionsProvider) : Prop :=
  match ao with
  | AuthByAKSK o =>
      AKSKAuthOptions.AccessKey o = Config.AccessKey c
      ∧ AKSKAuthOptions.SecretKey o = Config.SecretKey c
  | AuthByOptions _ => False
  end.

Definition password_request (c : Config.t) (ao : AuthOptionsProvider) : Prop :=
  match ao with
  | AuthByOptions o =>
      AuthOptions.Password o = Config.Password c
      ∧ AuthOptions.Username o = Config.Username c
      ∧ AuthOptions.UserID o = Config.UserID c
      ∧ AuthOptions.TokenID o = ""
  | AuthByAKSK _ => False
  end.

(** Between [w] and [w'] the trace has only grown, and every authentication
    request it gained satisfies [P]. *)
Definition authenticates_with (P : AuthOptionsProvider → Prop) : relation World.t :=
  λ w w', ∃ events,
    World.trace w' = World.trace w ++ events
    ∧ ∀ l ao, CallAuthenticate l ao ∈ events → P ao.

(** The world once [c.HwClient = client] has run. *)
Definition with_HwClient (l : loc) (w : World.t) : World.t :=
  World.set_config (Config.set_HwClient (Some l) (World.config w)) w.
Definition with_DomainClient (l : loc) (w : World.t) : World.t :=
  World.set_config (Config.set_DomainClient (Some l) (World.config w)) w.

(** ** The parts of [newServiceClientByName] *)

(** The copy made by [*clone = *client] and the three overrides. *)
Definition overridden (projectID region : string) (v : ProviderClient.t)
  : ProviderClient.t :=
  ProviderClient.set_AKSKAuthOptions
    (AKSKAuthOptions.set_Region region
       (AKSKAuthOptions.set_ProjectId projectID (ProviderClient.AKSKAuthOptions v)))
    (ProviderClient.set_ProjectID projectID v).

(** The part of [newServiceClientByName] that follows project-ID resolution
    (config.go:455-478). *)
Definition assemble (client : option loc) (catalog : ServiceCatalog.t)
    (region projectID : string) : M ServiceClient.t :=
  let sc := ServiceClient.zero in
  clone ← new_ProviderClient ProviderClient.zero;
  v ← load_client client;
  store_client clone v;;
  update_client clone (ProviderClient.set_ProjectID projectID);;
  update_client clone (λ v, ProviderClient.set_AKSKAuthOptions
    (AKSKAuthOptions.set_ProjectId projectID (ProviderClient.AKSKAuthOptions v)) v);;
  update_client clone (λ v, ProviderClient.set_AKSKAuthOptions
    (AKSKAuthOptions.set_Region region (ProviderClient.AKSKAuthOptions v)) v);;
  let sc := ServiceClient.set_ProviderClient (Some clone) sc in
  c ← get_config;
  let sc :=
    if decide (ServiceCatalog.Scope catalog = "global" ∧ Config.RegionClient c = false)
    then ServiceClient.set_Endpoint
           ("https://" +:+ ServiceCatalog.Name catalog +:+ "." +:+ Config.Cloud c +:+ "/") sc
    else ServiceClient.set_Endpoint
           ("https://" +:+ ServiceCatalog.Name catalog +:+ "." +:+ region
            +:+ "." +:+ Config.Cloud c +:+ "/") sc in
  let sc := ServiceClient.set_ResourceBase
              (ServiceClient.Endpoint sc +:+ ServiceCatalog.Version catalog +:+ "/") sc in
  let sc :=
    if ServiceCatalog.WithOutProjectID catalog then sc
    else ServiceClient.set_ResourceBase
           (ServiceClient.ResourceBase sc +:+ projectID +:+ "/") sc in
  let sc :=
    if decide (ServiceCatalog.ResourceBase catalog ≠ "")
    then ServiceClient.set_ResourceBase
           (ServiceClient.ResourceBase sc +:+ ServiceCatalog.ResourceBase catalog +:+ "/") sc
    else sc in
  mret sc.

(** The transport a client sends its requests through, and two clients
    holding the same one. *)
Definition transport_of (w : World.t) (l : loc) : option loc :=
  World.clients w !! l ≫= λ v, HTTPClient.Transport (ProviderClient.HTTPClient v).

Definition shares_transport (w : World.t) (l1 l2 : loc) : Prop :=
  ∃ t, transport_of w l1 = Some t ∧ transport_of w l2 = Some t
       ∧ is_Some (World.transports w !! t).

(** Project-ID resolution under the lock (config.go:445-453). *)
Definition resolve (env : Env.t) (client : option loc) (region : string) : M string :=
  c ← get_config;
  match Config.RegionProjectIDMap c !! region with
  | Some projectID => mret projectID
  | None =>
      loadUserProjects env client region;;
      c ← get_config;
      mret (default "" (Config.RegionProjectIDMap c !! region))
  end.

(** The world once [c.RPLock.Lock()] has returned. *)
Definition locked (w : World.t) : World.t :=
  World.set_config (Config.set_RPLock true (World.config w)) w.

(** The endpoint and the resource base in closed form. *)
Definition endpoint_of (c : Config.t) (catalog : ServiceCatalog.t) (region : string)
  : string :=
  if decide (ServiceCatalog.Scope catalog = "global" ∧ Config.RegionClient c = false)
  then "https://" +:+ ServiceCatalog.Name catalog +:+ "." +:+ Config.Cloud c +:+ "/"
  else "https://" +:+ ServiceCatalog.Name catalog +:+ "." +:+ region
       +:+ "." +:+ Config.Cloud c +:+ "/".

Definition resource_base_of (c : Config.t) (catalog : ServiceCatalog.t)
    (region projectID : string) : string :=
  endpoint_of c catalog region
  +:+ (ServiceCatalog.Version catalog +:+ "/")
  +:+ (if ServiceCatalog.WithOutProjectID catalog then "" else projectID +:+ "/")
  +:+ (if decide (ServiceCatalog.ResourceBase catalog = "") then ""
       else ServiceCatalog.ResourceBase catalog +:+ "/").

(** The error of the region guard (config.go:440). *)
Definition region_mismatch : error :=
  "Resource-level region must be the same as Provider-level region when using non AK/SK authentication if Resource-level region set".

(** ** The identity query of [loadUserProjects] *)

(** The answer of the identity service to the query sent from world [w]
    through client [v], with the error text [loadUserProjects] gives to each
    failure. *)
Definition query_projects (env : Env.t) (w : World.t) (v : ProviderClient.t)
    (region : string) : result (list Project.t) :=
  match Env.projects_List_AllPages env (World.trace w) v
          (Config.IdentityEndpoint (World.config w) +:+ "/")
          (ListOpts.mk (ProviderClient.DomainID v) region) with
  | Err e => Err ("List projects failed, err=" +:+ e)
  | Ok allPages =>
      match Env.projects_ExtractProjects env allPages with
      | Err e => Err ("Extract projects failed, err=" +:+ e)
      | Ok all => Ok all
      end
  end.

Definition query_event (w : World.t) (client : option loc) (v : ProviderClient.t)
    (region : string) : Event :=
  CallListProjects client (Config.IdentityEndpoint (World.config w) +:+ "/")
    (ListOpts.mk (ProviderClient.DomainID v) region).

(** The identity service honours the [name] filter of the listing: every
    project it returns is named as the query asked. *)
Definition filtered_listing (env : Env.t) : Prop :=
  ∀ h v endpoint opts allPages all,
    Env.projects_List_AllPages env h v endpoint opts = Ok allPages →
    Env.projects_ExtractProjects env allPages = Ok all →
    ∀ p, p ∈ all → Project.Name p = ListOpts.Name opts.

(** ** Sequences of operations on one provider *)

Inductive Op :=
| OpNewServiceClient (srv region : string)
| OpNewServiceClientByName (client : option loc) (catalog : ServiceCatalog.t)
    (region : string)
| OpLoadUserProjects (client : option loc) (region : string).

Definition exec (env : Env.t) (allServiceCatalog : gmap string ServiceCatalog.t)
    (o : Op) (w : World.t) : World.t :=
  match o with
  | OpNewServiceClient srv region =>
      snd (NewServiceClient env allServiceCatalog srv region w)
  | OpNewServiceClientByName client catalog region =>
      snd (newServiceClientByName env client catalog region w)
  | OpLoadUserProjects client region =>
      snd (loadUserProjects env client region w)
  end.

Definition run (env : Env.t) (allServiceCatalog : gmap string ServiceCatalog.t)
    (ops : list Op) (w : World.t) : World.t :=
  foldl (λ w o, exec env allServiceCatalog o w) w ops.

Definition is_construction (o : Op) : Prop :=
  match o with
  | OpLoadUserProjects _ _ => False
  | _ => True
  end.

(** ** The parts of set-up *)

(** The files [generateTLSConfig] reads for a configuration, in order. *)
Definition tls_reads (c : Config.t) : list Event :=
  (if decide (Config.CACertFile c ≠ "") then [CallRead (Config.CACertFile c)] else [])
  ++ (if decide (Config.ClientCertFile c ≠ "" ∧ Config.ClientKeyFile c ≠ "")
      then [CallRead (Config.ClientCertFile c); CallRead (Config.ClientKeyFile c)]
      else []).

(** Only the trace may differ. *)
Definition heaps_kept : relation World.t := λ w w',
  World.config w' = World.config w ∧ World.clients w' = World.clients w
  ∧ World.transports w' = World.transports w.

(** The project a set of options is scoped to: its ID, its name and the
    delegated project. *)
Definition project_scope (ao : AuthOptionsProvider) : string * string * string :=
  match ao with
  | AuthByOptions o =>
      (AuthOptions.TenantID o, AuthOptions.TenantName o, AuthOptions.DelegatedProject o)
  | AuthByAKSK o =>
      (AKSKAuthOptions.ProjectId o, AKSKAuthOptions.ProjectName o,
       AKSKAuthOptions.DelegatedProject o)
  end.

(** The agency a set of options names. *)
Definition agency_of (ao : AuthOptionsProvider) : string * string :=
  match ao with
  | AuthByOptions o => (AuthOptions.AgencyName o, AuthOptions.AgencyDomainName o)
  | AuthByAKSK o => (AKSKAuthOptions.AgencyName o, AKSKAuthOptions.AgencyDomainName o)
  end.

(** The same options with no project. *)
Definition erase_project (ao : AuthOptionsProvider) : AuthOptionsProvider :=
  match ao with
  | AuthByOptions o =>
      AuthByOptions
        (AuthOptions.mk (AuthOptions.IdentityEndpoint o) (AuthOptions.Username o)
           (AuthOptions.UserID o) (AuthOptions.Password o) (AuthOptions.DomainID o)
           (AuthOptions.DomainName o) "" "" (AuthOptions.TokenID o)
           (AuthOptions.AgencyName o) (AuthOptions.AgencyDomainName o) "")
  | AuthByAKSK o =>
      AuthByAKSK
        (AKSKAuthOptions.mk (AKSKAuthOptions.IdentityEndpoint o) "" ""
           (AKSKAuthOptions.Region o) (AKSKAuthOptions.Domain o)
           (AKSKAuthOptions.DomainID o) (AKSKAuthOptions.BssDomain o)
           (AKSKAuthOptions.BssDomainID o) (AKSKAuthOptions.AccessKey o)
           (AKSKAuthOptions.SecretKey o) (AKSKAuthOptions.AgencyName o)
           (AKSKAuthOptions.AgencyDomainName o) "")
  end.

(** What the project-scoped options [pao] and the domain-scoped options
    [dao] of a strategy have in common, whichever strategy builds them
    (config.go:230-345). *)
Definition strategy_options (c : Config.t) (pao dao : AuthOptionsProvider) : Prop :=
  GetIdentityEndpoint pao = Config.IdentityEndpoint c
  ∧ GetIdentityEndpoint dao = Config.IdentityEndpoint c
  ∧ project_scope dao = ("", "", "")
  ∧ project_scope pao
    = (if decide (agency_set c) then ("", "", Config.DelegatedProject c)
       else (Config.TenantID c, Config.TenantName c, ""))
  ∧ agency_of pao = agency_of dao
  ∧ agency_of pao
    = (if decide (agency_set c) then (Config.AgencyName c, Config.AgencyDomainName c)
       else ("", ""))
  ∧ (if decide (Config.Token c = ""
                ∧ (Config.AccessKey c ≠ "" ∧ Config.SecretKey c ≠ "")
                ∧ ¬ agency_set c)
     then ∃ po do,
            pao = AuthByAKSK po ∧ dao = AuthByAKSK do
            ∧ (AKSKAuthOptions.Domain po, AKSKAuthOptions.DomainID po) = ("", "")
            ∧ (AKSKAuthOptions.BssDomain po, AKSKAuthOptions.BssDomainID po)
              = (Config.DomainName c, Config.DomainID c)
            ∧ (AKSKAuthOptions.Domain do, AKSKAuthOptions.DomainID do)
              = (Config.DomainName c, Config.DomainID c)
            ∧ (AKSKAuthOptions.BssDomain do, AKSKAuthOptions.BssDomainID do) = ("", "")
     else dao = erase_project pao).

(** The events of the two constructions of [genClients]: for each, the TLS
    reads and the authentication request. *)
Definition setup_events (c : Config.t) (l1 : loc) (pao dao : AuthOptionsProvider)
  : list Event :=
  tls_reads c ++ [CallAuthenticate l1 pao]
  ++ tls_reads c ++ [CallAuthenticate (S l1) dao].

(** What the factory leaves alone: every field of the configuration but the
    map, every client that exists, and the transports. *)
Definition factory_frame : relation World.t := λ w w',
  World.config w' = Config.set_RegionProjectIDMap (rpmap w') (World.config w)
  ∧ World.clients w `prefix_of` World.clients w'
  ∧ World.transports w' = World.transports w.

(** * Sample providers

    Concrete environments, tables and configuration bags on which the
    statements below are run. *)

(** A small catalog in the shape of [allServiceCatalog]. *)
Definition sample_catalog : gmap string ServiceCatalog.t :=
  {[ "vpc" := ServiceCatalog.mk "vpc" "v1" "" false "" false;
     "iam" := ServiceCatalog.mk "iam" "v3.0" "global" true "" true;
     "dns" := ServiceCatalog.mk "dns" "v2" "global" false "" true;
     "kms" := ServiceCatalog.mk "kms" "v1.0" "" false "kms" false;
     "broken" := ServiceCatalog.mk "" "v1" "" true "" false ]}.

Definition sample_NewClient (endpoint : string) : result ProviderClient.t :=
  Ok (ProviderClient.mk endpoint endpoint "" "" "" []
        HTTPClient.zero AKSKAuthOptions.zero).

(** An identity service that accepts every credential.  A project-scoped
    token carries the project ID [id-] followed by the project name. *)
Definition accept_all (h : list Event) (v : ProviderClient.t)
    (ao : AuthOptionsProvider) : result ProviderClient.t :=
  match ao with
  | AuthByOptions o =>
      Ok (ProviderClient.mk (ProviderClient.IdentityBase v)
            (ProviderClient.IdentityEndpoint v) "token-1"
            (if decide (AuthOptions.TenantName o = "") then ""
             else "id-" +:+ AuthOptions.TenantName o)
            "domain-1" (ProviderClient.UserAgent v) (ProviderClient.HTTPClient v)
            (ProviderClient.AKSKAuthOptions v))
  | AuthByAKSK o =>
      Ok (ProviderClient.mk (ProviderClient.IdentityBase v)
            (ProviderClient.IdentityEndpoint v) ""
            (if decide (AKSKAuthOptions.ProjectName o = "") then ""
             else "id-" +:+ AKSKAuthOptions.ProjectName o)
            "domain-1" (ProviderClient.UserAgent v) (ProviderClient.HTTPClient v) o)
  end.

(** An identity service that refuses domain-scoped requests. *)
Definition refuse_domain_scope (h : list Event) (v : ProviderClient.t)
    (ao : AuthOptionsProvider) : result ProviderClient.t :=
  match ao with
  | AuthByOptions o =>
      if decide (AuthOptions.TenantName o = "" ∧ AuthOptions.DelegatedProject o = "")
      then Err "You are not authorized to perform the requested action"
      else accept_all h v ao
  | AuthByAKSK o =>
      if decide (AKSKAuthOptions.ProjectName o = "" ∧ AKSKAuthOptions.DelegatedProject o = "")
      then Err "You are not authorized to perform the requested action"
      else accept_all h v ao
  end.

(** The environment, given the identity service and its project listing; the
    listing is kept as a body that [ExtractProjects] decodes. *)
Definition sample_env
    (authenticate : list Event → ProviderClient.t → AuthOptionsProvider
                    → result ProviderClient.t)
    (listing : list Event → ListOpts.t → result Pages)
    (decode : Pages → result (list Project.t)) : Env.t :=
  Env.mk sample_NewClient (λ v, "HashiCorp Terraform/" +:+ v) false
    (λ _ path, Err ("open " +:+ path +:+ ": no such file or directory"))
    (λ cert key, Ok (cert, key))
    authenticate
    (λ h _ _ opts, listing h opts)
    decode
    (λ c, Ok (Config.AccessKey c))
    (λ _ creds, inr "StaticProvider")
    (λ sConfig, Ok sConfig).

(** One project per region, named as the region. *)
Definition env_ok : Env.t :=
  sample_env accept_all (λ _ opts, Ok (ListOpts.Name opts))
    (λ pages, Ok [Project.mk ("id-" +:+ pages) pages]).

Definition env_domain_refused : Env.t :=
  sample_env refuse_domain_scope (λ _ opts, Ok (ListOpts.Name opts))
    (λ pages, Ok [Project.mk ("id-" +:+ pages) pages]).

(** A listing that also returns the project of the default region, under a
    new ID. *)
Definition env_extra_project : Env.t :=
  sample_env accept_all (λ _ opts, Ok (ListOpts.Name opts))
    (λ pages, Ok [Project.mk ("id-" +:+ pages) pages;
                  Project.mk "id-renewed" "cn-north-1"]).

(** A listing that finds nothing, and one that cannot be reached. *)
Definition env_no_project : Env.t :=
  sample_env accept_all (λ _ opts, Ok (ListOpts.Name opts)) (λ pages, Ok []).

Definition env_unreachable : Env.t :=
  sample_env accept_all (λ _ _, Err "connection refused") (λ pages, Ok []).

Definition env_bad_body : Env.t :=
  sample_env accept_all (λ _ opts, Ok (ListOpts.Name opts))
    (λ pages, Err "unexpected end of JSON input").

(** The world before the provider is configured. *)
Definition empty_config : Config.t :=
  Config.mk "" "" "" "" "" "" "" "" false "" "" "" "" "" "" "" "" "" "" "" 0 ""
            false "" None None None ∅ false.
Definition w_init : World.t := World.mk empty_config [] [] [].

(** Configuration bags: password, key pair, token, token with a key pair,
    no credentials, and a negative retry count. *)
Definition bag (access_key secret_key password token user_name : string)
    (max_retries : Z) : ResourceData.t :=
  ResourceData.mk access_key secret_key "" "" "" "" "example-domain"
    "https://iam.myhuaweicloud.com:443/v3" false password "cn-north-1" token
    "" "" user_name "" "" "" "" "myhuaweicloud.com" max_retries "".

Definition d_password : ResourceData.t := bag "" "" "secret" "" "alice" 5.
Definition d_aksk : ResourceData.t := bag "AK" "SK" "" "" "" 5.
Definition d_token : ResourceData.t := bag "" "" "" "token-0" "" 5.
Definition d_token_aksk : ResourceData.t := bag "AK" "SK" "" "token-0" "" 5.
Definition d_nothing : ResourceData.t := bag "" "" "" "" "" 5.
Definition d_password_only : ResourceData.t := bag "" "" "secret" "" "" 5.
Definition d_negative_retries : ResourceData.t := bag "" "" "" "token-0" "" (-1).
Definition d_nothing_negative : ResourceData.t := bag "" "" "" "" "" (-1).

Definition w_of (d : ResourceData.t) : World.t :=
  World.set_config (initial_config d "0.12.0") w_init.

(** The provider configured with a key pair, and with a password. *)
Definition w_aksk : World.t :=
  Eval vm_compute in snd (configureProvider env_ok d_aksk "0.12.0" w_init).
Definition w_password : World.t :=
  Eval vm_compute in snd (configureProvider env_ok d_password "0.12.0" w_init).

(** A regional entry with a resource-base suffix, built for another region
    than the default one. *)
Definition entry_kms : ServiceCatalog.t :=
  ServiceCatalog.mk "kms" "v1.0" "" false "kms" false.
Definition sc_kms : ServiceClient.t :=
  ServiceClient.mk (Some 2) "https://kms.cn-north-4.myhuaweicloud.com/"
    "https://kms.cn-north-4.myhuaweicloud.com/v1.0/id-cn-north-4/kms/".
Definition w_kms : World.t :=
  Eval vm_compute in
    snd (newServiceClientByName env_ok (Some 0) entry_kms "cn-north-4" w_aksk).

Definition entry_vpc : ServiceCatalog.t :=
  ServiceCatalog.mk "vpc" "v1" "" false "" false.
Definition sc_vpc : ServiceClient.t :=
  ServiceClient.mk (Some 2) "https://vpc.cn-north-4.myhuaweicloud.com/"
    "https://vpc.cn-north-4.myhuaweicloud.com/v1/id-cn-north-4/".
Definition w_vpc : World.t :=
  Eval vm_compute in
    snd (NewServiceClient env_ok sample_catalog "vpc" "cn-north-4" w_aksk).

(** The options [buildClientByPassword] builds from [d_password], and the
    worlds after each of the two constructions against a service that
    refuses the domain scope. *)
Definition pao_password : AuthOptions.t :=
  AuthOptions.mk "https://iam.myhuaweicloud.com:443/v3" "alice" "" "secret"
    "" "example-domain" "" "cn-north-1" "" "" "" "".
Definition dao_password : AuthOptions.t :=
  AuthOptions.mk "https://iam.myhuaweicloud.com:443/v3" "alice" "" "secret"
    "" "example-domain" "" "" "" "" "" "".
Definition w_project_ok : World.t :=
  Eval vm_compute in
    snd (genClient env_domain_refused (AuthByOptions pao_password) (w_of d_password)).
Definition w_domain_failed : World.t :=
  Eval vm_compute in
    snd (genClient env_domain_refused (AuthByOptions dao_password)
           (with_HwClient 0 w_project_ok)).

(** The provider configured with a token and a key pair at once. *)
Definition w_token_aksk : World.t :=
  Eval vm_compute in snd (configureProvider env_ok d_token_aksk "0.12.0" w_init).

(** Further bags, environments and worlds: TLS material, an environment
    whose files can be read, one with no S3 credential provider, an OBS SDK,
    and the worlds reached from them. *)
(** A password bag with TLS material. *)
Definition bag_tls (cacert_file cert key : string) (insecure : bool) : ResourceData.t :=
  ResourceData.mk "" "" cacert_file cert key "" "example-domain"
    "https://iam.myhuaweicloud.com:443/v3" insecure "secret" "cn-north-1" ""
    "" "" "alice" "" "" "" "" "myhuaweicloud.com" 5 "".

Definition c_half_pair : Config.t :=
  initial_config (bag_tls "" "client.pem" "" true) "0.12.0".
Definition c_tls : Config.t :=
  initial_config (bag_tls "ca.pem" "client.pem" "client.key" false) "0.12.0".

(** An environment whose files can be read, with debug logging on. *)
Definition env_files : Env.t :=
  Env.mk sample_NewClient (λ v, "HashiCorp Terraform/" +:+ v) true
    (λ _ path, Ok ("PEM " +:+ path))
    (λ cert key, Ok (cert, key))
    accept_all
    (λ _ _ _ opts, Ok (ListOpts.Name opts))
    (λ pages, Ok [Project.mk ("id-" +:+ pages) pages])
    (λ c, Ok (Config.AccessKey c))
    (λ _ creds, inr "StaticProvider")
    (λ sConfig, Ok sConfig).

(** An environment with no S3 credential provider. *)
Definition env_no_credentials : Env.t :=
  Env.mk sample_NewClient (λ v, "HashiCorp Terraform/" +:+ v) false
    (λ _ path, Err ("open " +:+ path +:+ ": no such file or directory"))
    (λ cert key, Ok (cert, key))
    accept_all
    (λ _ _ _ opts, Ok (ListOpts.Name opts))
    (λ pages, Ok [Project.mk ("id-" +:+ pages) pages])
    (λ c, Ok (Config.AccessKey c))
    (λ _ creds, inl (AwsErr "NoCredentialProviders" "no valid providers in chain"))
    (λ sConfig, Ok sConfig).

Definition w_tls : World.t :=
  Eval vm_compute in snd (generateTLSConfig env_files c_tls w_init).
Definition w_tls_failed : World.t :=
  Eval vm_compute in snd (generateTLSConfig env_ok c_tls w_init).
Definition w_s3 : World.t :=
  Eval vm_compute in snd (newS3Session env_ok false (w_of d_aksk)).
Definition w_s3_failed : World.t :=
  Eval vm_compute in snd (newS3Session env_no_credentials false (w_of d_aksk)).
Definition w_loaded : World.t :=
  Eval vm_compute in snd (LoadAndValidate env_ok (w_of d_aksk)).
Definition w_loaded_tls : World.t :=
  Eval vm_compute in snd (LoadAndValidate env_files (World.set_config c_tls w_init)).
Definition w_listed : World.t :=
  Eval vm_compute in snd (loadUserProjects env_extra_project (Some 0) "cn-north-4" w_aksk).

(** An OBS SDK whose log cannot be opened. *)
Definition obs_sdk : Obs.Sdk string :=
  Obs.mkSdk string
    (λ _ _ _ _ _, Err "open ./.obs-sdk.log: permission denied")
    (λ ak sk endpoint _, Ok endpoint).

Definition sc_iam : ServiceClient.t :=
  ServiceClient.mk (Some 2) "https://iam.myhuaweicloud.com/"
    "https://iam.myhuaweicloud.com/v3.0/".
Definition w_iam : World.t :=
  Eval vm_compute in
    snd (NewServiceClient env_ok sample_catalog "iam" "cn-north-1" w_aksk).
Definition sc_vpc2 : ServiceClient.t :=
  ServiceClient.mk (Some 3) "https://vpc.cn-north-4.myhuaweicloud.com/"
    "https://vpc.cn-north-4.myhuaweicloud.com/v1/id-cn-north-4/".
Definition w_vpc2 : World.t :=
  Eval vm_compute in
    snd (NewServiceClient env_ok sample_catalog "vpc" "cn-north-4" w_vpc).

(** * Reasoning about the embedding *)

(** ** Strings *)

Lemma append_assoc (a b c : string) : (a +:+ b) +:+ c = a +:+ (b +:+ c).
Proof.
  induction a as [|x a IH]; [done |].
  change (String x ((a +:+ b) +:+ c) = String x (a +:+ (b +:+ c))).
  by rewrite IH.
Qed.

(** ** The monad *)

Ltac munfold :=
  unfold lift_result, defer, modify_config, put_config, get_config, get_trace,
    emit, errorf, panic, mbind, M_bind, mret, M_ret in *.

Lemma bind_unfold {A B} (m : M A) (f : A → M B) (w : World.t) :
  (m ≫= f) w =
  match m w with
  | (Ret a, w') => f a w'
  | (Fail e, w') => (Fail e, w')
  | (Panic p, w') => (Panic p, w')
  end.
Proof. reflexivity. Qed.

Lemma bind_Ret {A B} (m : M A) (f : A → M B) w a w1 :
  m w = (Ret a, w1) → (m ≫= f) w = f a w1.
Proof. intros H. by rewrite bind_unfold, H. Qed.

Lemma bind_Fail {A B} (m : M A) (f : A → M B) w e w1 :
  m w = (Fail e, w1) → (m ≫= f) w = (Fail e, w1).
Proof. intros H. by rewrite bind_unfold, H. Qed.

Section Framed.
Context (R : relation World.t) `{!PreOrder R}.

Lemma framed_ret {A} (a : A) : framed R (mret a).
Proof. intros w r w' [= _ <-]. reflexivity. Qed.

Lemma framed_errorf {A} msg : framed R (@errorf A msg).
Proof. intros w r w' [= _ <-]. reflexivity. Qed.

Lemma framed_bind {A B} (m : M A) (f : A → M B) :
  framed R m → (∀ a, framed R (f a)) → framed R (m ≫= f).
Proof.
  intros Hm Hf w r w'. rewrite bind_unfold.
  destruct (m w) as [[a|e|p] w1] eqn:E; intros H.
  - transitivity w1; [by eapply Hm | by eapply Hf].
  - injection H as _ <-. by eapply Hm.
  - injection H as _ <-. by eapply Hm.
Qed.

Lemma framed_lift_result {A} wrap (r : result A) : framed R (lift_result wrap r).
Proof. destruct r; [apply framed_ret | apply framed_errorf]. Qed.

Lemma framed_get_config : framed R get_config.
Proof. intros w r w' [= _ <-]. reflexivity. Qed.

Lemma framed_get_trace : framed R get_trace.
Proof. intros w r w' [= _ <-]. reflexivity. Qed.

Lemma framed_load_client p : framed R (load_client p).
Proof.
  intros w r w'. unfold load_client.
  destruct p as [l|]; [destruct (World.clients w !! l)|]; intros [= _ <-]; reflexivity.
Qed.

Lemma framed_defer {A} d (body : M A) :
  framed R body → (∀ w, R w (d w)) → framed R (defer d body).
Proof.
  intros Hb Hd w r w'. unfold defer.
  destruct (body w) as [r1 w1] eqn:E. intros [= _ <-].
  transitivity w1; [by eapply Hb | apply Hd].
Qed.
End Framed.

#[global] Instance same_config_po : PreOrder same_config.
Proof. split; [done | intros x y z; unfold same_config; congruence]. Qed.
#[global] Instance keys_kept_po : PreOrder keys_kept.
Proof.
  split; [intros x; unfold keys_kept; set_solver
         | intros x y z; unfold keys_kept; set_solver].
Qed.
#[global] Instance settings_kept_po : PreOrder settings_kept.
Proof. split; [done | intros x y z; unfold settings_kept; congruence]. Qed.

(** ** The heap of provider clients *)

Lemma store_client_last w cl x y :
  World.clients w = cl ++ [x] →
  store_client (length cl) y w = (Ret (), World.set_clients (cl ++ [y]) w).
Proof.
  intros H. unfold store_client. rewrite H.
  rewrite insert_app_r_alt by lia. by rewrite Nat.sub_diag.
Qed.

Lemma update_client_last w cl x f :
  World.clients w = cl ++ [x] →
  update_client (length cl) f w = (Ret (), World.set_clients (cl ++ [f x]) w).
Proof.
  intros H. unfold update_client. rewrite bind_unfold.
  unfold load_client. rewrite H, list_lookup_middle by done.
  by apply (store_client_last _ _ x).
Qed.

(** ** The loop that fills the map *)

Lemma store_projects_cons a all (m : gmap string string) :
  store_projects (a :: all) m
  = store_projects all (<[Project.Name a := Project.ID a]> m).
Proof. reflexivity. Qed.

(** A key reads the ID of the last listed project of that name, or what the
    map held before when no listed project has that name. *)
Lemma store_projects_lookup all (m : gmap string string) k :
  store_projects all m !! k =
  match list.last (filter (λ p, Project.Name p = k) all) with
  | Some p => Some (Project.ID p)
  | None => m !! k
  end.
Proof.
  revert m. induction all as [|a all IH]; intros m; [done|].
  rewrite store_projects_cons, IH, filter_cons.
  destruct (decide (Project.Name a = k)) as [<-|Hne].
  - rewrite last_cons.
    destruct (list.last (filter _ all)); [done|]. by rewrite lookup_insert_eq.
  - destruct (list.last (filter _ all)); [done|]. by rewrite lookup_insert_ne.
Qed.

Lemma store_projects_lookup_other all (m : gmap string string) k :
  (∀ p, p ∈ all → Project.Name p ≠ k) →
  store_projects all m !! k = m !! k.
Proof.
  intros H. rewrite store_projects_lookup.
  destruct (list.last (filter _ all)) as [p|] eqn:E; [|done].
  apply last_Some_elem_of in E. apply list_elem_of_filter in E as [? ?].
  by destruct (H p).
Qed.

Lemma store_projects_is_Some all (m : gmap string string) k :
  is_Some (m !! k) → is_Some (store_projects all m !! k).
Proof.
  intros H. rewrite store_projects_lookup. by destruct (list.last (filter _ all)).
Qed.

Lemma store_projects_named all (m : gmap string string) k p :
  p ∈ all → Project.Name p = k →
  ∃ q, list.last (filter (λ p, Project.Name p = k) all) = Some q
       ∧ q ∈ all ∧ Project.Name q = k
       ∧ store_projects all m !! k = Some (Project.ID q).
Proof.
  intros Hin Hk.
  destruct (list.last (filter (λ p, Project.Name p = k) all)) as [q|] eqn:E.
  - exists q. pose proof E as E'.
    apply last_Some_elem_of in E'. apply list_elem_of_filter in E' as [? ?].
    by rewrite store_projects_lookup, E.
  - apply last_None in E.
    assert (p ∈ filter (λ p, Project.Name p = k) all) as Hp
      by (by apply list_elem_of_filter).
    rewrite E in Hp. by apply elem_of_nil in Hp.
Qed.

(** When every listed project has the same name, the loop leaves one
    binding for that name: the ID of the last project listed. *)
Lemma store_projects_same_name all (m : gmap string string) k p :
  (∀ q, q ∈ all → Project.Name q = k) → list.last all = Some p →
  store_projects all m = <[k := Project.ID p]> m.
Proof.
  revert m. induction all as [|a all IH]; intros m Hnames Hlast; [done|].
  rewrite store_projects_cons, (Hnames a) by apply list_elem_of_here.
  destruct all as [|b all].
  - by injection Hlast as ->.
  - rewrite IH; [apply insert_insert_eq| |done].
    intros q Hq. apply Hnames. by apply list_elem_of_further.
Qed.

(** ** newServiceClientByName, step by step *)

Section Factory.
Context (env : Env.t).

Lemma newServiceClientByName_unfold client catalog region :
  newServiceClientByName env client catalog region =
  (c ← get_config;
   if decide (ServiceCatalog.Name catalog = "" ∨ ServiceCatalog.Version catalog = "") then
     errorf "must specify the service name and api version"
   else if decide (region ≠ Config.Region c
                   ∧ (Config.AccessKey c = "" ∨ Config.SecretKey c = "")) then
     errorf "Resource-level region must be the same as Provider-level region when using non AK/SK authentication if Resource-level region set"
   else
     RPLock_Lock;;
     defer RPLock_Unlock
       (projectID ← resolve env client region;
        assemble client catalog region projectID)).
Proof. reflexivity. Qed.

Lemma assemble_eval client catalog region projectID w :
  assemble client catalog region projectID w =
  match client ≫= λ l, (World.clients w ++ [ProviderClient.zero]) !! l with
  | Some v =>
      (Ret (ServiceClient.mk (Some (length (World.clients w)))
              (endpoint_of (World.config w) catalog region)
              (resource_base_of (World.config w) catalog region projectID)),
       World.set_clients (World.clients w ++ [overridden projectID region v]) w)
  | None =>
      (Panic NilDereference,
       World.set_clients (World.clients w ++ [ProviderClient.zero]) w)
  end.
Proof.
  unfold assemble. rewrite bind_unfold. cbn [new_ProviderClient].
  set (w1 := World.set_clients _ w).
  rewrite bind_unfold. unfold load_client at 1.
  destruct client as [l|]; cbn [mbind option_bind]; [|done].
  change (World.clients w1) with (World.clients w ++ [ProviderClient.zero]).
  destruct ((World.clients w ++ [ProviderClient.zero]) !! l) as [v|] eqn:El; [|done].
  rewrite (bind_Ret _ _ w1 () _
             (store_client_last w1 (World.clients w) ProviderClient.zero v eq_refl)).
  erewrite bind_Ret by (by eapply (update_client_last _ (World.clients w) v)).
  erewrite bind_Ret by (by eapply (update_client_last _ (World.clients w))).
  erewrite bind_Ret by (by eapply (update_client_last _ (World.clients w))).
  rewrite bind_unfold. cbn [get_config]. unfold mret, M_ret.
  unfold resource_base_of, endpoint_of, overridden.
  change (World.config (World.set_clients _ _)) with (World.config w).
  destruct (ServiceCatalog.WithOutProjectID catalog);
    repeat case_decide; try done;
    cbn [ServiceClient.set_ResourceBase ServiceClient.set_Endpoint
         ServiceClient.set_ProviderClient ServiceClient.Endpoint
         ServiceClient.ResourceBase ServiceClient.ProviderClient
         ServiceClient.zero];
    rewrite ?append_assoc; reflexivity.
Qed.

Lemma loadUserProjects_eval client region w :
  loadUserProjects env client region w =
  match client ≫= λ l, World.clients w !! l with
  | None => (Panic NilDereference, w)
  | Some v =>
      let w1 := World.set_trace
                  (World.trace w ++ [query_event w client v region]) w in
      match query_projects env w v region with
      | Err e => (Fail e, w1)
      | Ok all =>
          if decide (length all = 0)
          then (Fail ("Wrong name or no access to the region: " +:+ region), w1)
          else (Ret (),
                World.set_config
                  (Config.set_RegionProjectIDMap
                     (store_projects all (rpmap w)) (World.config w)) w1)
      end
  end.
Proof.
  unfold loadUserProjects, query_projects, query_event.
  rewrite bind_unfold. unfold load_client at 1.
  destruct client as [l|]; cbn [mbind option_bind]; [|reflexivity].
  destruct (World.clients w !! l) as [v|]; [|reflexivity].
  munfold. cbn.
  destruct (Env.projects_List_AllPages env _ _ _ _) as [pages|e]; [|reflexivity].
  destruct (Env.projects_ExtractProjects env pages) as [all|e]; [|reflexivity].
  case_decide; reflexivity.
Qed.

Lemma newServiceClientByName_eval client catalog region w :
  newServiceClientByName env client catalog region w =
  let c := World.config w in
  if decide (ServiceCatalog.Name catalog = "" ∨ ServiceCatalog.Version catalog = "") then
    (Fail "must specify the service name and api version", w)
  else if decide (region ≠ Config.Region c
                  ∧ (Config.AccessKey c = "" ∨ Config.SecretKey c = "")) then
    (Fail "Resource-level region must be the same as Provider-level region when using non AK/SK authentication if Resource-level region set", w)
  else if Config.RPLock c then (Panic Deadlock, w)
  else
    match resolve env client region (locked w) with
    | (Ret projectID, w1) =>
        let '(r, w2) := assemble client catalog region projectID w1 in
        (r, RPLock_Unlock w2)
    | (Fail e, w1) => (Fail e, RPLock_Unlock w1)
    | (Panic p, w1) => (Panic p, RPLock_Unlock w1)
    end.
Proof.
  rewrite newServiceClientByName_unfold. rewrite bind_unfold. cbn [get_config].
  cbv zeta. repeat case_decide; try reflexivity.
  unfold RPLock_Lock. rewrite !bind_unfold. cbn [get_config].
  destruct (Config.RPLock (World.config w)) eqn:EL; [reflexivity|].
  cbn [put_config]. fold (locked w). unfold defer. rewrite bind_unfold.
  destruct (resolve env client region (locked w)) as [[pid|e|p] w1]; reflexivity.
Qed.

Lemma resolve_eval client region w :
  resolve env client region w =
  match rpmap w !! region with
  | Some projectID => (Ret projectID, w)
  | None =>
      match loadUserProjects env client region w with
      | (Ret _, w1) => (Ret (default "" (rpmap w1 !! region)), w1)
      | (Fail e, w1) => (Fail e, w1)
      | (Panic p, w1) => (Panic p, w1)
      end
  end.
Proof.
  unfold resolve. rewrite bind_unfold. cbn [get_config].
  destruct (rpmap w !! region); [reflexivity|].
  rewrite bind_unfold.
  destruct (loadUserProjects env client region w) as [[[]|e|p] w1]; reflexivity.
Qed.

(** What one call does to the trace and to the map. *)
Lemma newServiceClientByName_cases client catalog region w r w' :
  newServiceClientByName env client catalog region w = (r, w') →
  (World.trace w' = World.trace w ∧ rpmap w' = rpmap w
   ∧ ∀ sc, r = Ret sc → is_Some (rpmap w !! region))
  ∨ (rpmap w !! region = None
     ∧ ∃ v, client ≫= (λ l, World.clients w !! l) = Some v
       ∧ World.trace w' = World.trace w ++ [query_event w client v region]
       ∧ match query_projects env w v region with
         | Err e => r = Fail e ∧ rpmap w' = rpmap w
         | Ok all =>
             if decide (length all = 0)
             then r = Fail ("Wrong name or no access to the region: " +:+ region)
                  ∧ rpmap w' = rpmap w
             else rpmap w' = store_projects all (rpmap w)
         end).
Proof.
  rewrite newServiceClientByName_eval. cbv zeta.
  repeat case_decide; try (intros [= <- <-]; by left).
  destruct (Config.RPLock (World.config w)); [intros [= <- <-]; by left|].
  rewrite resolve_eval.
  change (rpmap (locked w)) with (rpmap w).
  destruct (rpmap w !! region) as [pid|] eqn:Em.
  - rewrite assemble_eval.
    destruct (client ≫= _); intros [= <- <-]; left; eauto.
  - rewrite loadUserProjects_eval.
    change (World.clients (locked w)) with (World.clients w).
    destruct (client ≫= λ l, World.clients w !! l) as [v|] eqn:Ec;
      [|intros [= <- <-]; by left].
    cbv zeta.
    change (query_projects env (locked w) v region) with (query_projects env w v region).
    change (query_event (locked w) client v region) with (query_event w client v region).
    intros Hr. right. split; [done|]. exists v. split; [done|].
    destruct (query_projects env w v region) as [all|e].
    + destruct (decide (length all = 0)).
      * injection Hr as <- <-. done.
      * rewrite assemble_eval in Hr.
        destruct (client ≫= λ l, (_ ++ [ProviderClient.zero]) !! l);
          cbv beta iota zeta in Hr; injection Hr as <- <-; by split.
    + injection Hr as <- <-. done.
Qed.
End Factory.

(** ** Frames of the set-up path *)

Section SetupFrames.
Context (env : Env.t).
Context (R : relation World.t) `{!PreOrder R}.
(** [R] does not look at the heaps, and tolerates the events [ok] holds of. *)
Context (ok : Event → Prop).
Context (R_clients : ∀ w v, R w (World.set_clients v w)).
Context (R_transports : ∀ w v, R w (World.set_transports v w)).
Context (R_emit : ∀ w e, ok e → R w (World.set_trace (World.trace w ++ [e]) w)).
Context (ok_read : ∀ path, ok (CallRead path)).
Context (ok_credentials : ∀ creds, ok (CallCredentialsGet creds)).

Lemma framed_emit e : ok e → framed R (emit e).
Proof. intros He w r w' [= _ <-]. by apply R_emit. Qed.

Lemma framed_new_ProviderClient v : framed R (new_ProviderClient v).
Proof. intros w r w' [= _ <-]. apply R_clients. Qed.

Lemma framed_new_LogRoundTripper v : framed R (new_LogRoundTripper v).
Proof. intros w r w' [= _ <-]. apply R_transports. Qed.

Lemma framed_store_client l v : framed R (store_client l v).
Proof. intros w r w' [= _ <-]. apply R_clients. Qed.

Lemma framed_update_client l f : framed R (update_client l f).
Proof.
  unfold update_client. apply framed_bind; [tc_solve | |intros ?].
  - by apply framed_load_client.
  - apply framed_store_client.
Qed.

Lemma framed_read_path wrap path : framed R (read_path env wrap path).
Proof.
  unfold read_path.
  apply framed_bind; [tc_solve | by apply framed_get_trace | intros h].
  apply framed_bind; [tc_solve | by apply framed_emit | intros _].
  by apply framed_lift_result.
Qed.

Lemma framed_generateTLSConfig c : framed R (generateTLSConfig env c).
Proof.
  unfold generateTLSConfig. cbv zeta.
  apply framed_bind; [tc_solve | | intros config].
  - case_decide; [|by apply framed_ret].
    apply framed_bind; [tc_solve | apply framed_read_path | intros ?].
    by apply framed_ret.
  - case_decide; [|by apply framed_ret].
    apply framed_bind; [tc_solve | apply framed_read_path | intros ?].
    apply framed_bind; [tc_solve | apply framed_read_path | intros ?].
    apply framed_bind; [tc_solve | by apply framed_lift_result | intros ?].
    by apply framed_ret.
Qed.

Lemma framed_genClient ao :
  (∀ l, ok (CallAuthenticate l ao)) → framed R (genClient env ao).
Proof.
  intros Hao. unfold genClient.
  apply framed_bind; [tc_solve | by apply framed_lift_result | intros fresh].
  apply framed_bind; [tc_solve | apply framed_new_ProviderClient | intros client].
  apply framed_bind; [tc_solve | by apply framed_get_config | intros c].
  apply framed_bind; [tc_solve | apply framed_update_client | intros _].
  apply framed_bind; [tc_solve | apply framed_generateTLSConfig | intros config].
  apply framed_bind; [tc_solve | apply framed_new_LogRoundTripper | intros rt].
  apply framed_bind; [tc_solve | apply framed_update_client | intros _].
  apply framed_bind; [tc_solve | by apply framed_load_client | intros v].
  apply framed_bind; [tc_solve | by apply framed_get_trace | intros h].
  apply framed_bind; [tc_solve | by apply framed_emit | intros _].
  apply framed_bind; [tc_solve | by apply framed_lift_result | intros v'].
  apply framed_bind; [tc_solve | apply framed_store_client | intros _].
  by apply framed_ret.
Qed.

(** [R] does not look at the three fields that set-up assigns. *)
Context (R_HwClient : ∀ w v,
  R w (World.set_config (Config.set_HwClient v (World.config w)) w)).
Context (R_DomainClient : ∀ w v,
  R w (World.set_config (Config.set_DomainClient v (World.config w)) w)).
Context (R_s3sess : ∀ w v,
  R w (World.set_config (Config.set_s3sess v (World.config w)) w)).

Lemma framed_genClients pao dao :
  (∀ l, ok (CallAuthenticate l pao)) → (∀ l, ok (CallAuthenticate l dao)) →
  framed R (genClients env pao dao).
Proof.
  intros Hpao Hdao. unfold genClients.
  apply framed_bind; [tc_solve | by apply framed_genClient | intros client].
  apply framed_bind; [tc_solve | | intros _].
  { intros w r w' [= _ <-]. apply R_HwClient. }
  apply framed_bind; [tc_solve | by apply framed_genClient | intros client'].
  intros w r w' [= _ <-]. apply R_DomainClient.
Qed.

Lemma framed_newS3Session osDebug : framed R (newS3Session env osDebug).
Proof.
  unfold newS3Session.
  apply framed_bind; [tc_solve | by apply framed_get_config | intros c].
  case_decide; [|by apply framed_ret].
  apply framed_bind; [tc_solve | by apply framed_lift_result | intros creds].
  apply framed_bind; [tc_solve | by apply framed_get_trace | intros h].
  apply framed_bind; [tc_solve | by apply framed_emit | intros _].
  destruct (Env.credentials_Get env h creds) as [e|cp].
  - case_decide; by apply framed_errorf.
  - destruct (Env.session_NewSession env _) as [sess|e].
    + intros w r w' [= _ <-]. apply R_s3sess.
    + apply framed_bind; [tc_solve | | intros _; by apply framed_errorf].
      intros w r w' [= _ <-]. apply R_s3sess.
Qed.

(** From here on every authentication request is tolerated. *)
Context (ok_authenticate : ∀ l ao, ok (CallAuthenticate l ao)).

Lemma framed_buildClientByToken : framed R (buildClientByToken env).
Proof.
  unfold buildClientByToken.
  apply framed_bind; [tc_solve | by apply framed_get_config | intros c].
  case_decide; by apply framed_genClients.
Qed.

Lemma framed_buildClientByAKSK : framed R (buildClientByAKSK env).
Proof.
  unfold buildClientByAKSK.
  apply framed_bind; [tc_solve | by apply framed_get_config | intros c].
  case_decide; by apply framed_genClients.
Qed.

Lemma framed_buildClientByPassword : framed R (buildClientByPassword env).
Proof.
  unfold buildClientByPassword.
  apply framed_bind; [tc_solve | by apply framed_get_config | intros c].
  case_decide; by apply framed_genClients.
Qed.

Lemma framed_LoadAndValidate : framed R (LoadAndValidate env).
Proof.
  unfold LoadAndValidate.
  apply framed_bind; [tc_solve | by apply framed_get_config | intros c].
  case_decide; [by apply framed_errorf|].
  apply framed_bind; [tc_solve | | intros _; apply framed_newS3Session].
  repeat case_decide;
    first [ apply framed_buildClientByToken | apply framed_buildClientByAKSK
          | apply framed_buildClientByPassword | by apply framed_errorf ].
Qed.
End SetupFrames.

Lemma genClient_same_config env ao : framed same_config (genClient env ao).
Proof.
  apply (framed_genClient env same_config (λ _, True));
    first [tc_solve | by intros; unfold same_config].
Qed.

Lemma LoadAndValidate_settings_kept env : framed settings_kept (LoadAndValidate env).
Proof.
  apply (framed_LoadAndValidate env settings_kept (λ _, True));
    first [tc_solve | by intros; unfold settings_kept].
Qed.

(** The authentication requests of a strategy: between the two worlds the
    trace only grows, and every request for a token it gained satisfies [P]. *)
#[global] Instance authenticates_with_po P : PreOrder (authenticates_with P).
Proof.
  split.
  - intros w. exists []. split; [by rewrite app_nil_r|]. intros l ao Hin.
    by apply elem_of_nil in Hin.
  - intros x y z (e1 & H1 & P1) (e2 & H2 & P2). exists (e1 ++ e2). split.
    + by rewrite H2, H1, app_assoc.
    + intros l ao Hin. apply elem_of_app in Hin as [Hin|Hin]; eauto.
Qed.

Lemma authenticates_with_silent P w w' :
  World.trace w' = World.trace w → authenticates_with P w w'.
Proof.
  intros H. exists []. split; [by rewrite app_nil_r|].
  intros l ao Hin. by apply elem_of_nil in Hin.
Qed.

Lemma strategy_authenticates env P pao dao osDebug :
  P pao → P dao →
  framed (authenticates_with P) (genClients env pao dao;; newS3Session env osDebug).
Proof.
  intros Hpao Hdao.
  assert (∀ w e, (∀ l ao, e = CallAuthenticate l ao → P ao) →
            authenticates_with P w (World.set_trace (World.trace w ++ [e]) w))
    as Hemit.
  { intros w e He. exists [e]. split; [done|]. intros l ao Hin.
    apply list_elem_of_singleton in Hin. eauto. }
  apply framed_bind; [tc_solve | | intros _].
  - apply (framed_genClients env _ (λ e, ∀ l ao, e = CallAuthenticate l ao → P ao));
      first [tc_solve | exact Hemit | by intros; apply authenticates_with_silent
            | by intros ? ? ? [= _ ->]].
  - apply (framed_newS3Session env _ (λ e, ∀ l ao, e = CallAuthenticate l ao → P ao));
      first [tc_solve | exact Hemit | by intros; apply authenticates_with_silent | done].
Qed.

Lemma settings_kept_Region w w' :
  settings_kept w w' → Config.Region (World.config w') = Config.Region (World.config w).
Proof. intros H. exact (f_equal Config.Region H). Qed.

(** ** What a call of the factory returns *)

Section FactoryResults.
Context (env : Env.t) (allServiceCatalog : gmap string ServiceCatalog.t).

Lemma NewServiceClient_unfold srv region w :
  NewServiceClient env allServiceCatalog srv region w =
  newServiceClientByName env
    (if ServiceCatalog.Admin (catalog_of allServiceCatalog srv)
     then Config.DomainClient (World.config w)
     else Config.HwClient (World.config w))
    (catalog_of allServiceCatalog srv) region w.
Proof. reflexivity. Qed.

(** A successful call: the rendered client, the clone and the frame. *)
Lemma newServiceClientByName_Ret client catalog region w sc w' :
  newServiceClientByName env client catalog region w = (Ret sc, w') →
  let projectID := default "" (rpmap w' !! region) in
  sc = ServiceClient.mk (Some (length (World.clients w)))
         (endpoint_of (World.config w) catalog region)
         (resource_base_of (World.config w) catalog region projectID)
  ∧ (∃ v, client ≫= (λ l, (World.clients w ++ [ProviderClient.zero]) !! l) = Some v
        ∧ World.clients w' = World.clients w ++ [overridden projectID region v])
  ∧ World.transports w' = World.transports w
  ∧ Config.HwClient (World.config w') = Config.HwClient (World.config w)
  ∧ Config.DomainClient (World.config w') = Config.DomainClient (World.config w)
  ∧ Config.RPLock (World.config w) = false
  ∧ Config.RPLock (World.config w') = false.
Proof.
  rewrite newServiceClientByName_eval. cbv zeta.
  repeat case_decide; try done.
  destruct (Config.RPLock (World.config w)) eqn:EL; [done|].
  rewrite resolve_eval. change (rpmap (locked w)) with (rpmap w).
  destruct (rpmap w !! region) as [pid|] eqn:Em.
  - rewrite assemble_eval.
    change (World.clients (locked w)) with (World.clients w).
    destruct (client ≫= _) as [v|] eqn:Ec; [|done].
    intros [= <- <-]. cbn [World.config RPLock_Unlock World.set_config World.set_clients
                           locked Config.RegionProjectIDMap Config.set_RPLock].
    rewrite Em. cbn [default from_option].
    repeat split; eauto.
  - rewrite loadUserProjects_eval.
    change (World.clients (locked w)) with (World.clients w).
    destruct (client ≫= λ l, World.clients w !! l) as [v|]; [|done].
    cbv zeta. destruct (query_projects env (locked w) v region) as [all|e]; [|done].
    destruct (decide (length all = 0)); [done|].
    rewrite assemble_eval.
    destruct (client ≫= λ l, (_ ++ [ProviderClient.zero]) !! l) as [v'|] eqn:Ec; [|done].
    intros [= <- <-]. repeat split; eauto.
Qed.

(** A construction for a region already in the map asks nothing. *)
Lemma newServiceClientByName_hit client catalog region w projectID r w' :
  rpmap w !! region = Some projectID →
  newServiceClientByName env client catalog region w = (r, w') →
  World.trace w' = World.trace w ∧ rpmap w' = rpmap w.
Proof.
  intros Hm H. apply newServiceClientByName_cases in H as [(? & ? & _)|[Hn _]]; [done|].
  by rewrite Hm in Hn.
Qed.

Lemma exec_keys_kept o w : keys_kept w (exec env allServiceCatalog o w).
Proof.
  unfold keys_kept.
  assert (∀ client catalog region,
            dom (rpmap w) ⊆ dom (rpmap (newServiceClientByName env client catalog region w).2))
    as Hnsc.
  { intros client catalog region.
    destruct (newServiceClientByName env client catalog region w) as [r w'] eqn:E.
    cbn [snd].
    apply newServiceClientByName_cases in E as [(_ & -> & _)|(_ & v & _ & _ & Hq)]; [done|].
    destruct (query_projects env w v region) as [all|e].
    - destruct (decide (length all = 0)) as [|_]; [by destruct Hq as [_ ->]|].
      rewrite Hq. intros k Hk. apply elem_of_dom. apply store_projects_is_Some.
      by apply elem_of_dom.
    - by destruct Hq as [_ ->]. }
  destruct o as [srv region|client catalog region|client region]; cbn [exec].
  - rewrite NewServiceClient_unfold. apply Hnsc.
  - apply Hnsc.
  - rewrite loadUserProjects_eval.
    destruct (client ≫= _) as [v|]; [|done]. cbv zeta.
    destruct (query_projects env w v region) as [all|e]; [|done].
    destruct (decide (length all = 0)); [done|]. cbn.
    intros k Hk. apply elem_of_dom. apply store_projects_is_Some.
    by apply elem_of_dom.
Qed.

Lemma run_keys_kept ops w : keys_kept w (run env allServiceCatalog ops w).
Proof.
  revert w. induction ops as [|o ops IH]; intros w; [reflexivity|].
  cbn. etransitivity; [apply exec_keys_kept | apply IH].
Qed.

(** A call that returns an error has changed nothing but the trace. *)
Lemma newServiceClientByName_Fail client catalog region w e w' :
  Config.RPLock (World.config w) = false →
  newServiceClientByName env client catalog region w = (Fail e, w') →
  World.config w' = World.config w ∧ World.clients w' = World.clients w.
Proof.
  intros Hfree. rewrite newServiceClientByName_eval. cbv zeta.
  repeat case_decide; try (by intros [= _ <-]).
  rewrite Hfree, resolve_eval. change (rpmap (locked w)) with (rpmap w).
  assert (∀ t, World.config (RPLock_Unlock (World.set_trace t (locked w)))
               = World.config w) as Hunlock.
  { intros t. destruct w as [c cl tr t0]. destruct c. cbn in Hfree |- *.
    by rewrite Hfree. }
  destruct (rpmap w !! region) as [projectID|].
  - rewrite assemble_eval. by destruct (client ≫= _).
  - rewrite loadUserProjects_eval.
    change (World.clients (locked w)) with (World.clients w).
    destruct (client ≫= λ l, World.clients w !! l) as [v|]; [|done]. cbv zeta.
    destruct (query_projects env (locked w) v region) as [all|e0].
    + destruct (decide (length all = 0)).
      * intros [= _ <-]. split; [apply Hunlock|done].
      * rewrite assemble_eval.
        by destruct (client ≫= λ l, (_ ++ [ProviderClient.zero]) !! l).
    + intros [= _ <-]. split; [apply Hunlock|done].
Qed.

(** The lock is free between operations: a call that finds it free leaves
    it free, however the call ends. *)
Lemma newServiceClientByName_lock_free client catalog region w r w' :
  Config.RPLock (World.config w) = false →
  newServiceClientByName env client catalog region w = (r, w') →
  Config.RPLock (World.config w') = false.
Proof.
  intros Hfree. rewrite newServiceClientByName_eval. cbv zeta.
  repeat case_decide; try (by intros [= _ <-]).
  rewrite Hfree.
  destruct (resolve env client region (locked w)) as [[projectID|e|p] w1];
    try (by intros [= _ <-]).
  destruct (assemble client catalog region projectID w1) as [r2 w2].
  by intros [= _ <-].
Qed.

Lemma run_lock_free ops w :
  Config.RPLock (World.config w) = false →
  Config.RPLock (World.config (run env allServiceCatalog ops w)) = false.
Proof.
  revert w. induction ops as [|o ops IH]; intros w Hfree; [done|].
  cbn. apply IH.
  destruct o as [srv region|client catalog region|client region]; cbn [exec].
  - destruct (NewServiceClient env allServiceCatalog srv region w) as [r w'] eqn:E.
    rewrite NewServiceClient_unfold in E.
    by eapply newServiceClientByName_lock_free.
  - destruct (newServiceClientByName env client catalog region w) as [r w'] eqn:E.
    by eapply newServiceClientByName_lock_free.
  - rewrite loadUserProjects_eval.
    destruct (client ≫= _) as [v|]; [|done]. cbv zeta.
    destruct (query_projects env w v region) as [all|e]; [|done].
    by destruct (decide (length all = 0)).
Qed.

(** With a listing that honours its filter, a construction never rewrites
    a key that is present. *)
Lemma newServiceClientByName_values_kept client catalog region w r w' k x :
  filtered_listing env →
  newServiceClientByName env client catalog region w = (r, w') →
  rpmap w !! k = Some x → rpmap w' !! k = Some x.
Proof.
  intros Hf E Hk.
  apply newServiceClientByName_cases in E as [(_ & -> & _)|(Hn & v & _ & _ & Hq)]; [done|].
  unfold query_projects in Hq.
  destruct (Env.projects_List_AllPages env _ _ _ _) as [pages|e] eqn:Ep;
    [|by destruct Hq as [_ ->]].
  destruct (Env.projects_ExtractProjects env pages) as [all|e] eqn:Ee;
    [|by destruct Hq as [_ ->]].
  destruct (decide (length all = 0)) as [|_]; [by destruct Hq as [_ ->]|].
  rewrite Hq, store_projects_lookup_other; [done|].
  intros p Hp Hname.
  rewrite (Hf _ _ _ _ _ _ Ep Ee p Hp) in Hname. cbn in Hname.
  rewrite Hname, Hk in Hn. done.
Qed.

Lemma run_values_kept ops w k x :
  filtered_listing env → Forall is_construction ops →
  rpmap w !! k = Some x → rpmap (run env allServiceCatalog ops w) !! k = Some x.
Proof.
  intros Hf Hops. revert w.
  induction Hops as [|o ops Ho _ IH]; intros w Hk; [done|].
  cbn. apply IH.
  destruct o as [srv region|client catalog region|client region]; [| |done]; cbn [exec].
  - rewrite NewServiceClient_unfold.
    destruct (newServiceClientByName env _ _ region w) as [r w'] eqn:E.
    by eapply newServiceClientByName_values_kept.
  - destruct (newServiceClientByName env _ _ region w) as [r w'] eqn:E.
    by eapply newServiceClientByName_values_kept.
Qed.

(** What a filtered listing answers to the query of [loadUserProjects]. *)
Lemma filtered_query w v region all :
  filtered_listing env → query_projects env w v region = Ok all →
  ∀ p, p ∈ all → Project.Name p = region.
Proof.
  intros Hf Hq p Hp. unfold query_projects in Hq.
  destruct (Env.projects_List_AllPages env _ _ _ _) as [pages|e] eqn:Ep; [|done].
  destruct (Env.projects_ExtractProjects env pages) as [all'|e] eqn:Ee; [|done].
  injection Hq as ->. by rewrite (Hf _ _ _ _ _ _ Ep Ee p Hp).
Qed.

(** With a listing that honours its filter, region resolution never
    rewrites a key that is present: it queries only for a region that is
    not in the map. *)
Lemma resolve_values_kept client region w k x :
  filtered_listing env →
  rpmap w !! k = Some x → rpmap (resolve env client region w).2 !! k = Some x.
Proof.
  intros Hf Hk. rewrite resolve_eval.
  destruct (rpmap w !! region) as [projectID|] eqn:Em; [done|].
  rewrite loadUserProjects_eval.
  destruct (client ≫= _) as [v|]; [|done]. cbv zeta.
  destruct (query_projects env w v region) as [all|e] eqn:Eq; [|done].
  destruct (decide (length all = 0)); [done|]. cbn.
  rewrite store_projects_lookup_other; [done|].
  intros p Hp Hname. rewrite (filtered_query _ _ _ _ Hf Eq p Hp) in Hname.
  rewrite Hname, Hk in Em. done.
Qed.
End FactoryResults.

(** The sample listing of [env_ok] honours its filter. *)
Lemma env_ok_filtered : filtered_listing env_ok.
Proof.
  intros h v endpoint opts allPages all Hp He p Hin. cbn in Hp, He.
  injection Hp as <-. injection He as <-.
  apply list_elem_of_singleton in Hin as ->. done.
Qed.

(** ** Set-up, step by step *)

Section Setup.
Context (env : Env.t).

Lemma LoadAndValidate_eval w :
  LoadAndValidate env w =
  if decide (Config.MaxRetries (World.config w) < 0)%Z
  then (Fail "max_retries should be a positive value", w)
  else (selected_strategy env (World.config w);;
        newS3Session env (Env.logging_IsDebugOrHigher env)) w.
Proof.
  unfold LoadAndValidate. rewrite bind_unfold. cbn [get_config].
  by case_decide.
Qed.

Lemma genClients_eval pao dao w :
  genClients env pao dao w =
  match genClient env pao w with
  | (Ret l, w1) =>
      match genClient env dao (with_HwClient l w1) with
      | (Ret l2, w2) => (Ret (), with_DomainClient l2 w2)
      | (Fail e, w2) => (Fail e, w2)
      | (Panic p, w2) => (Panic p, w2)
      end
  | (Fail e, w1) => (Fail e, w1)
  | (Panic p, w1) => (Panic p, w1)
  end.
Proof.
  unfold genClients. rewrite bind_unfold.
  destruct (genClient env pao w) as [[l|e|p] w1]; reflexivity.
Qed.

(** Every strategy is [genClients] on a project-scoped and a domain-scoped
    set of options of its own kind. *)
Lemma buildClientByToken_genClients w :
  ∃ pao dao, buildClientByToken env w = genClients env pao dao w
    ∧ token_request (World.config w) pao ∧ token_request (World.config w) dao.
Proof.
  unfold buildClientByToken. rewrite bind_unfold. cbn [get_config].
  case_decide; eexists _, _; (split; [reflexivity|done]).
Qed.

Lemma buildClientByAKSK_genClients w :
  ∃ pao dao, buildClientByAKSK env w = genClients env pao dao w
    ∧ key_pair_request (World.config w) pao ∧ key_pair_request (World.config w) dao.
Proof.
  unfold buildClientByAKSK. rewrite bind_unfold. cbn [get_config].
  case_decide; eexists _, _; (split; [reflexivity|done]).
Qed.

Lemma buildClientByPassword_genClients w :
  ∃ pao dao, buildClientByPassword env w = genClients env pao dao w
    ∧ password_request (World.config w) pao ∧ password_request (World.config w) dao.
Proof.
  unfold buildClientByPassword. rewrite bind_unfold. cbn [get_config].
  case_decide; eexists _, _; (split; [reflexivity|done]).
Qed.

(** What a strategy followed by [newS3Session] asks of the identity
    service. *)
Lemma token_strategy_requests osDebug w r w' :
  (buildClientByToken env;; newS3Session env osDebug) w = (r, w') →
  authenticates_with (token_request (World.config w)) w w'.
Proof.
  destruct (buildClientByToken_genClients w) as (pao & dao & Hb & Hp & Hd).
  rewrite bind_unfold, Hb, <- bind_unfold. by apply strategy_authenticates.
Qed.

Lemma key_pair_strategy_requests osDebug w r w' :
  (buildClientByAKSK env;; newS3Session env osDebug) w = (r, w') →
  authenticates_with (key_pair_request (World.config w)) w w'.
Proof.
  destruct (buildClientByAKSK_genClients w) as (pao & dao & Hb & Hp & Hd).
  rewrite bind_unfold, Hb, <- bind_unfold. by apply strategy_authenticates.
Qed.

Lemma password_strategy_requests osDebug w r w' :
  (buildClientByPassword env;; newS3Session env osDebug) w = (r, w') →
  authenticates_with (password_request (World.config w)) w w'.
Proof.
  destruct (buildClientByPassword_genClients w) as (pao & dao & Hb & Hp & Hd).
  rewrite bind_unfold, Hb, <- bind_unfold. by apply strategy_authenticates.
Qed.
End Setup.

(** ** configureProvider, step by step *)

Lemma configureProvider_eval env d terraformVersion w0 :
  configureProvider env d terraformVersion w0 =
  match LoadAndValidate env (World.set_config (initial_config d terraformVersion) w0) with
  | (Ret _, w1) => seed_default_region w1
  | (Fail e, w1) => (Fail e, w1)
  | (Panic p, w1) => (Panic p, w1)
  end.
Proof.
  unfold configureProvider. rewrite bind_unfold. cbn [put_config].
  assert (∀ x region : string,
            (let '(v, ok) := ResourceData.GetOk x in
             if ok && bool_decide (v ≠ "") then v else region)
            = (if decide (x ≠ "") then x else region)) as Hget.
  { intros x region. unfold ResourceData.GetOk.
    destruct (decide (x ≠ "")) as [Hx|Hx].
    - by rewrite !bool_decide_eq_true_2.
    - by rewrite !bool_decide_eq_false_2. }
  cbv zeta. rewrite !Hget. fold (initial_config d terraformVersion).
  rewrite bind_unfold.
  destruct (LoadAndValidate env _) as [[[]|e|p] w1]; try reflexivity.
  rewrite bind_unfold. cbn [get_config]. unfold seed_default_region.
  destruct (Config.HwClient (World.config w1)) as [hw|]; [|reflexivity].
  rewrite bind_unfold. unfold load_client.
  destruct (World.clients w1 !! hw) as [v|]; [|reflexivity].
  case_decide; reflexivity.
Qed.

(** * The properties *)

(** ** C1: the two client constructions of [genClients] *)

(** C1, as the code has it.  [genClients] treats the two constructions alike
    as far as its result goes.  When the project-scoped [genClient] fails,
    [genClients] returns that error and assigns neither client.  When it
    succeeds, [HwClient] is assigned; if the domain-scoped [genClient] then
    fails, [genClients] returns that error too, with [HwClient] assigned and
    [DomainClient] left as it was (nil on a fresh configuration); only when
    both succeed does [genClients] return no error, with both assigned.  An
    error of the selected strategy is the error of [LoadAndValidate]. *)
Theorem genClients_domain_failure_is_returned
    (env : Env.t) (pao dao : AuthOptionsProvider) (w : World.t) :
  (∀ e w1, genClient env pao w = (Fail e, w1) →
     genClients env pao dao w = (Fail e, w1)
     ∧ Config.HwClient (World.config w1) = Config.HwClient (World.config w)
     ∧ Config.DomainClient (World.config w1) = Config.DomainClient (World.config w))
  ∧ (∀ l w1, genClient env pao w = (Ret l, w1) →
       (∀ e w2, genClient env dao (with_HwClient l w1) = (Fail e, w2) →
          genClients env pao dao w = (Fail e, w2)
          ∧ Config.HwClient (World.config w2) = Some l
          ∧ Config.DomainClient (World.config w2)
            = Config.DomainClient (World.config w))
       ∧ (∀ l2 w2, genClient env dao (with_HwClient l w1) = (Ret l2, w2) →
            genClients env pao dao w = (Ret (), with_DomainClient l2 w2)
            ∧ Config.HwClient (World.config (with_DomainClient l2 w2)) = Some l
            ∧ Config.DomainClient (World.config (with_DomainClient l2 w2)) = Some l2))
  ∧ (∀ e w', (0 ≤ Config.MaxRetries (World.config w))%Z →
       selected_strategy env (World.config w) w = (Fail e, w') →
       LoadAndValidate env w = (Fail e, w')).
Proof.
  split; [|split].
  - intros e w1 H. rewrite genClients_eval, H.
    apply genClient_same_config in H. unfold same_config in H. by rewrite H.
  - intros l w1 H. split.
    + intros e w2 H2. rewrite genClients_eval, H, H2.
      apply genClient_same_config in H, H2. unfold same_config in H, H2.
      rewrite H2. cbn. by rewrite H.
    + intros l2 w2 H2. rewrite genClients_eval, H, H2.
      apply genClient_same_config in H, H2. unfold same_config in H, H2.
      cbn. by rewrite H2.
  - intros e w' Hretries H. rewrite LoadAndValidate_eval.
    rewrite decide_False by lia. by rewrite (bind_Fail _ _ _ _ _ H).
Qed.

(** C1 as stated fails.  With an identity service that refuses domain-scoped
    requests, the project-scoped construction succeeds, the domain-scoped
    one fails, and [genClients], [LoadAndValidate] and [configureProvider]
    all return the domain-scope error. *)
Lemma genClients_domain_failure_counterexample :
  let w := w_of d_password in
  genClient env_domain_refused (AuthByOptions pao_password) w = (Ret 0, w_project_ok)
  ∧ fst (genClient env_domain_refused (AuthByOptions dao_password)
           (with_HwClient 0 w_project_ok))
    = Fail "You are not authorized to perform the requested action"
  ∧ fst (genClients env_domain_refused (AuthByOptions pao_password)
           (AuthByOptions dao_password) w)
    = Fail "You are not authorized to perform the requested action"
  ∧ buildClientByPassword env_domain_refused w
    = genClients env_domain_refused (AuthByOptions pao_password)
        (AuthByOptions dao_password) w
  ∧ fst (LoadAndValidate env_domain_refused w)
    = Fail "You are not authorized to perform the requested action"
  ∧ fst (configureProvider env_domain_refused d_password "0.12.0" w_init)
    = Fail "You are not authorized to perform the requested action".
Proof. cbv zeta. repeat split; vm_compute; reflexivity. Qed.

Lemma genClients_domain_failure_is_returned_witness :
  let w := w_of d_password in
  genClient env_domain_refused (AuthByOptions pao_password) w = (Ret 0, w_project_ok)
  ∧ genClient env_domain_refused (AuthByOptions dao_password)
      (with_HwClient 0 w_project_ok)
    = (Fail "You are not authorized to perform the requested action", w_domain_failed)
  ∧ genClients env_domain_refused (AuthByOptions pao_password)
      (AuthByOptions dao_password) w
    = (Fail "You are not authorized to perform the requested action", w_domain_failed)
  ∧ Config.HwClient (World.config w_domain_failed) = Some 0
  ∧ Config.DomainClient (World.config w_domain_failed) = None.
Proof.
  cbv zeta.
  assert (genClient env_domain_refused (AuthByOptions pao_password) (w_of d_password)
          = (Ret 0, w_project_ok)) as H1 by (vm_compute; reflexivity).
  assert (genClient env_domain_refused (AuthByOptions dao_password)
            (with_HwClient 0 w_project_ok)
          = (Fail "You are not authorized to perform the requested action",
             w_domain_failed)) as H2 by (vm_compute; reflexivity).
  destruct (genClients_domain_failure_is_returned env_domain_refused
              (AuthByOptions pao_password) (AuthByOptions dao_password)
              (w_of d_password)) as (_ & Hok & _).
  destruct (Hok 0 w_project_ok H1) as [Hfail _].
  destruct (Hfail _ _ H2) as (Hg & Hhw & Hdc).
  split; [exact H1|]. split; [exact H2|]. split; [exact Hg|].
  split; [exact Hhw|exact Hdc].
Defined.

(** ** C2: the choice of the authentication strategy *)

(** C2, as the code has it.  For every configuration whose [MaxRetries] is
    not negative, [LoadAndValidate] selects one strategy in this order: a
    non-empty [Token] runs the token strategy; otherwise a non-empty
    [AccessKey] together with a non-empty [SecretKey] runs the key-pair
    strategy; otherwise a non-empty [Password] runs the password strategy,
    unless [Username] and [UserID] are both empty, in which case set-up
    fails with the validation error and nothing else happens; otherwise
    set-up fails with "Must config token or aksk or username password to be
    authorized" and nothing else happens.  Whatever the strategy run, all
    the requests it sends to the identity service are of its own kind: the
    token and no password, or the key pair, or the password and no token.
    (A negative [MaxRetries] is rejected before any of this.) *)
Theorem LoadAndValidate_strategy (env : Env.t) (w : World.t) :
  let c := World.config w in
  let then_s3 (strategy : M unit) : M unit :=
    strategy;; newS3Session env (Env.logging_IsDebugOrHigher env) in
  (0 ≤ Config.MaxRetries c)%Z →
  (Config.Token c ≠ "" →
     LoadAndValidate env w = then_s3 (buildClientByToken env) w
     ∧ ∀ r w', LoadAndValidate env w = (r, w') →
               authenticates_with (token_request c) w w')
  ∧ (Config.Token c = "" → Config.AccessKey c ≠ "" → Config.SecretKey c ≠ "" →
       LoadAndValidate env w = then_s3 (buildClientByAKSK env) w
       ∧ ∀ r w', LoadAndValidate env w = (r, w') →
                 authenticates_with (key_pair_request c) w w')
  ∧ (Config.Token c = "" → Config.AccessKey c = "" ∨ Config.SecretKey c = "" →
     Config.Password c ≠ "" →
       (Config.Username c = "" → Config.UserID c = "" →
          LoadAndValidate env w
          = (Fail (dquote +:+ "password" +:+ dquote
                   +:+ ": one of `user_name, user_id` must be specified"), w))
       ∧ (Config.Username c ≠ "" ∨ Config.UserID c ≠ "" →
            LoadAndValidate env w = then_s3 (buildClientByPassword env) w
            ∧ ∀ r w', LoadAndValidate env w = (r, w') →
                      authenticates_with (password_request c) w w'))
  ∧ (Config.Token c = "" → Config.AccessKey c = "" ∨ Config.SecretKey c = "" →
     Config.Password c = "" →
       LoadAndValidate env w
       = (Fail "Must config token or aksk or username password to be authorized", w)).
Proof.
  intros c then_s3 Hretries. unfold then_s3.
  rewrite LoadAndValidate_eval. fold c. rewrite decide_False by lia.
  unfold selected_strategy.
  split; [|split; [|split]].
  - intros Htoken. rewrite decide_True by done.
    split; [done|]. intros r w'. apply token_strategy_requests.
  - intros Htoken Hak Hsk. rewrite decide_False by (by intros []).
    rewrite decide_True by done.
    split; [done|]. intros r w'. apply key_pair_strategy_requests.
  - intros Htoken Hkeys Hpassword.
    rewrite decide_False by (by intros []).
    rewrite decide_False by (intros []; by destruct Hkeys).
    rewrite decide_True by done. split.
    + intros Huser Hid. by rewrite decide_True.
    + intros Hsome. rewrite decide_False by (intros []; by destruct Hsome).
      split; [done|]. intros r w'. apply password_strategy_requests.
  - intros Htoken Hkeys Hpassword.
    rewrite decide_False by (by intros []).
    rewrite decide_False by (intros []; by destruct Hkeys).
    by rewrite decide_False by (by intros []).
Qed.

Lemma LoadAndValidate_strategy_witness :
  LoadAndValidate env_ok (w_of d_token_aksk)
  = (buildClientByToken env_ok;; newS3Session env_ok false) (w_of d_token_aksk)
  ∧ LoadAndValidate env_ok (w_of d_aksk)
    = (buildClientByAKSK env_ok;; newS3Session env_ok false) (w_of d_aksk)
  ∧ LoadAndValidate env_ok (w_of d_password)
    = (buildClientByPassword env_ok;; newS3Session env_ok false) (w_of d_password)
  ∧ LoadAndValidate env_ok (w_of d_password_only)
    = (Fail (dquote +:+ "password" +:+ dquote
             +:+ ": one of `user_name, user_id` must be specified"),
       w_of d_password_only)
  ∧ LoadAndValidate env_ok (w_of d_nothing)
    = (Fail "Must config token or aksk or username password to be authorized",
       w_of d_nothing).
Proof.
  assert (∀ d, ResourceData.max_retries d = 5%Z →
            (0 ≤ Config.MaxRetries (World.config (w_of d)))%Z) as Hretries
    by (intros d Hd; cbn; lia).
  split; [|split; [|split; [|split]]].
  - apply (LoadAndValidate_strategy env_ok (w_of d_token_aksk) (Hretries d_token_aksk eq_refl)).
    done.
  - apply (LoadAndValidate_strategy env_ok (w_of d_aksk) (Hretries d_aksk eq_refl)); done.
  - apply (LoadAndValidate_strategy env_ok (w_of d_password) (Hretries d_password eq_refl));
      first [done | by left | by right].
  - apply (LoadAndValidate_strategy env_ok (w_of d_password_only) (Hretries d_password_only eq_refl));
      first [done | by left].
  - apply (LoadAndValidate_strategy env_ok (w_of d_nothing) (Hretries d_nothing eq_refl));
      first [done | by left].
Defined.

(** C2 as stated fails when [MaxRetries] is negative: the token is set, yet
    the token strategy, which would have succeeded, is not run; and with no
    credential at all the error is not the one the claim names. *)
Lemma LoadAndValidate_negative_retries_counterexample :
  Config.Token (World.config (w_of d_negative_retries)) = "token-0"
  ∧ LoadAndValidate env_ok (w_of d_negative_retries)
    = (Fail "max_retries should be a positive value", w_of d_negative_retries)
  ∧ fst ((buildClientByToken env_ok;; newS3Session env_ok false)
           (w_of d_negative_retries)) = Ret ()
  ∧ LoadAndValidate env_ok (w_of d_nothing_negative)
    = (Fail "max_retries should be a positive value", w_of d_nothing_negative).
Proof. repeat split; vm_compute; reflexivity. Qed.

(** ** C3: a region other than the provider's *)

(** Where the guard of config.go:439 fires, and where a call gets past it.
    For every construction whose catalog entry has a name and a version and
    whose region differs from the provider's region: when [AccessKey] or
    [SecretKey] is empty (so the authentication is by password or token),
    [newServiceClientByName] returns the region-mismatch error and the world
    is untouched: the lock is not taken, the map is not read, no query is
    sent.  When the provider authenticates by key pair (no token, both keys
    set), the lock is free, the base client is a live object and the region
    can be resolved (it is in the map, or the identity query answers with at
    least one project), the call succeeds. *)
Lemma newServiceClientByName_region_guard
    (env : Env.t) (client : option loc) (catalog : ServiceCatalog.t)
    (region : string) (w : World.t) :
  let c := World.config w in
  ServiceCatalog.Name catalog ≠ "" → ServiceCatalog.Version catalog ≠ "" →
  region ≠ Config.Region c →
  (Config.AccessKey c = "" ∨ Config.SecretKey c = "" →
     newServiceClientByName env client catalog region w = (Fail region_mismatch, w))
  ∧ (Config.Token c = "" → Config.AccessKey c ≠ "" → Config.SecretKey c ≠ "" →
     Config.RPLock c = false →
     ∀ base v, client = Some base → World.clients w !! base = Some v →
       (is_Some (rpmap w !! region)
        ∨ ∃ all, query_projects env w v region = Ok all ∧ all ≠ []) →
       ∃ sc w', newServiceClientByName env client catalog region w = (Ret sc, w')).
Proof.
  intros c Hname Hversion Hregion.
  rewrite newServiceClientByName_eval. fold c. cbv zeta.
  rewrite decide_False by (by intros []).
  split.
  - intros Hkeys. by rewrite decide_True.
  - intros _ Hak Hsk Hlock base v -> Hbase Hresolvable.
    rewrite decide_False by (intros [_ []]; done).
    rewrite Hlock, resolve_eval. change (rpmap (locked w)) with (rpmap w).
    assert ((World.clients w ++ [ProviderClient.zero]) !! base = Some v) as Hbase'
      by (by apply lookup_app_l_Some).
    destruct (rpmap w !! region) as [pid|] eqn:Em.
    + rewrite assemble_eval. change (World.clients (locked w)) with (World.clients w).
      cbn [mbind option_bind]. rewrite Hbase'. eauto.
    + subst c. destruct Hresolvable as [[x Hx]|(all & Hq & Hall)]; [congruence|].
      rewrite loadUserProjects_eval.
      change (World.clients (locked w)) with (World.clients w).
      cbn [mbind option_bind]. rewrite Hbase. cbv zeta.
      change (query_projects env (locked w) v region) with (query_projects env w v region).
      rewrite Hq. rewrite decide_False by (by destruct all).
      rewrite assemble_eval. cbn [mbind option_bind World.clients World.set_config
                                  World.set_trace locked].
      rewrite Hbase'. eauto.
Qed.

Lemma newServiceClientByName_region_guard_witness :
  newServiceClientByName env_ok (Some 0) entry_kms "cn-north-4" w_password
  = (Fail region_mismatch, w_password)
  ∧ ∃ sc w', newServiceClientByName env_ok (Some 0) entry_kms "cn-north-4" w_aksk
             = (Ret sc, w').
Proof.
  split.
  - apply (newServiceClientByName_region_guard env_ok (Some 0) entry_kms
             "cn-north-4" w_password); [done..|by left].
  - destruct (World.clients w_aksk !! 0) as [v|] eqn:Hv; [|by vm_compute in Hv].
    apply (newServiceClientByName_region_guard env_ok (Some 0) entry_kms
             "cn-north-4" w_aksk) with (base := 0) (v := v); try done.
    right. exists [Project.mk "id-cn-north-4" "cn-north-4"]. by split.
Defined.

(** C3.  The guard does not do what the claim, and the comment above it
    (config.go:437-438), ask for.  A provider configured with a token and a
    key pair authenticates by token: [LoadAndValidate] runs the token
    strategy, and every authentication request in the trace carries the
    token.  A construction for a region that is not the provider's should
    then fail with the region-mismatch error.  The guard looks at the keys
    only: the call gets past it, lists the projects of the other region and
    returns a client for that region. *)
Theorem token_with_key_pair_passes_region_guard :
  let c := World.config w_token_aksk in
  let r := NewServiceClient env_ok sample_catalog "vpc" "cn-north-4" w_token_aksk in
  configureProvider env_ok d_token_aksk "0.12.0" w_init = (Ret (), w_token_aksk)
  ∧ (Config.Token c, Config.AccessKey c, Config.SecretKey c, Config.Region c)
    = ("token-0", "AK", "SK", "cn-north-1")
  ∧ LoadAndValidate env_ok (w_of d_token_aksk)
    = (buildClientByToken env_ok;; newS3Session env_ok false) (w_of d_token_aksk)
  ∧ (∀ l ao, CallAuthenticate l ao ∈ World.trace w_token_aksk →
       ∃ o, ao = AuthByOptions o ∧ AuthOptions.TokenID o = "token-0")
  ∧ fst r ≠ Fail region_mismatch
  ∧ fst r
    = Ret (ServiceClient.mk (Some 2) "https://vpc.cn-north-4.myhuaweicloud.com/"
             "https://vpc.cn-north-4.myhuaweicloud.com/v1/id-cn-north-4/")
  ∧ World.trace (snd r)
    = World.trace w_token_aksk
      ++ [CallListProjects (Some 0) "https://iam.myhuaweicloud.com:443/v3/"
            (ListOpts.mk "domain-1" "cn-north-4")].
Proof.
  cbv zeta. split; [vm_compute; reflexivity|]. split; [vm_compute; reflexivity|].
  split; [vm_compute; reflexivity|]. split.
  - intros l ao H.
    remember (World.trace w_token_aksk) as t eqn:Et. vm_compute in Et. subst t.
    repeat (apply elem_of_cons in H as [H|H]; [try discriminate H|]).
    + injection H as _ ->. eexists. split; reflexivity.
    + injection H as _ ->. eexists. split; reflexivity.
    + by apply elem_of_nil in H.
  - split; [vm_compute; discriminate|]. split; vm_compute; reflexivity.
Qed.

(** ** C4: the rendered endpoint and resource base *)

(** C4.  For every successful [newServiceClientByName] call: when the entry's
    scope is "global" and [RegionClient] is off, the endpoint is
    [https://{name}.{cloud}/]; otherwise it is
    [https://{name}.{region}.{cloud}/].  The resource base is the endpoint,
    then [{version}/], then [{projectID}/] unless the entry is flagged
    [WithOutProjectID], then [{ResourceBase}/] when the entry's suffix is not
    empty.  The project ID is the one the map holds for the region when the
    call returns (empty when the map holds none). *)
Theorem newServiceClientByName_rendering
    (env : Env.t) (client : option loc) (catalog : ServiceCatalog.t)
    (region : string) (w : World.t) (sc : ServiceClient.t) (w' : World.t) :
  newServiceClientByName env client catalog region w = (Ret sc, w') →
  let c := World.config w in
  let projectID := default "" (rpmap w' !! region) in
  ServiceClient.Endpoint sc
  = (if decide (ServiceCatalog.Scope catalog = "global" ∧ Config.RegionClient c = false)
     then "https://" +:+ ServiceCatalog.Name catalog +:+ "." +:+ Config.Cloud c +:+ "/"
     else "https://" +:+ ServiceCatalog.Name catalog +:+ "." +:+ region
          +:+ "." +:+ Config.Cloud c +:+ "/")
  ∧ ServiceClient.ResourceBase sc
    = ServiceClient.Endpoint sc
      +:+ (ServiceCatalog.Version catalog +:+ "/")
      +:+ (if ServiceCatalog.WithOutProjectID catalog then "" else projectID +:+ "/")
      +:+ (if decide (ServiceCatalog.ResourceBase catalog = "") then ""
           else ServiceCatalog.ResourceBase catalog +:+ "/").
Proof.
  intros H. apply newServiceClientByName_Ret in H as (-> & _). done.
Qed.

Lemma newServiceClientByName_rendering_witness :
  newServiceClientByName env_ok (Some 0) entry_kms "cn-north-4" w_aksk
  = (Ret sc_kms, w_kms)
  ∧ ServiceClient.Endpoint sc_kms = "https://kms.cn-north-4.myhuaweicloud.com/"
  ∧ ServiceClient.ResourceBase sc_kms
    = "https://kms.cn-north-4.myhuaweicloud.com/v1.0/id-cn-north-4/kms/".
Proof.
  assert (newServiceClientByName env_ok (Some 0) entry_kms "cn-north-4" w_aksk
          = (Ret sc_kms, w_kms)) as H by (by vm_compute).
  split; [exact H|].
  exact (newServiceClientByName_rendering env_ok _ _ _ _ _ _ H).
Defined.

(** A global entry without project ID, on a provider that is not in
    region-client mode. *)
Example rendering_global :
  fst (NewServiceClient env_ok sample_catalog "dns" "cn-north-1" w_password)
  = Ret (ServiceClient.mk (Some 2) "https://dns.myhuaweicloud.com/"
           "https://dns.myhuaweicloud.com/v2/").
Proof. by vm_compute. Qed.

(** ** C5: region resolution fills the cache once *)

(** C5.  The identity service is taken to honour the name filter of the
    listing, which [loadUserProjects] sets to the region
    (config.go:486-489).  A construction for a region that is not in the map
    and whose listing succeeds with at least one project (which is when the
    construction succeeds) sends exactly that one listing and stores region
    -> project ID in the map, the ID being that of the last project listed:
    the map gains this entry and is otherwise as it was.  From then on,
    whatever operations run in between, every construction for that region
    sends no listing, leaves the map as it is and, when it succeeds, uses the
    project ID the map holds, which is the one stored by the first
    construction as long as the operations in between are constructions
    ([loadUserProjects] has no other caller). *)
Theorem region_resolution_fills_cache
    (env : Env.t) (allServiceCatalog : gmap string ServiceCatalog.t)
    (client : option loc) (catalog : ServiceCatalog.t) (region : string)
    (w : World.t) (sc : ServiceClient.t) (w1 : World.t) :
  filtered_listing env →
  rpmap w !! region = None →
  newServiceClientByName env client catalog region w = (Ret sc, w1) →
  ∃ v all p,
    client ≫= (λ l, World.clients w !! l) = Some v
    ∧ query_projects env w v region = Ok all
    ∧ list.last all = Some p
    ∧ World.trace w1 = World.trace w ++ [query_event w client v region]
    ∧ rpmap w1 = <[region := Project.ID p]> (rpmap w)
    ∧ ∀ ops client' catalog' r w3,
        let w2 := run env allServiceCatalog ops w1 in
        newServiceClientByName env client' catalog' region w2 = (r, w3) →
        World.trace w3 = World.trace w2
        ∧ rpmap w3 = rpmap w2
        ∧ ∃ projectID,
            rpmap w2 !! region = Some projectID
            ∧ (Forall is_construction ops → projectID = Project.ID p)
            ∧ ∀ sc', r = Ret sc' →
                ServiceClient.ResourceBase sc'
                = resource_base_of (World.config w2) catalog' region projectID
                ∧ ∃ v', World.clients w3
                        = World.clients w2 ++ [overridden projectID region v'].
Proof.
  intros Hf Hnone H.
  destruct (newServiceClientByName_cases _ _ _ _ _ _ _ H)
    as [(_ & _ & Hs)|(_ & v & Hv & Htrace & Hq)].
  { destruct (Hs sc eq_refl) as [x Hx]. congruence. }
  destruct (query_projects env w v region) as [all|e] eqn:Eq; [|by destruct Hq].
  destruct (decide (length all = 0)) as [|Hlen]; [by destruct Hq|].
  destruct (list.last all) as [p|] eqn:Hlast;
    [|apply last_None in Hlast; by subst all].
  pose proof (filtered_query env w v region all Hf Eq) as Hnames.
  rewrite (store_projects_same_name all (rpmap w) region p Hnames Hlast) in Hq.
  exists v, all, p. repeat (split; [done|]).
  assert (rpmap w1 !! region = Some (Project.ID p)) as Hstored
    by (rewrite Hq; apply lookup_insert_eq).
  intros ops client' catalog' r w3 w2 Hcall.
  assert (is_Some (rpmap w2 !! region)) as [projectID Hpid].
  { apply elem_of_dom. apply (run_keys_kept env allServiceCatalog ops w1).
    apply elem_of_dom. eauto. }
  destruct (newServiceClientByName_hit _ _ _ _ _ _ _ _ Hpid Hcall) as [Ht Hm].
  split; [done|]. split; [done|]. exists projectID. split; [done|]. split.
  - intros Hops.
    pose proof (run_values_kept env allServiceCatalog ops w1 region _ Hf Hops Hstored)
      as Hkept.
    fold w2 in Hkept. congruence.
  - intros sc' ->.
    apply newServiceClientByName_Ret in Hcall as (-> & (v' & _ & Hheap) & _).
    rewrite Hm, Hpid in Hheap. cbn in Hheap. split; [|eauto].
    cbn. by rewrite Hm, Hpid.
Qed.

Lemma region_resolution_fills_cache_witness :
  rpmap w_aksk !! "cn-north-4" = None
  ∧ newServiceClientByName env_ok (Some 0) entry_kms "cn-north-4" w_aksk
    = (Ret sc_kms, w_kms)
  ∧ count_queries (World.trace w_kms) = 1
  ∧ rpmap w_kms = <["cn-north-4" := "id-cn-north-4"]> (rpmap w_aksk)
  ∧ let w2 := run env_ok sample_catalog [OpNewServiceClient "vpc" "cn-south-1"] w_kms in
    let r := newServiceClientByName env_ok (Some 1) entry_vpc "cn-north-4" w2 in
    World.trace (snd r) = World.trace w2
    ∧ rpmap w2 !! "cn-north-4" = Some "id-cn-north-4".
Proof.
  assert (rpmap w_aksk !! "cn-north-4" = None) as Hnone by (by vm_compute).
  assert (newServiceClientByName env_ok (Some 0) entry_kms "cn-north-4" w_aksk
          = (Ret sc_kms, w_kms)) as H by (by vm_compute).
  destruct (region_resolution_fills_cache env_ok sample_catalog _ _ _ _ _ _
              env_ok_filtered Hnone H)
    as (v & all & p & _ & Hq & Hlast & _ & Hmap & Hlater).
  assert (all = [Project.mk "id-cn-north-4" "cn-north-4"]) as ->
    by (vm_compute in Hq; by injection Hq as <-).
  injection Hlast as <-.
  split; [exact Hnone|]. split; [exact H|]. split; [by vm_compute|].
  split; [exact Hmap|]. cbv zeta.
  destruct (newServiceClientByName env_ok (Some 1) entry_vpc "cn-north-4" _)
    as [r w3] eqn:E.
  destruct (Hlater [OpNewServiceClient "vpc" "cn-south-1"] _ _ _ _ E)
    as (Ht & _ & projectID & Hpid & Hsame & _).
  split; [exact Ht|]. rewrite Hpid. f_equal. apply Hsame. repeat constructor.
Defined.

(** ** C6: a failed resolution leaves no trace in the map *)

(** C6.  [loadUserProjects] through a live client sends one project listing.
    When the listing succeeds with zero projects it fails with "Wrong name
    or no access to the region: {region}"; when the listing or its decoding
    fails it fails with that error behind a prefix.  In each case the world
    differs from the one before only by the recorded query: the map is
    unchanged.  Whenever [loadUserProjects] fails, for whatever reason, the
    map is unchanged, and every later call of [loadUserProjects] through a
    live client sends the listing again, whatever has happened before.  So
    when a construction for a region that is not in the map returns an
    error, the region is still not in the map, the lock is free again, and
    the next construction for that region that gets past the two guards
    sends the listing again. *)
Theorem loadUserProjects_failure_keeps_map
    (env : Env.t) (client : option loc) (region : string) (w : World.t)
    (base : loc) (v : ProviderClient.t) :
  client = Some base → World.clients w !! base = Some v →
  let endpoint := Config.IdentityEndpoint (World.config w) +:+ "/" in
  let opts := ListOpts.mk (ProviderClient.DomainID v) region in
  let answer := Env.projects_List_AllPages env (World.trace w) v endpoint opts in
  let w1 := World.set_trace
              (World.trace w ++ [CallListProjects client endpoint opts]) w in
  (∀ allPages, answer = Ok allPages →
     Env.projects_ExtractProjects env allPages = Ok [] →
     loadUserProjects env client region w
     = (Fail ("Wrong name or no access to the region: " +:+ region), w1))
  ∧ (∀ e, answer = Err e →
       loadUserProjects env client region w
       = (Fail ("List projects failed, err=" +:+ e), w1))
  ∧ (∀ allPages e, answer = Ok allPages →
       Env.projects_ExtractProjects env allPages = Err e →
       loadUserProjects env client region w
       = (Fail ("Extract projects failed, err=" +:+ e), w1))
  ∧ rpmap w1 = rpmap w
  ∧ (∀ e w', loadUserProjects env client region w = (Fail e, w') →
       rpmap w' = rpmap w)
  ∧ (∀ w2 v2 r w3, World.clients w2 !! base = Some v2 →
       loadUserProjects env client region w2 = (r, w3) →
       World.trace w3 = World.trace w2 ++ [query_event w2 client v2 region])
  ∧ (∀ catalog e w',
       rpmap w !! region = None → Config.RPLock (World.config w) = false →
       newServiceClientByName env client catalog region w = (Fail e, w') →
       rpmap w' !! region = None
       ∧ Config.RPLock (World.config w') = false
       ∧ ∀ catalog2 r2 w'',
           ServiceCatalog.Name catalog2 ≠ "" → ServiceCatalog.Version catalog2 ≠ "" →
           (region = Config.Region (World.config w)
            ∨ (Config.AccessKey (World.config w) ≠ ""
               ∧ Config.SecretKey (World.config w) ≠ "")) →
           newServiceClientByName env client catalog2 region w' = (r2, w'') →
           World.trace w'' = World.trace w' ++ [query_event w' client v region]).
Proof.
  intros -> Hbase endpoint opts answer w1.
  pose proof (loadUserProjects_eval env (Some base) region w) as Heval.
  cbn [mbind option_bind] in Heval. rewrite Hbase in Heval. cbv zeta in Heval.
  unfold query_projects in Heval. fold endpoint opts answer in Heval.
  unfold query_event in Heval. fold endpoint opts w1 in Heval.
  split; [|split; [|split; [|split; [|split; [|split]]]]].
  - intros allPages Ha He. by rewrite Heval, Ha, He.
  - intros e Ha. by rewrite Heval, Ha.
  - intros allPages e Ha He. by rewrite Heval, Ha, He.
  - done.
  - intros e w' Hfail. rewrite Heval in Hfail.
    destruct answer as [allPages|e0]; [|by injection Hfail as _ <-].
    destruct (Env.projects_ExtractProjects env allPages) as [all|e0];
      [|by injection Hfail as _ <-].
    destruct (decide (length all = 0)); [by injection Hfail as _ <-|done].
  - intros w2 v2 r w3 Hv2. rewrite loadUserProjects_eval.
    cbn [mbind option_bind]. rewrite Hv2. cbv zeta.
    destruct (query_projects env w2 v2 region) as [all|e0]; [|by intros [= _ <-]].
    destruct (decide (length all = 0)); by intros [= _ <-].
  - intros catalog e w' Hnone Hfree Hfail.
    destruct (newServiceClientByName_Fail env _ _ _ _ _ _ Hfree Hfail) as [Hc Hh].
    rewrite Hc. split; [done|]. split; [done|].
    intros catalog2 r2 w'' Hname Hversion Hguard Hcall.
    rewrite newServiceClientByName_eval in Hcall. cbv zeta in Hcall.
    rewrite Hc in Hcall.
    rewrite decide_False in Hcall by (by intros []).
    rewrite decide_False in Hcall by (intros [Hne Hk]; destruct Hguard as [|[]];
                                      [done|by destruct Hk]).
    rewrite Hfree, resolve_eval in Hcall.
    change (rpmap (locked w')) with (rpmap w') in Hcall.
    rewrite Hc, Hnone, loadUserProjects_eval in Hcall.
    change (World.clients (locked w')) with (World.clients w') in Hcall.
    cbn [mbind option_bind] in Hcall. rewrite Hh, Hbase in Hcall. cbv zeta in Hcall.
    change (query_event (locked w') (Some base) v region)
      with (query_event w' (Some base) v region) in Hcall.
    destruct (query_projects env (locked w') v region) as [all|e0];
      [|by injection Hcall as _ <-].
    destruct (decide (length all = 0)); [by injection Hcall as _ <-|].
    rewrite assemble_eval in Hcall.
    destruct (Some base ≫= λ l, (_ ++ [ProviderClient.zero]) !! l);
      cbv beta iota zeta in Hcall; by injection Hcall as _ <-.
Qed.

Lemma loadUserProjects_failure_keeps_map_witness :
  fst (loadUserProjects env_no_project (Some 0) "cn-north-4" w_aksk)
  = Fail "Wrong name or no access to the region: cn-north-4"
  ∧ rpmap (snd (loadUserProjects env_no_project (Some 0) "cn-north-4" w_aksk))
    = rpmap w_aksk
  ∧ fst (loadUserProjects env_unreachable (Some 0) "cn-north-4" w_aksk)
    = Fail "List projects failed, err=connection refused"
  ∧ fst (loadUserProjects env_bad_body (Some 0) "cn-north-4" w_aksk)
    = Fail "Extract projects failed, err=unexpected end of JSON input".
Proof.
  destruct (World.clients w_aksk !! 0) as [v|] eqn:Hv; [|by vm_compute in Hv].
  destruct (loadUserProjects_failure_keeps_map env_no_project (Some 0) "cn-north-4"
              w_aksk 0 v eq_refl Hv) as (Hzero & _ & _ & _).
  destruct (loadUserProjects_failure_keeps_map env_unreachable (Some 0) "cn-north-4"
              w_aksk 0 v eq_refl Hv) as (_ & Hdown & _).
  destruct (loadUserProjects_failure_keeps_map env_bad_body (Some 0) "cn-north-4"
              w_aksk 0 v eq_refl Hv) as (_ & _ & Hbody & _).
  rewrite (Hzero "cn-north-4" eq_refl eq_refl).
  rewrite (Hdown "connection refused" eq_refl).
  rewrite (Hbody "cn-north-4" "unexpected end of JSON input" eq_refl eq_refl).
  repeat split.
Defined.

(** ** C7: the clone and the shared base client *)

(** The fields of the clone: the three overrides, and every other field as
    in the base, the transport and the redirect hook included. *)
Lemma overridden_fields projectID region v :
  ProviderClient.ProjectID (overridden projectID region v) = projectID
  ∧ AKSKAuthOptions.ProjectId
      (ProviderClient.AKSKAuthOptions (overridden projectID region v)) = projectID
  ∧ AKSKAuthOptions.Region
      (ProviderClient.AKSKAuthOptions (overridden projectID region v)) = region
  ∧ ProviderClient.IdentityBase (overridden projectID region v)
    = ProviderClient.IdentityBase v
  ∧ ProviderClient.IdentityEndpoint (overridden projectID region v)
    = ProviderClient.IdentityEndpoint v
  ∧ ProviderClient.TokenID (overridden projectID region v) = ProviderClient.TokenID v
  ∧ ProviderClient.DomainID (overridden projectID region v) = ProviderClient.DomainID v
  ∧ ProviderClient.UserAgent (overridden projectID region v) = ProviderClient.UserAgent v
  ∧ ProviderClient.HTTPClient (overridden projectID region v) = ProviderClient.HTTPClient v
  ∧ AKSKAuthOptions.AccessKey
      (ProviderClient.AKSKAuthOptions (overridden projectID region v))
    = AKSKAuthOptions.AccessKey (ProviderClient.AKSKAuthOptions v)
  ∧ AKSKAuthOptions.SecretKey
      (ProviderClient.AKSKAuthOptions (overridden projectID region v))
    = AKSKAuthOptions.SecretKey (ProviderClient.AKSKAuthOptions v).
Proof. repeat split. Qed.

(** C7, as the code has it.  For every successful [newServiceClientByName]
    call: every client that was on the heap, the base client among them, has
    all its fields unchanged afterwards, and so have the transports and the
    [HwClient] and [DomainClient] pointers of the configuration; the clone is
    a freshly allocated object, distinct from the base; the returned
    [ServiceClient] references that clone; the clone is the shallow copy of
    the base with [ProjectID], [AKSKAuthOptions.ProjectId] and
    [AKSKAuthOptions.Region] overridden.  Being a shallow copy, the clone
    holds the base's [HTTPClient] as it is: the same transport pointer and
    the same redirect hook. *)
Theorem newServiceClientByName_clone
    (env : Env.t) (client : option loc) (catalog : ServiceCatalog.t)
    (region : string) (w : World.t) (sc : ServiceClient.t) (w' : World.t) :
  newServiceClientByName env client catalog region w = (Ret sc, w') →
  let clone := length (World.clients w) in
  let projectID := default "" (rpmap w' !! region) in
  (∀ l v, World.clients w !! l = Some v → World.clients w' !! l = Some v)
  ∧ World.transports w' = World.transports w
  ∧ Config.HwClient (World.config w') = Config.HwClient (World.config w)
  ∧ Config.DomainClient (World.config w') = Config.DomainClient (World.config w)
  ∧ World.clients w !! clone = None
  ∧ ServiceClient.ProviderClient sc = Some clone
  ∧ (∀ base v, client = Some base → World.clients w !! base = Some v →
       base ≠ clone
       ∧ World.clients w' !! clone = Some (overridden projectID region v)
       ∧ ProviderClient.HTTPClient (overridden projectID region v)
         = ProviderClient.HTTPClient v
       ∧ transport_of w' clone = transport_of w' base).
Proof.
  intros H clone projectID.
  apply newServiceClientByName_Ret in H
    as (-> & (v' & Hv' & Hheap) & Htr & Hhw & Hdc & _).
  fold projectID in Hheap.
  assert (∀ l v, World.clients w !! l = Some v → World.clients w' !! l = Some v)
    as Hkept by (intros l v Hl; rewrite Hheap; by apply lookup_app_l_Some).
  split; [exact Hkept|]. split; [exact Htr|]. split; [exact Hhw|].
  split; [exact Hdc|]. split; [by apply lookup_ge_None|]. split; [done|].
  intros base v -> Hbase.
  cbn in Hv'. rewrite (lookup_app_l_Some _ _ _ _ Hbase) in Hv'. injection Hv' as <-.
  assert (World.clients w' !! clone = Some (overridden projectID region v)) as Hc
    by (rewrite Hheap; by apply list_lookup_middle).
  split; [|split; [exact Hc|split; [done|]]].
  - intros ->. apply lookup_lt_Some in Hbase. unfold clone in Hbase. lia.
  - unfold transport_of. by rewrite Hc, (Hkept _ _ Hbase).
Qed.

Lemma newServiceClientByName_clone_witness :
  newServiceClientByName env_ok (Some 0) entry_kms "cn-north-4" w_aksk
  = (Ret sc_kms, w_kms)
  ∧ World.clients w_kms !! 0 = World.clients w_aksk !! 0
  ∧ World.transports w_kms = World.transports w_aksk
  ∧ ServiceClient.ProviderClient sc_kms = Some 2
  ∧ transport_of w_kms 2 = transport_of w_kms 0.
Proof.
  assert (newServiceClientByName env_ok (Some 0) entry_kms "cn-north-4" w_aksk
          = (Ret sc_kms, w_kms)) as H by (by vm_compute).
  destruct (newServiceClientByName_clone env_ok _ _ _ _ _ _ H)
    as (Hkept & Htr & _ & _ & _ & Hsc & Hclone).
  destruct (World.clients w_aksk !! 0) as [v|] eqn:Hv; [|by vm_compute in Hv].
  destruct (Hclone 0 v eq_refl Hv) as (_ & _ & _ & Ht).
  split; [exact H|]. split; [exact (Hkept 0 v Hv)|].
  split; [exact Htr|]. split; [exact Hsc|exact Ht].
Defined.

(** C7 as stated fails on its last part.  On the provider configured with a
    key pair, the base client built by [genClient] holds transport 0; the
    clone made for the service client is a distinct object that holds the
    same transport 0. *)
Lemma clone_shares_transport_counterexample :
  NewServiceClient env_ok sample_catalog "vpc" "cn-north-4" w_aksk
  = (Ret sc_vpc, w_vpc)
  ∧ Config.HwClient (World.config w_aksk) = Some 0
  ∧ ServiceClient.ProviderClient sc_vpc = Some 2
  ∧ shares_transport w_vpc 0 2.
Proof.
  split; [vm_compute; reflexivity|]. split; [reflexivity|]. split; [reflexivity|].
  exists 0. vm_compute. eauto.
Qed.

(** ** C8: the map only grows *)

(** C8.  Over any sequence of operations (constructions through
    [NewServiceClient] or [newServiceClientByName], direct calls of
    [loadUserProjects]) no key is ever removed from the map.  The identity
    service being taken to honour the name filter of its listing (every
    project it returns is named as the region asked, config.go:486-489), a
    sequence of constructions never changes the value of a key that is
    present, and neither does region resolution, the step of a construction
    that reads the map and calls [loadUserProjects] when the region is not
    there (config.go:443-453; [loadUserProjects] has no other caller).
    [configureProvider] starts from an empty map and adds at most the
    provider's region to it. *)
Theorem RegionProjectIDMap_grows
    (env : Env.t) (allServiceCatalog : gmap string ServiceCatalog.t)
    (ops : list Op) (w : World.t) :
  (∀ k, is_Some (rpmap w !! k) →
        is_Some (rpmap (run env allServiceCatalog ops w) !! k))
  ∧ (filtered_listing env → Forall is_construction ops →
     ∀ k x, rpmap w !! k = Some x →
            rpmap (run env allServiceCatalog ops w) !! k = Some x)
  ∧ (filtered_listing env →
     ∀ client region k x, rpmap w !! k = Some x →
            rpmap (snd (resolve env client region w)) !! k = Some x)
  ∧ (∀ d terraformVersion w0 r w1,
       configureProvider env d terraformVersion w0 = (r, w1) →
       rpmap w1 = ∅
       ∨ ∃ projectID, rpmap w1 = {[ResourceData.region d := projectID]}).
Proof.
  split; [|split; [|split]].
  - intros k Hk. apply elem_of_dom.
    apply (run_keys_kept env allServiceCatalog ops w). by apply elem_of_dom.
  - intros Hf Hops k x Hk. by apply run_values_kept.
  - intros Hf client region k x Hk. by apply resolve_values_kept.
  - intros d terraformVersion w0 r w1 H. rewrite configureProvider_eval in H.
    destruct (LoadAndValidate env _) as [o w'] eqn:HL.
    apply LoadAndValidate_settings_kept in HL.
    pose proof (f_equal Config.RegionProjectIDMap HL) as Hm.
    apply settings_kept_Region in HL. cbn in Hm, HL.
    destruct o as [[]|e|p]; [|injection H as _ <-; by left..].
    unfold seed_default_region in H. cbv zeta in H.
    destruct (Config.HwClient (World.config w')) as [hw|];
      [|injection H as _ <-; by left].
    destruct (World.clients w' !! hw) as [v|]; [|injection H as _ <-; by left].
    case_decide; injection H as _ <-; [|by left].
    right. exists (ProviderClient.ProjectID v). cbn. rewrite Hm, HL.
    apply insert_empty.
Qed.

Lemma RegionProjectIDMap_grows_witness :
  let ops := [OpNewServiceClient "vpc" "cn-north-4";
              OpNewServiceClientByName (Some 0) entry_kms "cn-south-1";
              OpNewServiceClient "iam" "cn-north-1";
              OpNewServiceClient "vpc" "cn-north-4"] in
  rpmap w_aksk !! "cn-north-1" = Some "id-cn-north-1"
  ∧ rpmap (run env_ok sample_catalog ops w_aksk) !! "cn-north-1" = Some "id-cn-north-1"
  ∧ rpmap (snd (resolve env_ok (Some 0) "cn-south-1" w_aksk)) !! "cn-north-1"
    = Some "id-cn-north-1"
  ∧ rpmap (run env_ok sample_catalog ops w_aksk) !! "cn-south-1" = Some "id-cn-south-1".
Proof.
  cbv zeta.
  assert (rpmap w_aksk !! "cn-north-1" = Some "id-cn-north-1") as Hk by (by vm_compute).
  split; [exact Hk|].
  destruct (RegionProjectIDMap_grows env_ok sample_catalog
              [OpNewServiceClient "vpc" "cn-north-4";
               OpNewServiceClientByName (Some 0) entry_kms "cn-south-1";
               OpNewServiceClient "iam" "cn-north-1";
               OpNewServiceClient "vpc" "cn-north-4"] w_aksk)
    as (_ & Hvalues & Hresolve & _).
  split; [|split; [|by vm_compute]].
  - apply Hvalues; [apply env_ok_filtered| |exact Hk]. repeat constructor.
  - apply Hresolve; [apply env_ok_filtered|exact Hk].
Defined.

(** ** C9: a service that is not in the catalog *)

(** C9.  For every service name that is absent from [allServiceCatalog], or
    whose entry has an empty [Name] or [Version], [NewServiceClient] returns
    the error "must specify the service name and api version" and leaves the
    world as it was: nothing is locked, queried, allocated or dereferenced,
    so a nil base client cannot make it crash.  For an absent name the
    lookup yields the zero entry, whose [Admin] flag is false, so the call
    is [newServiceClientByName] on [c.HwClient] and that zero entry. *)
Theorem NewServiceClient_unknown_service
    (env : Env.t) (allServiceCatalog : gmap string ServiceCatalog.t)
    (srv region : string) (w : World.t) :
  allServiceCatalog !! srv = None
  ∨ ServiceCatalog.Name (catalog_of allServiceCatalog srv) = ""
  ∨ ServiceCatalog.Version (catalog_of allServiceCatalog srv) = "" →
  NewServiceClient env allServiceCatalog srv region w
  = (Fail "must specify the service name and api version", w)
  ∧ (allServiceCatalog !! srv = None →
     catalog_of allServiceCatalog srv = ServiceCatalog.zero
     ∧ NewServiceClient env allServiceCatalog srv region w
       = newServiceClientByName env (Config.HwClient (World.config w))
           ServiceCatalog.zero region w).
Proof.
  intros H.
  assert (allServiceCatalog !! srv = None →
          catalog_of allServiceCatalog srv = ServiceCatalog.zero) as Hzero.
  { intros Hnone. unfold catalog_of. by rewrite Hnone. }
  split.
  - rewrite NewServiceClient_unfold, newServiceClientByName_eval. cbv zeta.
    rewrite decide_True; [done|].
    destruct H as [Hnone|[Hname|Hversion]]; [|by left|by right].
    left. by rewrite (Hzero Hnone).
  - intros Hnone. split; [by apply Hzero|].
    rewrite NewServiceClient_unfold. by rewrite (Hzero Hnone).
Qed.

Lemma NewServiceClient_unknown_service_witness :
  sample_catalog !! "no-such-service" = None
  ∧ NewServiceClient env_ok sample_catalog "no-such-service" "cn-north-4" w_init
    = (Fail "must specify the service name and api version", w_init)
  ∧ NewServiceClient env_ok sample_catalog "broken" "cn-north-4" w_init
    = (Fail "must specify the service name and api version", w_init).
Proof.
  split; [by vm_compute|]. split.
  - exact (proj1 (NewServiceClient_unknown_service env_ok sample_catalog
                    "no-such-service" "cn-north-4" w_init (or_introl eq_refl))).
  - exact (proj1 (NewServiceClient_unknown_service env_ok sample_catalog
                    "broken" "cn-north-4" w_init (or_intror (or_introl eq_refl)))).
Defined.

(** ** C10: the default region is seeded at configuration *)

(** C10.  After [configureProvider] has succeeded, when the project-scoped
    client [HwClient] carries a non-empty [ProjectID], the map holds the
    provider's region with that project ID; and any service-client
    construction for that region, the very first included, leaves the trace
    and the map as they are: it sends no project listing.  When it succeeds
    it uses the seeded project ID. *)
Theorem configureProvider_seeds_default_region
    (env : Env.t) (allServiceCatalog : gmap string ServiceCatalog.t)
    (d : ResourceData.t) (terraformVersion : string) (w0 w : World.t)
    (hw : loc) (v : ProviderClient.t) :
  configureProvider env d terraformVersion w0 = (Ret (), w) →
  Config.HwClient (World.config w) = Some hw →
  World.clients w !! hw = Some v →
  ProviderClient.ProjectID v ≠ "" →
  Config.Region (World.config w) = ResourceData.region d
  ∧ rpmap w !! ResourceData.region d = Some (ProviderClient.ProjectID v)
  ∧ ∀ srv r w',
      NewServiceClient env allServiceCatalog srv (ResourceData.region d) w = (r, w') →
      World.trace w' = World.trace w
      ∧ rpmap w' = rpmap w
      ∧ ∀ sc, r = Ret sc →
          ServiceClient.ResourceBase sc
          = resource_base_of (World.config w) (catalog_of allServiceCatalog srv)
              (ResourceData.region d) (ProviderClient.ProjectID v).
Proof.
  intros H Hhw Hv Hpid. rewrite configureProvider_eval in H.
  destruct (LoadAndValidate env _) as [[[]|e|p] w1] eqn:HL; try done.
  apply LoadAndValidate_settings_kept, settings_kept_Region in HL. cbn in HL.
  unfold seed_default_region in H. cbv zeta in H.
  assert (Config.Region (World.config w) = ResourceData.region d
          ∧ rpmap w !! ResourceData.region d = Some (ProviderClient.ProjectID v))
    as [Hregion Hseed].
  { destruct (Config.HwClient (World.config w1)) as [hw1|] eqn:Hhw1.
    - destruct (World.clients w1 !! hw1) as [v1|] eqn:Hv1; [|done].
      destruct (decide (ProviderClient.ProjectID v1 ≠ "")) as [Hp|Hp];
        injection H as <-; cbn in Hhw, Hv |- *.
      + rewrite Hhw1 in Hhw. injection Hhw as <-. rewrite Hv1 in Hv.
        injection Hv as <-. rewrite HL. split; [done|]. by rewrite lookup_insert_eq.
      + rewrite Hhw1 in Hhw. injection Hhw as <-. rewrite Hv1 in Hv.
        injection Hv as <-. done.
    - injection H as <-. by rewrite Hhw1 in Hhw. }
  split; [done|]. split; [done|].
  intros srv r w' Hcall. rewrite NewServiceClient_unfold in Hcall.
  destruct (newServiceClientByName_hit _ _ _ _ _ _ _ _ Hseed Hcall) as [Ht Hm].
  split; [done|]. split; [done|].
  intros sc ->. apply newServiceClientByName_Ret in Hcall as (-> & _).
  cbn. by rewrite Hm, Hseed.
Qed.

Lemma configureProvider_seeds_default_region_witness :
  configureProvider env_ok d_aksk "0.12.0" w_init = (Ret (), w_aksk)
  ∧ rpmap w_aksk !! "cn-north-1" = Some "id-cn-north-1"
  ∧ World.trace (snd (NewServiceClient env_ok sample_catalog "kms" "cn-north-1" w_aksk))
    = World.trace w_aksk.
Proof.
  assert (configureProvider env_ok d_aksk "0.12.0" w_init = (Ret (), w_aksk)) as H
    by (vm_compute; reflexivity).
  destruct (World.clients w_aksk !! 0) as [v|] eqn:Hv; [|by vm_compute in Hv].
  assert (ProviderClient.ProjectID v = "id-cn-north-1") as Hp
    by (vm_compute in Hv; by injection Hv as <-).
  destruct (configureProvider_seeds_default_region env_ok sample_catalog
              d_aksk "0.12.0" w_init w_aksk 0 v H eq_refl Hv)
    as (_ & Hseed & Hcall); [by rewrite Hp|].
  split; [exact H|]. split; [by rewrite <- Hp|].
  destruct (NewServiceClient env_ok sample_catalog "kms" "cn-north-1" w_aksk)
    as [r w'] eqn:E.
  by destruct (Hcall "kms" r w' E) as [Ht _].
Defined.

(** * Further properties of the set-up path and of the factory

    What follows covers the functions of config.go and provider.go one by
    one: what each returns, how it fails, what it leaves untouched and how
    the functions compose. *)

(** ** generateTLSConfig *)

#[global] Instance heaps_kept_po : PreOrder heaps_kept.
Proof.
  split; [done|]. intros x y z (? & ? & ?) (? & ? & ?).
  unfold heaps_kept. repeat split; congruence.
Qed.

Lemma read_path_eval env wrap path w :
  read_path env wrap path w =
  (match Env.pathorcontents_Read env (World.trace w) path with
   | Ok s => Ret s
   | Err e => Fail (wrap e)
   end, World.set_trace (World.trace w ++ [CallRead path]) w).
Proof.
  unfold read_path. munfold. cbn.
  by destruct (Env.pathorcontents_Read env (World.trace w) path).
Qed.

Lemma generateTLSConfig_heaps_kept env c : framed heaps_kept (generateTLSConfig env c).
Proof.
  apply (framed_generateTLSConfig env heaps_kept (λ _, True));
    first [tc_solve | done].
Qed.

Lemma generateTLSConfig_eval env c w :
  generateTLSConfig env c w =
  let ca := if decide (Config.CACertFile c ≠ "") then [CallRead (Config.CACertFile c)] else [] in
  let h := World.trace w ++ ca in
  match (if decide (Config.CACertFile c ≠ "")
         then match Env.pathorcontents_Read env (World.trace w) (Config.CACertFile c) with
              | Ok caCert => Ok (Some caCert)
              | Err e => Err ("Error reading CA Cert: " +:+ e)
              end
         else Ok None) with
  | Err e => (Fail e, World.set_trace h w)
  | Ok roots =>
      if decide (Config.ClientCertFile c ≠ "" ∧ Config.ClientKeyFile c ≠ "") then
        match Env.pathorcontents_Read env h (Config.ClientCertFile c) with
        | Err e => (Fail ("Error reading Client Cert: " +:+ e),
                    World.set_trace (h ++ [CallRead (Config.ClientCertFile c)]) w)
        | Ok clientCert =>
            let w2 := World.set_trace
                        (h ++ [CallRead (Config.ClientCertFile c);
                               CallRead (Config.ClientKeyFile c)]) w in
            match Env.pathorcontents_Read env (h ++ [CallRead (Config.ClientCertFile c)])
                    (Config.ClientKeyFile c) with
            | Err e => (Fail ("Error reading Client Key: " +:+ e), w2)
            | Ok clientKey =>
                match Env.tls_X509KeyPair env clientCert clientKey with
                | Err e => (Fail e, w2)
                | Ok cert => (Ret (TLSConfig.mk roots (Config.Insecure c) [cert]), w2)
                end
            end
        end
      else (Ret (TLSConfig.mk roots (Config.Insecure c) []), World.set_trace h w)
  end.
Proof.
  assert (∀ w : World.t, World.set_trace (World.trace w) w = w) as Hnil
    by (by intros []).
  unfold generateTLSConfig. cbv zeta. rewrite bind_unfold.
  destruct (decide (Config.CACertFile c ≠ "")) as [Hca|Hca]; cbv beta iota.
  - rewrite bind_unfold, read_path_eval.
    destruct (Env.pathorcontents_Read env (World.trace w) (Config.CACertFile c))
      as [caCert|e]; [|reflexivity].
    unfold mret at 1, M_ret at 1.
    destruct (decide (Config.ClientCertFile c ≠ "" ∧ Config.ClientKeyFile c ≠ ""));
      [|by destruct (Config.Insecure c)].
    rewrite bind_unfold, read_path_eval. cbn [World.trace World.set_trace].
    destruct (Env.pathorcontents_Read env _ (Config.ClientCertFile c)) as [clientCert|e];
      [|reflexivity].
    rewrite bind_unfold, read_path_eval. cbn [World.trace World.set_trace].
    destruct (Env.pathorcontents_Read env _ (Config.ClientKeyFile c)) as [clientKey|e];
      [|by rewrite <- !app_assoc].
    rewrite bind_unfold. unfold lift_result.
    destruct (Env.tls_X509KeyPair env clientCert clientKey) as [cert|e];
      [|by rewrite <- !app_assoc].
    munfold. cbn. rewrite <- !app_assoc. by destruct (Config.Insecure c).
  - unfold mret at 1, M_ret at 1. rewrite app_nil_r.
    destruct (decide (Config.ClientCertFile c ≠ "" ∧ Config.ClientKeyFile c ≠ ""));
      [|rewrite Hnil; by destruct (Config.Insecure c)].
    rewrite bind_unfold, read_path_eval.
    destruct (Env.pathorcontents_Read env _ (Config.ClientCertFile c)) as [clientCert|e];
      [|reflexivity].
    rewrite bind_unfold, read_path_eval. cbn [World.trace World.set_trace].
    destruct (Env.pathorcontents_Read env _ (Config.ClientKeyFile c)) as [clientKey|e];
      [|by rewrite <- !app_assoc].
    rewrite bind_unfold. unfold lift_result.
    destruct (Env.tls_X509KeyPair env clientCert clientKey) as [cert|e];
      [|by rewrite <- !app_assoc].
    munfold. cbn. rewrite <- !app_assoc. by destruct (Config.Insecure c).
Qed.

Lemma set_trace_id (w : World.t) : World.set_trace (World.trace w) w = w.
Proof. by destruct w. Qed.

(** X1.  With no CA file configured, and with the client certificate or the
    client key missing, [generateTLSConfig] reads no file at all and returns
    a configuration that holds nothing but the [Insecure] flag: half a key
    pair is ignored without a word, its one file is not even opened. *)
Theorem generateTLSConfig_no_files (env : Env.t) (c : Config.t) (w : World.t) :
  Config.CACertFile c = "" →
  Config.ClientCertFile c = "" ∨ Config.ClientKeyFile c = "" →
  generateTLSConfig env c w = (Ret (TLSConfig.mk None (Config.Insecure c) []), w).
Proof.
  intros Hca Hpair. rewrite generateTLSConfig_eval. cbv zeta.
  rewrite !decide_False by (by intros ?).
  rewrite decide_False by (intros []; by destruct Hpair).
  rewrite decide_False by (by intros ?).
  by rewrite app_nil_r, set_trace_id.
Qed.

Lemma generateTLSConfig_no_files_witness :
  generateTLSConfig env_ok c_half_pair w_init
  = (Ret (TLSConfig.mk None true []), w_init).
Proof.
  apply (generateTLSConfig_no_files env_ok c_half_pair w_init);
    [reflexivity | right; reflexivity].
Defined.

(** X2.  When [generateTLSConfig] succeeds, [InsecureSkipVerify] is the
    [Insecure] setting; the root CAs are the contents read from [CACertFile]
    exactly when that setting is not empty; there is one certificate, the
    key pair built from the two files read, exactly when [ClientCertFile]
    and [ClientKeyFile] are both set, and none otherwise.  The files are
    read in the order CA, certificate, key, each once, and nothing else of
    the world changes. *)
Theorem generateTLSConfig_result
    (env : Env.t) (c : Config.t) (w : World.t) (config : TLSConfig.t) (w' : World.t) :
  generateTLSConfig env c w = (Ret config, w') →
  let h := World.trace w
           ++ (if decide (Config.CACertFile c ≠ "")
               then [CallRead (Config.CACertFile c)] else []) in
  TLSConfig.InsecureSkipVerify config = Config.Insecure c
  ∧ (if decide (Config.CACertFile c ≠ "") then
       ∃ caCert,
         Env.pathorcontents_Read env (World.trace w) (Config.CACertFile c) = Ok caCert
         ∧ TLSConfig.RootCAs config = Some caCert
     else TLSConfig.RootCAs config = None)
  ∧ (if decide (Config.ClientCertFile c ≠ "" ∧ Config.ClientKeyFile c ≠ "") then
       ∃ clientCert clientKey cert,
         Env.pathorcontents_Read env h (Config.ClientCertFile c) = Ok clientCert
         ∧ Env.pathorcontents_Read env (h ++ [CallRead (Config.ClientCertFile c)])
             (Config.ClientKeyFile c) = Ok clientKey
         ∧ Env.tls_X509KeyPair env clientCert clientKey = Ok cert
         ∧ TLSConfig.Certificates config = [cert]
     else TLSConfig.Certificates config = [])
  ∧ World.trace w' = World.trace w ++ tls_reads c
  ∧ heaps_kept w w'.
Proof.
  rewrite generateTLSConfig_eval. unfold tls_reads. cbv zeta.
  intros H.
  destruct (decide (Config.CACertFile c ≠ "")) as [Hca|Hca].
  - destruct (Env.pathorcontents_Read env (World.trace w) (Config.CACertFile c))
      as [caCert|e] eqn:Eca; [|done].
    destruct (decide (Config.ClientCertFile c ≠ "" ∧ Config.ClientKeyFile c ≠ "")).
    + destruct (Env.pathorcontents_Read env _ (Config.ClientCertFile c))
        as [clientCert|e] eqn:Ecert; [|done].
      destruct (Env.pathorcontents_Read env _ (Config.ClientKeyFile c))
        as [clientKey|e] eqn:Ekey; [|done].
      destruct (Env.tls_X509KeyPair env clientCert clientKey) as [cert|e] eqn:Epair; [|done].
      injection H as <- <-. cbn. rewrite <- app_assoc. repeat split; eauto 10.
    + injection H as <- <-. cbn. rewrite ?app_nil_r. repeat split; eauto.
  - destruct (decide (Config.ClientCertFile c ≠ "" ∧ Config.ClientKeyFile c ≠ "")).
    + destruct (Env.pathorcontents_Read env _ (Config.ClientCertFile c))
        as [clientCert|e] eqn:Ecert; [|done].
      destruct (Env.pathorcontents_Read env _ (Config.ClientKeyFile c))
        as [clientKey|e] eqn:Ekey; [|done].
      destruct (Env.tls_X509KeyPair env clientCert clientKey) as [cert|e] eqn:Epair; [|done].
      injection H as <- <-. cbn. rewrite <- app_assoc. repeat split; eauto 10.
    + injection H as <- <-. cbn. repeat split; eauto.
Qed.

Lemma generateTLSConfig_result_witness :
  generateTLSConfig env_files c_tls w_init
  = (Ret (TLSConfig.mk (Some "PEM ca.pem") false [("PEM client.pem", "PEM client.key")]),
     w_tls)
  ∧ World.trace w_tls
    = [CallRead "ca.pem"; CallRead "client.pem"; CallRead "client.key"].
Proof.
  assert (generateTLSConfig env_files c_tls w_init
          = (Ret (TLSConfig.mk (Some "PEM ca.pem") false
                    [("PEM client.pem", "PEM client.key")]), w_tls)) as H
    by (vm_compute; reflexivity).
  split; [exact H|].
  destruct (generateTLSConfig_result env_files c_tls w_init _ _ H)
    as (_ & _ & _ & Ht & _).
  exact Ht.
Defined.

(** X3.  Every error of [generateTLSConfig] is one of four: the CA file
    cannot be read ("Error reading CA Cert: ..."), after which no other file
    is opened; the client certificate cannot be read ("Error reading Client
    Cert: ..."), after which the key is not opened; the client key cannot be
    read ("Error reading Client Key: ..."); or the two files do not make a
    key pair, whose error is returned as it is.  In each case only the trace
    of reads has changed. *)
Theorem generateTLSConfig_errors
    (env : Env.t) (c : Config.t) (w : World.t) (e : error) (w' : World.t) :
  generateTLSConfig env c w = (Fail e, w') →
  let h := World.trace w
           ++ (if decide (Config.CACertFile c ≠ "")
               then [CallRead (Config.CACertFile c)] else []) in
  heaps_kept w w'
  ∧ ((Config.CACertFile c ≠ ""
      ∧ ∃ e0, Env.pathorcontents_Read env (World.trace w) (Config.CACertFile c) = Err e0
              ∧ e = "Error reading CA Cert: " +:+ e0
              ∧ World.trace w' = World.trace w ++ [CallRead (Config.CACertFile c)])
     ∨ (Config.ClientCertFile c ≠ "" ∧ Config.ClientKeyFile c ≠ ""
        ∧ ((∃ e0, Env.pathorcontents_Read env h (Config.ClientCertFile c) = Err e0
                  ∧ e = "Error reading Client Cert: " +:+ e0
                  ∧ World.trace w' = h ++ [CallRead (Config.ClientCertFile c)])
           ∨ (∃ e0, Env.pathorcontents_Read env
                      (h ++ [CallRead (Config.ClientCertFile c)])
                      (Config.ClientKeyFile c) = Err e0
                    ∧ e = "Error reading Client Key: " +:+ e0
                    ∧ World.trace w' = World.trace w ++ tls_reads c)
           ∨ (∃ clientCert clientKey,
                Env.pathorcontents_Read env h (Config.ClientCertFile c) = Ok clientCert
                ∧ Env.pathorcontents_Read env
                    (h ++ [CallRead (Config.ClientCertFile c)])
                    (Config.ClientKeyFile c) = Ok clientKey
                ∧ Env.tls_X509KeyPair env clientCert clientKey = Err e
                ∧ World.trace w' = World.trace w ++ tls_reads c)))).
Proof.
  intros H. cbv zeta. split; [by eapply generateTLSConfig_heaps_kept|].
  revert H. rewrite generateTLSConfig_eval. unfold tls_reads. cbv zeta.
  destruct (decide (Config.CACertFile c ≠ "")) as [Hca|Hca];
    (destruct (decide (Config.ClientCertFile c ≠ "" ∧ Config.ClientKeyFile c ≠ ""))
       as [[Hc Hk]|]);
    rewrite <- ?app_assoc, ?app_nil_r; cbn [app].
  - destruct (Env.pathorcontents_Read env (World.trace w) (Config.CACertFile c))
      as [caCert|e0] eqn:Eca; [|intros [= <- <-]; left; eauto].
    intros H. right. split; [done|]. split; [done|].
    destruct (Env.pathorcontents_Read env _ (Config.ClientCertFile c))
      as [clientCert|e0] eqn:Ecert; [|injection H as <- <-; left; eauto].
    destruct (Env.pathorcontents_Read env _ (Config.ClientKeyFile c))
      as [clientKey|e0] eqn:Ekey; [|injection H as <- <-; right; left; eauto].
    destruct (Env.tls_X509KeyPair env clientCert clientKey) as [cert|e0] eqn:Epair; [done|].
    injection H as <- <-. right. right. eauto 10.
  - destruct (Env.pathorcontents_Read env (World.trace w) (Config.CACertFile c))
      as [caCert|e0] eqn:Eca; [done|intros [= <- <-]; left; eauto].
  - intros H. right. split; [done|]. split; [done|].
    destruct (Env.pathorcontents_Read env _ (Config.ClientCertFile c))
      as [clientCert|e0] eqn:Ecert; [|injection H as <- <-; left; eauto].
    destruct (Env.pathorcontents_Read env _ (Config.ClientKeyFile c))
      as [clientKey|e0] eqn:Ekey; [|injection H as <- <-; right; left; eauto].
    destruct (Env.tls_X509KeyPair env clientCert clientKey) as [cert|e0] eqn:Epair; [done|].
    injection H as <- <-. right. right. eauto 10.
  - done.
Qed.

Lemma generateTLSConfig_errors_witness :
  generateTLSConfig env_ok c_tls w_init
  = (Fail "Error reading CA Cert: open ca.pem: no such file or directory", w_tls_failed)
  ∧ heaps_kept w_init w_tls_failed.
Proof.
  assert (generateTLSConfig env_ok c_tls w_init
          = (Fail "Error reading CA Cert: open ca.pem: no such file or directory",
             w_tls_failed)) as H by (vm_compute; reflexivity).
  split; [exact H|].
  exact (proj1 (generateTLSConfig_errors env_ok c_tls w_init _ _ H)).
Defined.

Lemma generateTLSConfig_Ret_trace env c w config w' :
  generateTLSConfig env c w = (Ret config, w') →
  World.trace w' = World.trace w ++ tls_reads c.
Proof.
  rewrite generateTLSConfig_eval. unfold tls_reads. cbv zeta.
  repeat case_decide; repeat case_match; try done; intros [= _ <-]; cbn;
    by rewrite <- ?app_assoc, ?app_nil_r.
Qed.

Lemma generateTLSConfig_no_panic env c w p w' :
  generateTLSConfig env c w ≠ (Panic p, w').
Proof.
  rewrite generateTLSConfig_eval. cbv zeta.
  repeat case_decide; repeat case_match; done.
Qed.

(** ** genClient *)

Lemma genClient_eval env ao w :
  genClient env ao w =
  match Env.huaweisdk_NewClient env (GetIdentityEndpoint ao) with
  | Err e => (Fail e, w)
  | Ok fresh =>
      let c := World.config w in
      let l := length (World.clients w) in
      let v1 := ProviderClient.set_UserAgent
                  (Env.httpclient_TerraformUserAgent env (Config.TerraformVersion c)
                     :: ProviderClient.UserAgent fresh) fresh in
      match generateTLSConfig env c
              (World.set_clients (World.clients w ++ [v1]) w) with
      | (Ret config, w2) =>
          let v2 := ProviderClient.set_HTTPClient
                      (HTTPClient.mk (Some (length (World.transports w))) (Some l)) v1 in
          let tr := World.transports w
                    ++ [LogRoundTripper.mk config (Env.logging_IsDebugOrHigher env)
                          (Config.MaxRetries c)] in
          let h := World.trace w2 in
          match Env.huaweisdk_Authenticate env h v2 ao with
          | Ok v' =>
              (Ret l, World.mk c (World.clients w ++ [v']) tr (h ++ [CallAuthenticate l ao]))
          | Err e =>
              (Fail e, World.mk c (World.clients w ++ [v2]) tr (h ++ [CallAuthenticate l ao]))
          end
      | (Fail e, w2) => (Fail e, w2)
      | (Panic p, w2) => (Panic p, w2)
      end
  end.
Proof.
  unfold genClient. rewrite bind_unfold. unfold lift_result at 1.
  destruct (Env.huaweisdk_NewClient env (GetIdentityEndpoint ao)) as [fresh|e];
    [|reflexivity].
  unfold mret at 1, M_ret at 1. rewrite bind_unfold. cbn [new_ProviderClient].
  rewrite bind_unfold. cbn [get_config World.config World.set_clients].
  set (w1 := World.set_clients _ w).
  erewrite bind_Ret
    by (by eapply (update_client_last w1 (World.clients w) fresh)).
  cbv zeta. rewrite bind_unfold.
  change (World.set_clients _ w1) with
    (World.set_clients (World.clients w ++
       [ProviderClient.set_UserAgent
          (Env.httpclient_TerraformUserAgent env (Config.TerraformVersion (World.config w))
             :: ProviderClient.UserAgent fresh) fresh]) w).
  destruct (generateTLSConfig env (World.config w) _) as [[config|e|p] w2] eqn:E;
    [|reflexivity..].
  apply generateTLSConfig_heaps_kept in E as (Hc & Hcl & Htr).
  cbn in Hc, Hcl, Htr.
  rewrite bind_unfold. cbn [new_LogRoundTripper].
  set (w3 := World.set_transports _ w2).
  erewrite bind_Ret
    by (eapply (update_client_last w3 (World.clients w)); exact Hcl).
  rewrite bind_unfold. unfold load_client.
  cbn [World.clients World.set_clients]. rewrite list_lookup_middle by done.
  rewrite bind_unfold. cbn [get_trace]. rewrite bind_unfold. cbn [emit].
  rewrite bind_unfold. unfold lift_result.
  cbn [World.trace World.set_trace World.set_clients World.set_transports w3].
  rewrite Htr.
  destruct (Env.huaweisdk_Authenticate env _ _ ao) as [v'|e].
  - unfold mret at 1, M_ret at 1. rewrite bind_unfold.
    erewrite (store_client_last _ (World.clients w)) by reflexivity.
    unfold mret, M_ret. destruct w2; cbn in *. by subst.
  - unfold errorf. destruct w2; cbn in *. by subst.
Qed.

Lemma generateTLSConfig_heap_blind env c w cl :
  generateTLSConfig env c (World.set_clients cl w) =
  (fst (generateTLSConfig env c w),
   World.set_clients cl (snd (generateTLSConfig env c w))).
Proof.
  rewrite !generateTLSConfig_eval. cbv zeta. cbn [World.trace World.set_clients].
  repeat case_decide; repeat case_match; reflexivity.
Qed.

(** X4.  A successful [genClient] returns a freshly allocated client: its
    address is the next free one, every older client and the configuration
    are untouched.  The SDK client was created for the identity endpoint of
    the options; before authentication it was given the Terraform user agent
    in front of its own, one new transport holding the TLS configuration,
    the debug flag and [MaxRetries], and a redirect hook bound to itself.
    Exactly one authentication request was sent, after the TLS files were
    read, and the client stored is the one authentication returned. *)
Theorem genClient_success
    (env : Env.t) (ao : AuthOptionsProvider) (w : World.t) (l : loc) (w' : World.t) :
  genClient env ao w = (Ret l, w') →
  let c := World.config w in
  ∃ fresh config v',
    Env.huaweisdk_NewClient env (GetIdentityEndpoint ao) = Ok fresh
    ∧ fst (generateTLSConfig env c w) = Ret config
    ∧ Env.huaweisdk_Authenticate env (World.trace w ++ tls_reads c)
        (ProviderClient.set_HTTPClient
           (HTTPClient.mk (Some (length (World.transports w))) (Some l))
           (ProviderClient.set_UserAgent
              (Env.httpclient_TerraformUserAgent env (Config.TerraformVersion c)
                 :: ProviderClient.UserAgent fresh) fresh)) ao = Ok v'
    ∧ l = length (World.clients w)
    ∧ World.config w' = c
    ∧ World.clients w' = World.clients w ++ [v']
    ∧ World.transports w'
      = World.transports w
        ++ [LogRoundTripper.mk config (Env.logging_IsDebugOrHigher env)
              (Config.MaxRetries c)]
    ∧ World.trace w' = World.trace w ++ tls_reads c ++ [CallAuthenticate l ao].
Proof.
  rewrite genClient_eval. cbv zeta.
  destruct (Env.huaweisdk_NewClient env (GetIdentityEndpoint ao)) as [fresh|e]; [|done].
  rewrite generateTLSConfig_heap_blind.
  destruct (generateTLSConfig env (World.config w) w) as [[config|e|p] w2] eqn:E;
    cbn [fst snd]; [|done..].
  apply generateTLSConfig_Ret_trace in E.
  cbn [World.trace World.set_clients]. rewrite E.
  destruct (Env.huaweisdk_Authenticate env _ _ ao) as [v'|e] eqn:Ea; [|done].
  intros [= <- <-]. exists fresh, config, v'. cbn. rewrite <- app_assoc.
  repeat split; done.
Qed.

Lemma genClient_success_witness :
  genClient env_domain_refused (AuthByOptions pao_password) (w_of d_password)
  = (Ret 0, w_project_ok)
  ∧ World.trace w_project_ok = [CallAuthenticate 0 (AuthByOptions pao_password)]
  ∧ length (World.clients w_project_ok) = 1
  ∧ length (World.transports w_project_ok) = 1.
Proof.
  assert (genClient env_domain_refused (AuthByOptions pao_password) (w_of d_password)
          = (Ret 0, w_project_ok)) as H by (vm_compute; reflexivity).
  split; [exact H|].
  destruct (genClient_success env_domain_refused _ _ _ _ H)
    as (fresh & config & v' & _ & _ & _ & _ & _ & Hcl & Htr & Ht).
  split; [exact Ht|]. split; [by rewrite Hcl|by rewrite Htr].
Defined.

(** X5.  A failed [genClient] leaves the configuration and every older
    client as they were.  Either the SDK could not create the client, and
    then nothing at all has happened; or the TLS material could not be
    loaded, and then no transport was built and no authentication request
    was sent; or the identity service refused the one request sent. *)
Theorem genClient_failure
    (env : Env.t) (ao : AuthOptionsProvider) (w : World.t) (e : error) (w' : World.t) :
  genClient env ao w = (Fail e, w') →
  let c := World.config w in
  World.config w' = c
  ∧ (∀ l v, World.clients w !! l = Some v → World.clients w' !! l = Some v)
  ∧ ((Env.huaweisdk_NewClient env (GetIdentityEndpoint ao) = Err e ∧ w' = w)
     ∨ (∃ w2, generateTLSConfig env c w = (Fail e, w2)
              ∧ World.trace w' = World.trace w2
              ∧ World.transports w' = World.transports w)
     ∨ (∃ fresh config,
          Env.huaweisdk_NewClient env (GetIdentityEndpoint ao) = Ok fresh
          ∧ fst (generateTLSConfig env c w) = Ret config
          ∧ Env.huaweisdk_Authenticate env (World.trace w ++ tls_reads c)
              (ProviderClient.set_HTTPClient
                 (HTTPClient.mk (Some (length (World.transports w)))
                    (Some (length (World.clients w))))
                 (ProviderClient.set_UserAgent
                    (Env.httpclient_TerraformUserAgent env (Config.TerraformVersion c)
                       :: ProviderClient.UserAgent fresh) fresh)) ao = Err e
          ∧ World.trace w'
            = World.trace w ++ tls_reads c
              ++ [CallAuthenticate (length (World.clients w)) ao])).
Proof.
  rewrite genClient_eval. cbv zeta.
  destruct (Env.huaweisdk_NewClient env (GetIdentityEndpoint ao)) as [fresh|e0] eqn:En;
    [|intros [= <- <-]; eauto].
  rewrite generateTLSConfig_heap_blind.
  destruct (generateTLSConfig env (World.config w) w) as [[config|e0|p] w2] eqn:E;
    cbn [fst snd]; [| |done].
  - pose proof (generateTLSConfig_Ret_trace _ _ _ _ _ E) as Ht.
    cbn [World.trace World.set_clients]. rewrite Ht.
    destruct (Env.huaweisdk_Authenticate env _ _ ao) as [v'|e0] eqn:Ea; [done|].
    intros [= <- <-]. cbn. split; [done|]. split.
    + intros l v Hl. by apply lookup_app_l_Some.
    + right. right. exists fresh, config. rewrite <- app_assoc. done.
  - intros [= <- <-]. pose proof (generateTLSConfig_heaps_kept _ _ _ _ _ E) as (Hc & Hcl & Htr).
    cbn. split; [done|]. split.
    + intros l v Hl. by apply lookup_app_l_Some.
    + right. left. exists w2. done.
Qed.

Lemma genClient_failure_witness :
  genClient env_domain_refused (AuthByOptions dao_password)
    (with_HwClient 0 w_project_ok)
  = (Fail "You are not authorized to perform the requested action", w_domain_failed)
  ∧ World.config w_domain_failed = World.config (with_HwClient 0 w_project_ok)
  ∧ World.clients w_domain_failed !! 0 = World.clients w_project_ok !! 0.
Proof.
  assert (genClient env_domain_refused (AuthByOptions dao_password)
            (with_HwClient 0 w_project_ok)
          = (Fail "You are not authorized to perform the requested action",
             w_domain_failed)) as H by (vm_compute; reflexivity).
  split; [exact H|].
  destruct (genClient_failure env_domain_refused _ _ _ _ H) as (Hc & Hkept & _).
  split; [exact Hc|].
  destruct (World.clients w_project_ok !! 0) as [v|] eqn:Hv; [|by vm_compute in Hv].
  exact (Hkept 0 v Hv).
Defined.

Lemma genClient_Ret env ao w l w' :
  genClient env ao w = (Ret l, w') →
  l = length (World.clients w)
  ∧ World.config w' = World.config w
  ∧ (∃ v', World.clients w' = World.clients w ++ [v'])
  ∧ (∃ t, World.transports w' = World.transports w ++ [t])
  ∧ World.trace w'
    = World.trace w ++ tls_reads (World.config w) ++ [CallAuthenticate l ao].
Proof.
  rewrite genClient_eval. cbv zeta.
  destruct (Env.huaweisdk_NewClient env (GetIdentityEndpoint ao)) as [fresh|e]; [|done].
  rewrite generateTLSConfig_heap_blind.
  destruct (generateTLSConfig env (World.config w) w) as [[config|e|p] w2] eqn:E;
    cbn [fst snd]; [|done..].
  apply generateTLSConfig_Ret_trace in E.
  cbn [World.trace World.set_clients]. rewrite E.
  destruct (Env.huaweisdk_Authenticate env _ _ ao) as [v'|e] eqn:Ea; [|done].
  intros [= <- <-]. cbn. rewrite <- app_assoc. eauto 10.
Qed.

Lemma genClient_no_panic env ao w p w' : genClient env ao w ≠ (Panic p, w').
Proof.
  rewrite genClient_eval. cbv zeta.
  destruct (Env.huaweisdk_NewClient env (GetIdentityEndpoint ao)); [|done].
  destruct (generateTLSConfig env _ _) as [[config|e|p'] w2] eqn:E.
  - by destruct (Env.huaweisdk_Authenticate env _ _ ao).
  - done.
  - by apply generateTLSConfig_no_panic in E.
Qed.

(** ** newS3Session *)

Lemma newS3Session_eval env osDebug w :
  newS3Session env osDebug w =
  let c := World.config w in
  if decide (Config.AccessKey c ≠ "" ∧ Config.SecretKey c ≠ "") then
    match Env.GetCredentials env c with
    | Err e => (Fail e, w)
    | Ok creds =>
        let w1 := World.set_trace (World.trace w ++ [CallCredentialsGet creds]) w in
        match Env.credentials_Get env (World.trace w) creds with
        | inl e =>
            (Fail (if decide (aws_error_code e = Some "NoCredentialProviders")
                   then "No valid credential sources found for S3 Provider."
                   else "Error loading credentials for S3 Provider: "
                        +:+ aws_error_text e), w1)
        | inr _ =>
            match Env.session_NewSession env
                    (AwsConfig.mk creds (Config.Region c) osDebug (Config.Insecure c)) with
            | Ok sess => (Ret (), World.set_config (Config.set_s3sess (Some sess) c) w1)
            | Err e => (Fail ("Error creating Swift S3 session: " +:+ e),
                        World.set_config (Config.set_s3sess None c) w1)
            end
        end
    end
  else (Ret (), w).
Proof.
  unfold newS3Session. rewrite bind_unfold. cbn [get_config]. cbv zeta.
  case_decide; [|reflexivity].
  rewrite bind_unfold. unfold lift_result.
  destruct (Env.GetCredentials env (World.config w)) as [creds|e]; [|reflexivity].
  munfold. cbn.
  destruct (Env.credentials_Get env (World.trace w) creds) as [e|cp].
  - by case_decide.
  - by destruct (Env.session_NewSession env _).
Qed.

(** X6.  A successful [newS3Session] touches neither heap.  Without both
    [AccessKey] and [SecretKey] it does nothing: no credentials lookup, no
    session.  With both, it looks the credentials up once and stores the
    session created for the provider's [Region], with the debug flag it was
    given and the provider's [Insecure] setting. *)
Theorem newS3Session_result
    (env : Env.t) (osDebug : bool) (w w' : World.t) :
  newS3Session env osDebug w = (Ret (), w') →
  let c := World.config w in
  World.clients w' = World.clients w
  ∧ World.transports w' = World.transports w
  ∧ (Config.AccessKey c = "" ∨ Config.SecretKey c = "" → w' = w)
  ∧ (Config.AccessKey c ≠ "" → Config.SecretKey c ≠ "" →
     ∃ creds sess,
       Env.GetCredentials env c = Ok creds
       ∧ (∃ cp, Env.credentials_Get env (World.trace w) creds = inr cp)
       ∧ Env.session_NewSession env
           (AwsConfig.mk creds (Config.Region c) osDebug (Config.Insecure c)) = Ok sess
       ∧ World.config w' = Config.set_s3sess (Some sess) c
       ∧ World.trace w' = World.trace w ++ [CallCredentialsGet creds]).
Proof.
  rewrite newS3Session_eval. cbv zeta.
  destruct (decide (Config.AccessKey (World.config w) ≠ ""
                    ∧ Config.SecretKey (World.config w) ≠ "")) as [[Hak Hsk]|Hno].
  - destruct (Env.GetCredentials env (World.config w)) as [creds|e] eqn:Ec; [|done].
    destruct (Env.credentials_Get env (World.trace w) creds) as [e|cp] eqn:Eg; [done|].
    destruct (Env.session_NewSession env _) as [sess|e] eqn:Es; [|done].
    intros [= <-]. cbn. split; [done|]. split; [done|]. split; [by intros []|].
    intros _ _. exists creds, sess. eauto 10.
  - intros [= <-]. split; [done|]. split; [done|]. split; [done|].
    intros Hak Hsk. by destruct Hno.
Qed.

Lemma newS3Session_result_witness :
  newS3Session env_ok false (w_of d_aksk) = (Ret (), w_s3)
  ∧ Config.s3sess (World.config w_s3)
    = Some (AwsConfig.mk "AK" "cn-north-1" false false)
  ∧ World.trace w_s3 = [CallCredentialsGet "AK"].
Proof.
  assert (newS3Session env_ok false (w_of d_aksk) = (Ret (), w_s3)) as H
    by (vm_compute; reflexivity).
  split; [exact H|].
  destruct (newS3Session_result env_ok false _ _ H) as (_ & _ & _ & Hkeys).
  destruct Hkeys as (creds & sess & Hc & _ & Hs & Hcfg & Ht);
    [vm_compute; discriminate..|].
  vm_compute in Hc. injection Hc as <-. vm_compute in Hs. injection Hs as <-.
  split; [rewrite Hcfg; reflexivity|exact Ht].
Defined.

(** X7.  [newS3Session] fails only when both keys are set, and in one of
    four ways: [GetCredentials] fails, with its error returned as it is and
    nothing done; the lookup fails with code "NoCredentialProviders", giving
    "No valid credential sources found for S3 Provider."; the lookup fails
    otherwise, giving "Error loading credentials for S3 Provider: ..."; the
    session cannot be created, giving "Error creating Swift S3 session:
    ...", with [s3sess] set to nil. *)
Theorem newS3Session_errors
    (env : Env.t) (osDebug : bool) (w : World.t) (e : error) (w' : World.t) :
  newS3Session env osDebug w = (Fail e, w') →
  let c := World.config w in
  Config.AccessKey c ≠ "" ∧ Config.SecretKey c ≠ ""
  ∧ World.clients w' = World.clients w
  ∧ World.transports w' = World.transports w
  ∧ ((Env.GetCredentials env c = Err e ∧ w' = w)
     ∨ ∃ creds,
         Env.GetCredentials env c = Ok creds
         ∧ World.trace w' = World.trace w ++ [CallCredentialsGet creds]
         ∧ ((∃ err, Env.credentials_Get env (World.trace w) creds = inl err
                    ∧ World.config w' = c
                    ∧ e = if decide (aws_error_code err = Some "NoCredentialProviders")
                          then "No valid credential sources found for S3 Provider."
                          else "Error loading credentials for S3 Provider: "
                               +:+ aws_error_text err)
            ∨ (∃ e0, (∃ cp, Env.credentials_Get env (World.trace w) creds = inr cp)
                     ∧ Env.session_NewSession env
                         (AwsConfig.mk creds (Config.Region c) osDebug (Config.Insecure c))
                       = Err e0
                     ∧ e = "Error creating Swift S3 session: " +:+ e0
                     ∧ World.config w' = Config.set_s3sess None c))).
Proof.
  rewrite newS3Session_eval. cbv zeta.
  destruct (decide (Config.AccessKey (World.config w) ≠ ""
                    ∧ Config.SecretKey (World.config w) ≠ "")) as [[Hak Hsk]|Hno]; [|done].
  destruct (Env.GetCredentials env (World.config w)) as [creds|e0] eqn:Ec;
    [|intros [= <- <-]; eauto 10].
  destruct (Env.credentials_Get env (World.trace w) creds) as [err|cp] eqn:Eg.
  - intros [= <- <-]. repeat split; try done. right. exists creds.
    repeat split; try done. left. by exists err.
  - destruct (Env.session_NewSession env _) as [sess|e0] eqn:Es; [done|].
    intros [= <- <-]. repeat split; try done. right. exists creds.
    repeat split; try done. right. exists e0. eauto 10.
Qed.

Lemma newS3Session_errors_witness :
  newS3Session env_no_credentials false (w_of d_aksk)
  = (Fail "No valid credential sources found for S3 Provider.", w_s3_failed)
  ∧ World.clients w_s3_failed = World.clients (w_of d_aksk)
  ∧ Config.s3sess (World.config w_s3_failed) = None.
Proof.
  assert (newS3Session env_no_credentials false (w_of d_aksk)
          = (Fail "No valid credential sources found for S3 Provider.", w_s3_failed))
    as H by (vm_compute; reflexivity).
  split; [exact H|].
  destruct (newS3Session_errors env_no_credentials false _ _ _ H)
    as (_ & _ & Hcl & _ & _).
  split; [exact Hcl|reflexivity].
Defined.

Lemma newS3Session_Ret env osDebug w w' :
  newS3Session env osDebug w = (Ret (), w') →
  World.clients w' = World.clients w
  ∧ World.transports w' = World.transports w
  ∧ if decide (Config.AccessKey (World.config w) ≠ ""
               ∧ Config.SecretKey (World.config w) ≠ "")
    then ∃ creds sess,
           World.config w' = Config.set_s3sess (Some sess) (World.config w)
           ∧ World.trace w' = World.trace w ++ [CallCredentialsGet creds]
    else w' = w.
Proof.
  rewrite newS3Session_eval. cbv zeta.
  destruct (decide (Config.AccessKey (World.config w) ≠ ""
                    ∧ Config.SecretKey (World.config w) ≠ "")); [|by intros [= <-]].
  destruct (Env.GetCredentials env (World.config w)) as [creds|e]; [|done].
  destruct (Env.credentials_Get env (World.trace w) creds) as [e|cp]; [done|].
  destruct (Env.session_NewSession env _) as [sess|e]; [|done].
  intros [= <-]. split; [done|]. split; [done|]. eauto.
Qed.

Lemma newS3Session_no_panic env osDebug w p w' :
  newS3Session env osDebug w ≠ (Panic p, w').
Proof.
  rewrite newS3Session_eval. cbv zeta.
  repeat case_decide; repeat case_match; done.
Qed.

(** ** The strategies and LoadAndValidate *)

Lemma generateTLSConfig_trace_prefix env c w r w' :
  generateTLSConfig env c w = (r, w') →
  ∃ events, World.trace w' = World.trace w ++ events ∧ events `prefix_of` tls_reads c.
Proof.
  rewrite generateTLSConfig_eval. unfold tls_reads. cbv zeta.
  destruct (decide (Config.CACertFile c ≠ "")) as [Hca|Hca];
    (destruct (decide (Config.ClientCertFile c ≠ "" ∧ Config.ClientKeyFile c ≠ ""))
       as [[Hc Hk]|]);
    rewrite <- ?app_assoc; cbn [app];
    repeat case_match; intros [= <- <-]; cbn [World.trace World.set_trace];
    (eexists; split; [reflexivity|]);
    repeat (apply prefix_cons); apply prefix_nil || reflexivity.
Qed.

Lemma tls_reads_set_HwClient v c : tls_reads (Config.set_HwClient v c) = tls_reads c.
Proof. reflexivity. Qed.

Lemma genClient_trace_prefix env ao w r w' :
  genClient env ao w = (r, w') →
  World.config w' = World.config w
  ∧ ∃ events, World.trace w' = World.trace w ++ events
      ∧ events `prefix_of`
          tls_reads (World.config w) ++ [CallAuthenticate (length (World.clients w)) ao].
Proof.
  intros H. split; [by eapply genClient_same_config|]. revert H.
  rewrite genClient_eval. cbv zeta.
  destruct (Env.huaweisdk_NewClient env (GetIdentityEndpoint ao)) as [fresh|e].
  2:{ intros [= <- <-]. exists []. rewrite app_nil_r. split; [done|apply prefix_nil]. }
  rewrite generateTLSConfig_heap_blind.
  destruct (generateTLSConfig env (World.config w) w) as [[config|e|p] w2] eqn:E;
    cbn [fst snd].
  - apply generateTLSConfig_Ret_trace in E. cbn [World.trace World.set_clients].
    rewrite E.
    destruct (Env.huaweisdk_Authenticate env _ _ ao); intros [= <- <-]; cbn;
      eexists; (split; [by rewrite <- app_assoc|done]).
  - intros [= <- <-]. apply generateTLSConfig_trace_prefix in E as (ev & Ht & Hp).
    exists ev. split; [done|]. by apply prefix_app_r.
  - by apply generateTLSConfig_no_panic in E.
Qed.

Lemma selected_strategy_cases env w :
  let c := World.config w in
  (∃ e, selected_strategy env c w = (Fail e, w))
  ∨ ∃ pao dao,
      selected_strategy env c w = genClients env pao dao w
      ∧ strategy_options c pao dao.
Proof.
  cbv zeta. unfold selected_strategy, strategy_options.
  destruct (decide (Config.Token (World.config w) ≠ "")) as [Ht|Ht].
  { right. unfold buildClientByToken. rewrite bind_unfold. cbn [get_config].
    destruct (decide (agency_set (World.config w))); eexists _, _;
      (split; [reflexivity|]); repeat (split; [done|]);
      by rewrite decide_False by (by intros [? _]). }
  destruct (decide (Config.AccessKey (World.config w) ≠ ""
                    ∧ Config.SecretKey (World.config w) ≠ "")) as [Hk|Hk].
  { right. unfold buildClientByAKSK. rewrite bind_unfold. cbn [get_config].
    destruct (decide (agency_set (World.config w))) as [Ha|Ha]; eexists _, _;
      (split; [reflexivity|]); repeat (split; [done|]).
    - by rewrite decide_False by (by intros (_ & _ & ?)).
    - rewrite decide_True
        by (split; [by destruct (decide (Config.Token (World.config w) = ""))|done]).
      eexists _, _. done. }
  destruct (decide (Config.Password (World.config w) ≠ "")); [|left; eauto].
  destruct (decide (Config.Username (World.config w) = ""
                    ∧ Config.UserID (World.config w) = "")); [left; eauto|].
  right. unfold buildClientByPassword. rewrite bind_unfold. cbn [get_config].
  destruct (decide (agency_set (World.config w))); eexists _, _;
    (split; [reflexivity|]); repeat (split; [done|]);
    by rewrite decide_False by (by intros (_ & ? & _)).
Qed.

(** What [genClients] leaves behind, whatever its outcome. *)
Lemma genClients_outcome env pao dao w r w' :
  genClients env pao dao w = (r, w') →
  let c := World.config w in
  let l1 := length (World.clients w) in
  let full := tls_reads c ++ [CallAuthenticate l1 pao]
              ++ tls_reads c ++ [CallAuthenticate (S l1) dao] in
  (∀ p, r ≠ Panic p)
  ∧ (∃ events, World.trace w' = World.trace w ++ events ∧ events `prefix_of` full)
  ∧ (r = Ret () →
     World.trace w' = World.trace w ++ full
     ∧ World.config w'
       = Config.set_DomainClient (Some (S l1)) (Config.set_HwClient (Some l1) c)
     ∧ (∃ v1 v2, World.clients w' = World.clients w ++ [v1; v2])
     ∧ (∃ t1 t2, World.transports w' = World.transports w ++ [t1; t2])).
Proof.
  rewrite genClients_eval. cbv zeta.
  destruct (genClient env pao w) as [[l|e|p] w1] eqn:E1.
  - pose proof (genClient_Ret _ _ _ _ _ E1) as (-> & Hc1 & (v1 & Hcl1) & (t1 & Htr1) & Ht1).
    assert (length (World.clients w1) = S (length (World.clients w))) as Hlen.
    { rewrite Hcl1, length_app. cbn. lia. }
    destruct (genClient env dao _) as [[l2|e|p] w2] eqn:E2.
    + pose proof (genClient_Ret _ _ _ _ _ E2)
        as (Hl2 & Hc2 & (v2 & Hcl2) & (t2 & Htr2) & Ht2).
      cbn [with_HwClient World.clients World.config World.transports World.trace
           World.set_config] in Hl2, Hc2, Hcl2, Htr2, Ht2.
      rewrite Hlen in Hl2. subst l2.
      rewrite Hc1 in Hc2, Ht2. rewrite tls_reads_set_HwClient in Ht2.
      intros [= <- <-]. cbn [World.trace World.config World.clients World.transports
                              with_DomainClient World.set_config].
      assert (World.trace w2 = World.trace w ++
                tls_reads (World.config w) ++ [CallAuthenticate (length (World.clients w)) pao]
                ++ tls_reads (World.config w)
                ++ [CallAuthenticate (S (length (World.clients w))) dao]) as Ht.
      { rewrite Ht2, Ht1. by rewrite <- !app_assoc. }
      split; [done|]. split; [eauto|]. intros _.
      split; [done|]. split; [by rewrite Hc2|]. split.
      * exists v1, v2. rewrite Hcl2, Hcl1. by rewrite <- app_assoc.
      * exists t1, t2. rewrite Htr2, Htr1. by rewrite <- app_assoc.
    + intros [= <- <-]. split; [done|]. split; [|done].
      apply genClient_trace_prefix in E2 as (_ & ev & Ht2 & Hp).
      cbn [with_HwClient World.clients World.config World.transports World.trace
           World.set_config] in Ht2, Hp.
      rewrite Hlen, Hc1, tls_reads_set_HwClient in Hp.
      exists ((tls_reads (World.config w)
               ++ [CallAuthenticate (length (World.clients w)) pao]) ++ ev).
      split; [rewrite Ht2, Ht1; by rewrite <- !app_assoc|].
      rewrite <- app_assoc. cbn [app].
      apply prefix_app, prefix_cons. exact Hp.
    + by apply genClient_no_panic in E2.
  - intros [= <- <-]. split; [done|]. split; [|done].
    apply genClient_trace_prefix in E1 as (_ & ev & Ht & Hp).
    exists ev. split; [done|].
    rewrite (app_assoc (tls_reads _) [_]). by apply prefix_app_r.
  - by apply genClient_no_panic in E1.
Qed.

Lemma LoadAndValidate_no_panic env w p w' : LoadAndValidate env w ≠ (Panic p, w').
Proof.
  rewrite LoadAndValidate_eval. case_decide; [done|].
  rewrite bind_unfold.
  destruct (selected_strategy env (World.config w) w) as [[[]|e|p'] w1] eqn:E; [|done|].
  - apply newS3Session_no_panic.
  - destruct (selected_strategy_cases env w) as [[e He]|(pao & dao & Hs & _)]; [congruence|].
    rewrite Hs in E. apply genClients_outcome in E as (Hp & _). by destruct (Hp p').
Qed.

Lemma LoadAndValidate_Ret env w w' :
  LoadAndValidate env w = (Ret (), w') →
  let c := World.config w in
  let l1 := length (World.clients w) in
  ∃ pao dao,
    strategy_options c pao dao
    ∧ (if decide (Config.AccessKey c ≠ "" ∧ Config.SecretKey c ≠ "") then
         ∃ creds sess,
           World.trace w'
           = World.trace w ++ setup_events c l1 pao dao ++ [CallCredentialsGet creds]
           ∧ Config.s3sess (World.config w') = Some sess
       else World.trace w' = World.trace w ++ setup_events c l1 pao dao
            ∧ Config.s3sess (World.config w') = Config.s3sess c)
    ∧ Config.HwClient (World.config w') = Some l1
    ∧ Config.DomainClient (World.config w') = Some (S l1)
    ∧ (∃ v1 v2, World.clients w' = World.clients w ++ [v1; v2])
    ∧ (∃ t1 t2, World.transports w' = World.transports w ++ [t1; t2]).
Proof.
  rewrite LoadAndValidate_eval. case_decide; [done|].
  rewrite bind_unfold. cbv zeta.
  destruct (selected_strategy env (World.config w) w) as [[[]|e|p'] w1] eqn:E; [|done..].
  destruct (selected_strategy_cases env w) as [[e He]|(pao & dao & Hs & Hfacts)];
    [congruence|].
  rewrite Hs in E. apply genClients_outcome in E as (_ & _ & HR).
  destruct (HR eq_refl) as (Ht & Hc & Hcl & Htr). clear HR.
  intros H3. exists pao, dao. split; [exact Hfacts|].
  apply newS3Session_Ret in H3 as (Hcl3 & Htr3 & H3).
  rewrite Hcl3, Htr3. rewrite Hc in H3.
  cbn [Config.AccessKey Config.SecretKey Config.set_DomainClient Config.set_HwClient]
    in H3.
  destruct (decide (Config.AccessKey (World.config w) ≠ ""
                    ∧ Config.SecretKey (World.config w) ≠ "")).
  - destruct H3 as (creds & sess & Hc3 & Ht3).
    split; [|by rewrite Hc3].
    exists creds, sess. rewrite Ht3, Ht, Hc3. unfold setup_events.
    by rewrite <- !app_assoc.
  - subst w'. by rewrite Hc, Ht.
Qed.

Lemma newS3Session_trace_prefix env osDebug w r w' :
  newS3Session env osDebug w = (r, w') →
  World.trace w' = World.trace w
  ∨ ∃ creds, World.trace w' = World.trace w ++ [CallCredentialsGet creds].
Proof.
  rewrite newS3Session_eval. cbv zeta.
  repeat case_decide; repeat case_match; intros [= <- <-]; cbn; eauto.
Qed.

(** The trace of [LoadAndValidate], whatever its outcome. *)
Lemma LoadAndValidate_trace env w r w' :
  LoadAndValidate env w = (r, w') →
  let c := World.config w in
  let l1 := length (World.clients w) in
  World.trace w' = World.trace w
  ∨ ∃ pao dao creds events,
      strategy_options c pao dao
      ∧ World.trace w' = World.trace w ++ events
      ∧ events `prefix_of` setup_events c l1 pao dao ++ [CallCredentialsGet creds].
Proof.
  rewrite LoadAndValidate_eval. case_decide; [intros [= _ <-]; by left|].
  rewrite bind_unfold. cbv zeta.
  destruct (selected_strategy_cases env w) as [[e He]|(pao & dao & Hs & Hfacts)].
  { rewrite He. intros [= _ <-]. by left. }
  rewrite Hs.
  destruct (genClients env pao dao w) as [[[]|e|p'] w1] eqn:E.
  - apply genClients_outcome in E as (_ & _ & HR).
    destruct (HR eq_refl) as (Ht & _). clear HR.
    intros H3. right. apply newS3Session_trace_prefix in H3 as [H3|[creds H3]].
    + exists pao, dao, "", (setup_events (World.config w) (length (World.clients w)) pao dao).
      split; [exact Hfacts|]. split; [by rewrite H3, Ht|]. by apply prefix_app_r.
    + exists pao, dao, creds, (setup_events (World.config w) (length (World.clients w)) pao dao
                                ++ [CallCredentialsGet creds]).
      split; [exact Hfacts|]. split; [|done].
      rewrite H3, Ht. unfold setup_events. by rewrite <- !app_assoc.
  - intros [= <- <-]. right.
    apply genClients_outcome in E as (_ & (ev & Ht & Hp) & _).
    exists pao, dao, "", ev. split; [exact Hfacts|]. split; [done|]. by apply prefix_app_r.
  - apply genClients_outcome in E as (Hp & _). by destruct (Hp p').
Qed.

Lemma count_queries_app t1 t2 :
  count_queries (t1 ++ t2) = count_queries t1 + count_queries t2.
Proof. unfold count_queries. by rewrite list.filter_app, length_app. Qed.

Lemma count_queries_tls_reads c : count_queries (tls_reads c) = 0.
Proof. unfold tls_reads. by repeat case_decide. Qed.

Lemma count_queries_prefix ev full :
  ev `prefix_of` full → count_queries full = 0 → count_queries ev = 0.
Proof. intros [k ->]. rewrite count_queries_app. lia. Qed.

Lemma count_queries_setup c l1 pao dao creds :
  count_queries (setup_events c l1 pao dao ++ [CallCredentialsGet creds]) = 0.
Proof.
  unfold setup_events. rewrite !count_queries_app, !count_queries_tls_reads. done.
Qed.

Lemma LoadAndValidate_Ret_valid env w w' :
  LoadAndValidate env w = (Ret (), w') →
  let c := World.config w in
  (0 ≤ Config.MaxRetries c)%Z
  ∧ (Config.Token c ≠ ""
     ∨ (Config.AccessKey c ≠ "" ∧ Config.SecretKey c ≠ "")
     ∨ (Config.Password c ≠ "" ∧ (Config.Username c ≠ "" ∨ Config.UserID c ≠ ""))).
Proof.
  intros H. cbv zeta. rewrite LoadAndValidate_eval in H.
  destruct (decide (Config.MaxRetries (World.config w) < 0)%Z); [discriminate H|].
  split; [lia|].
  rewrite bind_unfold in H. unfold selected_strategy in H.
  destruct (decide (Config.Token (World.config w) ≠ "")); [by left|].
  destruct (decide (Config.AccessKey (World.config w) ≠ ""
                    ∧ Config.SecretKey (World.config w) ≠ "")); [by right; left|].
  destruct (decide (Config.Password (World.config w) ≠ "")); [|discriminate H].
  destruct (decide (Config.Username (World.config w) = ""
                    ∧ Config.UserID (World.config w) = "")) as [|Hn]; [discriminate H|].
  right. right. split; [done|].
  destruct (decide (Config.Username (World.config w) = "")); [|by left].
  right. intros ?. by destruct Hn.
Qed.

(** X8.  When [LoadAndValidate] succeeds, [HwClient] and [DomainClient] are
    two distinct, freshly allocated clients (the next two free addresses),
    two transports were built, no setting was changed, and [s3sess] is set
    when both keys are configured and left alone otherwise.  Success also
    means the configuration was valid: [MaxRetries] is not negative, and a
    token, or a key pair, or a password with a user name or user ID, is
    configured. *)
Theorem LoadAndValidate_success (env : Env.t) (w w' : World.t) :
  LoadAndValidate env w = (Ret (), w') →
  let c := World.config w in
  let l1 := length (World.clients w) in
  Config.HwClient (World.config w') = Some l1
  ∧ Config.DomainClient (World.config w') = Some (S l1)
  ∧ (∃ v1 v2, World.clients w' = World.clients w ++ [v1; v2])
  ∧ (∃ t1 t2, World.transports w' = World.transports w ++ [t1; t2])
  ∧ settings_kept w w'
  ∧ (Config.AccessKey c ≠ "" ∧ Config.SecretKey c ≠ ""
     → is_Some (Config.s3sess (World.config w')))
  ∧ (Config.AccessKey c = "" ∨ Config.SecretKey c = ""
     → Config.s3sess (World.config w') = Config.s3sess c)
  ∧ (0 ≤ Config.MaxRetries c)%Z
  ∧ (Config.Token c ≠ ""
     ∨ (Config.AccessKey c ≠ "" ∧ Config.SecretKey c ≠ "")
     ∨ (Config.Password c ≠ "" ∧ (Config.Username c ≠ "" ∨ Config.UserID c ≠ ""))).
Proof.
  intros H. cbv zeta.
  pose proof (LoadAndValidate_settings_kept env _ _ _ H) as Hset.
  pose proof (LoadAndValidate_Ret env _ _ H) as (pao & dao & _ & Hs3 & Hhw & Hdc & Hcl & Htr).
  split; [exact Hhw|]. split; [exact Hdc|]. split; [exact Hcl|]. split; [exact Htr|].
  split; [exact Hset|].
  split; [|split; [|split]].
  - intros Hkeys. rewrite decide_True in Hs3 by done.
    destruct Hs3 as (creds & sess & _ & ->). eauto.
  - intros Hkeys. rewrite decide_False in Hs3 by (intros []; by destruct Hkeys).
    by destruct Hs3.
  - by destruct (LoadAndValidate_Ret_valid env _ _ H).
  - by destruct (LoadAndValidate_Ret_valid env _ _ H).
Qed.

Lemma LoadAndValidate_success_witness :
  LoadAndValidate env_ok (w_of d_aksk) = (Ret (), w_loaded)
  ∧ Config.HwClient (World.config w_loaded) = Some 0
  ∧ Config.DomainClient (World.config w_loaded) = Some 1
  ∧ is_Some (Config.s3sess (World.config w_loaded)).
Proof.
  assert (LoadAndValidate env_ok (w_of d_aksk) = (Ret (), w_loaded)) as H
    by (vm_compute; reflexivity).
  split; [exact H|].
  destruct (LoadAndValidate_success env_ok _ _ H) as (Hhw & Hdc & _ & _ & _ & Hs3 & _).
  split; [exact Hhw|]. split; [exact Hdc|].
  apply Hs3. split; vm_compute; discriminate.
Defined.

(** X9.  What [LoadAndValidate] sends, whatever its outcome.  It never lists
    projects.  Either it fails with the trace untouched, or there are a
    project-scoped and a domain-scoped set of options such that the events
    gained are a prefix of: the TLS reads, the project-scoped
    authentication, the same TLS reads again, the domain-scoped
    authentication, the S3 credentials lookup.  On success it is that whole
    sequence, the lookup being there exactly when both keys are set.  Both
    sets of options are addressed to [IdentityEndpoint]; the second names no
    project at all, the first is scoped to [DelegatedProject] under an
    agency and to [TenantID]/[TenantName] otherwise; both name the agency
    when [AgencyName] and [AgencyDomainName] are both set, and neither
    names one otherwise.  The second is the first without its project,
    except under key-pair authentication without agency, where the first
    names the domain in [BssDomain]/[BssDomainID] and the second in
    [Domain]/[DomainID]. *)
Theorem LoadAndValidate_protocol
    (env : Env.t) (w : World.t) (r : outcome unit) (w' : World.t) :
  LoadAndValidate env w = (r, w') →
  let c := World.config w in
  let l1 := length (World.clients w) in
  count_queries (World.trace w') = count_queries (World.trace w)
  ∧ ((World.trace w' = World.trace w ∧ r ≠ Ret ())
     ∨ ∃ pao dao creds events,
         strategy_options c pao dao
         ∧ World.trace w' = World.trace w ++ events
         ∧ events `prefix_of` setup_events c l1 pao dao ++ [CallCredentialsGet creds]
         ∧ (r = Ret () →
            events = setup_events c l1 pao dao
                     ++ (if decide (Config.AccessKey c ≠ "" ∧ Config.SecretKey c ≠ "")
                         then [CallCredentialsGet creds] else []))).
Proof.
  intros H. cbv zeta.
  assert (count_queries (World.trace w') = count_queries (World.trace w)) as Hcount.
  { apply LoadAndValidate_trace in H as [->|(pao & dao & creds & ev & _ & -> & Hp)]; [done|].
    rewrite count_queries_app.
    rewrite (count_queries_prefix _ _ Hp (count_queries_setup _ _ _ _ _)). lia. }
  split; [exact Hcount|].
  destruct r as [[]|e|p].
  - right. apply LoadAndValidate_Ret in H as (pao & dao & Hopts & Hs3 & _).
    destruct (decide (Config.AccessKey (World.config w) ≠ ""
                      ∧ Config.SecretKey (World.config w) ≠ "")).
    + destruct Hs3 as (creds & sess & Ht & _).
      exists pao, dao, creds, (setup_events (World.config w) (length (World.clients w)) pao dao
                                ++ [CallCredentialsGet creds]).
      repeat (split; [done|]). done.
    + destruct Hs3 as [Ht _].
      exists pao, dao, "", (setup_events (World.config w) (length (World.clients w)) pao dao).
      repeat (split; [done|]). split; [by apply prefix_app_r|]. by rewrite app_nil_r.
  - apply LoadAndValidate_trace in H
      as [Ht|(pao & dao & creds & ev & Hopts & Ht & Hp)]; [by left|].
    right. exists pao, dao, creds, ev. repeat (split; [done|]). done.
  - by apply LoadAndValidate_no_panic in H.
Qed.

Lemma LoadAndValidate_protocol_witness :
  LoadAndValidate env_files (World.set_config c_tls w_init) = (Ret (), w_loaded_tls)
  ∧ count_queries (World.trace w_loaded_tls) = 0
  ∧ ∃ pao dao,
      World.trace w_loaded_tls
      = [CallRead "ca.pem"; CallRead "client.pem"; CallRead "client.key";
         CallAuthenticate 0 pao;
         CallRead "ca.pem"; CallRead "client.pem"; CallRead "client.key";
         CallAuthenticate 1 dao].
Proof.
  assert (LoadAndValidate env_files (World.set_config c_tls w_init)
          = (Ret (), w_loaded_tls)) as H by (vm_compute; reflexivity).
  split; [exact H|].
  destruct (LoadAndValidate_protocol env_files _ _ _ H) as [Hcount Hev].
  split; [rewrite Hcount; vm_compute; reflexivity|].
  destruct Hev as [[_ Hne]|(pao & dao & creds & events & _ & Ht & _ & Hall)];
    [by destruct Hne|].
  exists pao, dao. rewrite Ht, (Hall eq_refl). vm_compute. reflexivity.
Defined.

(** ** configureProvider *)

Lemma set_map_id (c : Config.t) :
  Config.set_RegionProjectIDMap (Config.RegionProjectIDMap c) c = c.
Proof. by destruct c. Qed.

Lemma configureProvider_Ret env d terraformVersion w0 w :
  configureProvider env d terraformVersion w0 = (Ret (), w) →
  let l1 := length (World.clients w0) in
  Config.set_RegionProjectIDMap ∅ (erase_clients (World.config w))
  = initial_config d terraformVersion
  ∧ Config.HwClient (World.config w) = Some l1
  ∧ Config.DomainClient (World.config w) = Some (S l1)
  ∧ (∃ v1 v2, World.clients w = World.clients w0 ++ [v1; v2]
       ∧ rpmap w = if decide (ProviderClient.ProjectID v1 ≠ "")
                   then {[ResourceData.region d := ProviderClient.ProjectID v1]}
                   else ∅)
  ∧ (∃ t1 t2, World.transports w = World.transports w0 ++ [t1; t2])
  ∧ (ResourceData.access_key d ≠ "" ∧ ResourceData.secret_key d ≠ ""
     → is_Some (Config.s3sess (World.config w)))
  ∧ (ResourceData.access_key d = "" ∨ ResourceData.secret_key d = ""
     → Config.s3sess (World.config w) = None).
Proof.
  rewrite configureProvider_eval.
  destruct (LoadAndValidate env _) as [[[]|e|p] w1] eqn:HL; [|done..].
  pose proof (LoadAndValidate_settings_kept env _ _ _ HL) as Hset.
  apply LoadAndValidate_Ret in HL
    as (pao & dao & _ & Hs3 & Hhw & Hdc & (v1 & v2 & Hcl) & Htr).
  cbn [World.config World.clients World.transports World.set_config World.trace] in *.
  unfold settings_kept in Hset. cbn [World.config World.set_config] in Hset.
  change (erase_clients (initial_config d terraformVersion))
    with (initial_config d terraformVersion) in Hset.
  unfold seed_default_region. cbv zeta. rewrite Hhw, Hcl.
  rewrite (list_lookup_middle _ _ _ (length (World.clients w0))) by done.
  assert (Config.RegionProjectIDMap (World.config w1) = ∅) as Hm.
  { change (Config.RegionProjectIDMap (World.config w1))
      with (Config.RegionProjectIDMap (erase_clients (World.config w1))).
    by rewrite Hset. }
  assert (Config.Region (World.config w1) = ResourceData.region d) as Hr.
  { change (Config.Region (World.config w1))
      with (Config.Region (erase_clients (World.config w1))).
    by rewrite Hset. }
  assert (Config.s3sess (World.config w1)
          = (if decide (ResourceData.access_key d ≠ "" ∧ ResourceData.secret_key d ≠ "")
             then Config.s3sess (World.config w1) else None)
          ∧ (ResourceData.access_key d ≠ "" ∧ ResourceData.secret_key d ≠ ""
             → is_Some (Config.s3sess (World.config w1)))) as [Hs3a Hs3b].
  { cbn [Config.AccessKey Config.SecretKey initial_config Config.s3sess] in Hs3.
    destruct (decide (ResourceData.access_key d ≠ "" ∧ ResourceData.secret_key d ≠ "")).
    - destruct Hs3 as (creds & sess & _ & Hs). rewrite Hs. eauto.
    - destruct Hs3 as [_ Hs]. by rewrite Hs. }
  destruct (decide (ProviderClient.ProjectID v1 ≠ "")) as [Hp|Hp]; intros [= <-];
    cbn [World.config World.clients World.transports World.set_config
         Config.HwClient Config.DomainClient Config.s3sess Config.set_RegionProjectIDMap
         Config.RegionProjectIDMap].
  - rewrite Hm, Hr, insert_empty.
    split; [|split; [done|split; [done|split; [|split; [done|split; [done|]]]]]].
    + rewrite <- Hset. destruct (World.config w1). cbn in *. by subst.
    + exists v1, v2. by rewrite decide_True.
    + intros Hk. rewrite Hs3a. rewrite decide_False; [done|]. intros []. by destruct Hk.
  - split; [|split; [done|split; [done|split; [|split; [done|split; [done|]]]]]].
    + rewrite <- Hset. destruct (World.config w1). cbn in *. by subst.
    + exists v1, v2. by rewrite decide_False.
    + intros Hk. rewrite Hs3a. rewrite decide_False; [done|]. intros []. by destruct Hk.
Qed.

(** ** The factory on a configured provider *)

#[global] Instance factory_frame_po : PreOrder factory_frame.
Proof.
  split.
  - intros w. split; [by rewrite set_map_id|]. done.
  - intros x y z (Hc1 & Hp1 & Ht1) (Hc2 & Hp2 & Ht2). split; [|split].
    + rewrite Hc2, Hc1. by destruct (World.config x).
    + by etransitivity.
    + congruence.
Qed.

Lemma factory_frame_intro w w' m :
  Config.RPLock (World.config w) = false →
  World.config w' = Config.set_RPLock false
                      (Config.set_RegionProjectIDMap m (Config.set_RPLock true (World.config w))) →
  World.clients w `prefix_of` World.clients w' →
  World.transports w' = World.transports w →
  factory_frame w w'.
Proof.
  intros Hl Hc Hp Ht. split; [|done]. rewrite Hc.
  destruct (World.config w). cbn in *. by subst.
Qed.

Lemma loadUserProjects_frame env client region w r w' :
  loadUserProjects env client region w = (r, w') → factory_frame w w'.
Proof.
  rewrite loadUserProjects_eval.
  destruct (client ≫= _) as [v|]; [|intros [= _ <-]; reflexivity]. cbv zeta.
  destruct (query_projects env w v region) as [all|e].
  - destruct (decide (length all = 0)); intros [= _ <-].
    + split; [by rewrite set_map_id|done].
    + split; [|done]. cbn. by destruct (World.config w).
  - intros [= _ <-]. split; [by rewrite set_map_id|done].
Qed.

Lemma newServiceClientByName_frame env client catalog region w r w' :
  newServiceClientByName env client catalog region w = (r, w') → factory_frame w w'.
Proof.
  rewrite newServiceClientByName_eval. cbv zeta.
  repeat case_decide; try (intros [= _ <-]; reflexivity).
  destruct (Config.RPLock (World.config w)) eqn:EL; [intros [= _ <-]; reflexivity|].
  rewrite resolve_eval. change (rpmap (locked w)) with (rpmap w).
  destruct (rpmap w !! region) as [pid|].
  - rewrite assemble_eval. change (World.clients (locked w)) with (World.clients w).
    destruct (client ≫= _); intros [= _ <-];
      (eapply (factory_frame_intro _ _ (rpmap w));
         [done|cbn; by destruct (World.config w)|by apply prefix_app_r|done]).
  - rewrite loadUserProjects_eval.
    change (World.clients (locked w)) with (World.clients w).
    destruct (client ≫= λ l, World.clients w !! l) as [v|].
    2:{ intros [= _ <-]. eapply (factory_frame_intro _ _ (rpmap w));
          [done|cbn; by destruct (World.config w)|done|done]. }
    cbv zeta. destruct (query_projects env (locked w) v region) as [all|e].
    + destruct (decide (length all = 0)).
      * intros [= _ <-]. eapply (factory_frame_intro _ _ (rpmap w));
          [done|cbn; by destruct (World.config w)|done|done].
      * rewrite assemble_eval.
        destruct (client ≫= λ l, (_ ++ [ProviderClient.zero]) !! l);
          cbv beta iota zeta; intros [= _ <-];
          (eapply (factory_frame_intro _ _ (store_projects all (rpmap w)));
             [done|cbn; by destruct (World.config w)|by apply prefix_app_r|done]).
    + intros [= _ <-]. eapply (factory_frame_intro _ _ (rpmap w));
        [done|cbn; by destruct (World.config w)|done|done].
Qed.

Lemma exec_frame env cat o w : factory_frame w (exec env cat o w).
Proof.
  destruct o as [srv region|client catalog region|client region]; cbn [exec].
  - rewrite NewServiceClient_unfold.
    destruct (newServiceClientByName env _ _ region w) as [r w'] eqn:E.
    by eapply newServiceClientByName_frame.
  - destruct (newServiceClientByName env _ _ region w) as [r w'] eqn:E.
    by eapply newServiceClientByName_frame.
  - destruct (loadUserProjects env client region w) as [r w'] eqn:E.
    by eapply loadUserProjects_frame.
Qed.

Lemma run_frame env cat ops w : factory_frame w (run env cat ops w).
Proof.
  revert w. induction ops as [|o ops IH]; intros w; [reflexivity|].
  cbn. etransitivity; [apply exec_frame | apply IH].
Qed.

(** A construction through a live base client, with the lock free, does not
    panic. *)
Lemma newServiceClientByName_no_panic env client catalog region w l :
  Config.RPLock (World.config w) = false →
  client = Some l → l < length (World.clients w) →
  ∀ p, fst (newServiceClientByName env client catalog region w) ≠ Panic p.
Proof.
  intros Hfree -> Hl p.
  destruct (lookup_lt_is_Some_2 _ _ Hl) as [v Hv].
  rewrite newServiceClientByName_eval. cbv zeta.
  repeat case_decide; try done. rewrite Hfree.
  rewrite resolve_eval. change (rpmap (locked w)) with (rpmap w).
  destruct (rpmap w !! region) as [pid|].
  - rewrite assemble_eval. change (World.clients (locked w)) with (World.clients w).
    cbn [mbind option_bind]. by rewrite (lookup_app_l_Some _ _ _ _ Hv).
  - rewrite loadUserProjects_eval.
    change (World.clients (locked w)) with (World.clients w).
    cbn [mbind option_bind]. rewrite Hv. cbv zeta.
    destruct (query_projects env (locked w) v region) as [all|e]; [|done].
    destruct (decide (length all = 0)); [done|].
    rewrite assemble_eval. cbn [mbind option_bind World.clients World.set_config
                                World.set_trace locked].
    by rewrite (lookup_app_l_Some _ _ _ _ Hv).
Qed.

(** What holds of a configured provider after any sequence of operations. *)
Lemma configured_invariant env cat d terraformVersion w0 w ops :
  configureProvider env d terraformVersion w0 = (Ret (), w) →
  let w2 := run env cat ops w in
  let l1 := length (World.clients w0) in
  Config.set_RegionProjectIDMap ∅ (erase_clients (World.config w2))
  = initial_config d terraformVersion
  ∧ Config.HwClient (World.config w2) = Some l1
  ∧ Config.DomainClient (World.config w2) = Some (S l1)
  ∧ S l1 < length (World.clients w2)
  ∧ Config.s3sess (World.config w2) = Config.s3sess (World.config w)
  ∧ World.transports w2 = World.transports w.
Proof.
  intros H. cbv zeta.
  apply configureProvider_Ret in H as (Hset & Hhw & Hdc & (v1 & v2 & Hcl & _) & _).
  destruct (run_frame env cat ops w) as (Hc & Hp & Ht).
  rewrite Hc.
  split; [|split; [done|split; [done|split; [|done]]]].
  - rewrite <- Hset. by destruct (World.config w).
  - apply prefix_length in Hp. rewrite Hcl, length_app in Hp. cbn in Hp. lia.
Qed.

Lemma configureProvider_settings_kept env d terraformVersion w0 :
  Config.set_RegionProjectIDMap ∅
    (erase_clients (World.config (snd (configureProvider env d terraformVersion w0))))
  = initial_config d terraformVersion.
Proof.
  rewrite configureProvider_eval.
  destruct (LoadAndValidate env _) as [r w1] eqn:HL.
  apply LoadAndValidate_settings_kept in HL. unfold settings_kept in HL.
  cbn [World.config World.set_config] in HL.
  change (erase_clients (initial_config d terraformVersion))
    with (initial_config d terraformVersion) in HL.
  assert (Config.set_RegionProjectIDMap ∅ (erase_clients (World.config w1))
          = initial_config d terraformVersion) as H1.
  { rewrite HL. reflexivity. }
  destruct r as [[]|e|p]; [|done..].
  unfold seed_default_region. cbv zeta.
  destruct (Config.HwClient (World.config w1)); [|done].
  destruct (World.clients w1 !! _); [|done].
  case_decide; [|done]. cbn [snd World.config World.set_config].
  rewrite <- H1. by destruct (World.config w1).
Qed.

(** X10.  Whatever its outcome, [configureProvider] leaves every setting as
    the configuration bag gave it: set-up assigns the two clients, the S3
    session and the map, and nothing else.  In particular the tenant name
    and the delegated project are the provider's region when the bag leaves
    them empty, [RegionClient] is off, the lock is free, and the Terraform
    version is the one handed in, which the [ConfigureFunc] of [Provider]
    replaces by "0.11+compatible" when the SDK reports none. *)
Theorem configureProvider_settings
    (env : Env.t) (d : ResourceData.t) (terraformVersion : string) (w0 : World.t) :
  let c := World.config (snd (configureProvider env d terraformVersion w0)) in
  Config.set_RegionProjectIDMap ∅ (erase_clients c) = initial_config d terraformVersion
  ∧ Config.TenantName c
    = (if decide (ResourceData.tenant_name d = "") then ResourceData.region d
       else ResourceData.tenant_name d)
  ∧ Config.DelegatedProject c
    = (if decide (ResourceData.delegated_project d = "") then ResourceData.region d
       else ResourceData.delegated_project d)
  ∧ Config.Region c = ResourceData.region d
  ∧ Config.RegionClient c = false
  ∧ Config.RPLock c = false
  ∧ ∀ version,
      Config.TerraformVersion
        (World.config (snd (Provider_ConfigureFunc env version d w0)))
      = (if decide (version = "") then "0.11+compatible" else version).
Proof.
  cbv zeta.
  pose proof (configureProvider_settings_kept env d terraformVersion w0) as H.
  split; [exact H|].
  split; [|split; [|split; [|split; [|split]]]].
  - apply (f_equal Config.TenantName) in H. cbn in H. rewrite H.
    by repeat case_decide.
  - apply (f_equal Config.DelegatedProject) in H. cbn in H. rewrite H.
    by repeat case_decide.
  - by apply (f_equal Config.Region) in H.
  - by apply (f_equal Config.RegionClient) in H.
  - by apply (f_equal Config.RPLock) in H.
  - intros version. unfold Provider_ConfigureFunc. cbv zeta.
    pose proof (configureProvider_settings_kept env d
                  (if decide (version = "") then "0.11+compatible" else version) w0) as Hv.
    by apply (f_equal Config.TerraformVersion) in Hv.
Qed.

(** X11.  After a successful [configureProvider] the two clients are
    distinct live objects that did not exist before, every older client is
    untouched, the map is empty when the project-scoped client carries no
    project ID and holds exactly the provider's region with that ID
    otherwise, the S3 session exists exactly when both keys are configured,
    and the bag was valid: a non-negative [max_retries] and a token, a key
    pair, or a password with a user. *)
Theorem configureProvider_success
    (env : Env.t) (d : ResourceData.t) (terraformVersion : string) (w0 w : World.t) :
  configureProvider env d terraformVersion w0 = (Ret (), w) →
  ∃ hw dc v,
    Config.HwClient (World.config w) = Some hw
    ∧ Config.DomainClient (World.config w) = Some dc
    ∧ hw ≠ dc
    ∧ World.clients w0 !! hw = None ∧ World.clients w0 !! dc = None
    ∧ World.clients w !! hw = Some v
    ∧ is_Some (World.clients w !! dc)
    ∧ (∀ l x, World.clients w0 !! l = Some x → World.clients w !! l = Some x)
    ∧ rpmap w = (if decide (ProviderClient.ProjectID v = "") then ∅
                 else {[ResourceData.region d := ProviderClient.ProjectID v]})
    ∧ (is_Some (Config.s3sess (World.config w))
       ↔ ResourceData.access_key d ≠ "" ∧ ResourceData.secret_key d ≠ "")
    ∧ (ResourceData.token d ≠ ""
       ∨ (ResourceData.access_key d ≠ "" ∧ ResourceData.secret_key d ≠ "")
       ∨ (ResourceData.password d ≠ ""
          ∧ (ResourceData.user_name d ≠ "" ∨ ResourceData.user_id d ≠ "")))
    ∧ (0 ≤ ResourceData.max_retries d)%Z.
Proof.
  intros H.
  pose proof (configureProvider_Ret _ _ _ _ _ H)
    as (_ & Hhw & Hdc & (v1 & v2 & Hcl & Hmap) & _ & Hkeys & Hno).
  exists (length (World.clients w0)), (S (length (World.clients w0))), v1.
  split; [exact Hhw|]. split; [exact Hdc|]. split; [lia|].
  split; [by apply lookup_ge_None|]. split; [apply lookup_ge_None; lia|].
  split; [rewrite Hcl; by apply list_lookup_middle|].
  split; [apply lookup_lt_is_Some_2; rewrite Hcl, length_app; cbn; lia|].
  split; [intros l x Hl; rewrite Hcl; by apply lookup_app_l_Some|].
  split; [rewrite Hmap; by repeat case_decide|].
  split.
  { split; [|exact Hkeys]. intros [sess Hs].
    destruct (decide (ResourceData.access_key d = "")) as [Ha|Ha].
    - rewrite Hno in Hs by (by left). discriminate Hs.
    - destruct (decide (ResourceData.secret_key d = "")) as [Hk|Hk]; [|done].
      rewrite Hno in Hs by (by right). discriminate Hs. }
  rewrite configureProvider_eval in H.
  destruct (LoadAndValidate env _) as [[[]|e|p] w1] eqn:HL; [|discriminate H..].
  destruct (LoadAndValidate_Ret_valid env _ _ HL) as [Hretries Hcred].
  split; [exact Hcred|exact Hretries].
Qed.

Lemma configureProvider_success_witness :
  configureProvider env_ok d_aksk "0.12.0" w_init = (Ret (), w_aksk)
  ∧ ∃ hw dc v,
      Config.HwClient (World.config w_aksk) = Some hw
      ∧ Config.DomainClient (World.config w_aksk) = Some dc
      ∧ hw ≠ dc
      ∧ World.clients w_aksk !! hw = Some v
      ∧ rpmap w_aksk = (if decide (ProviderClient.ProjectID v = "") then ∅
                        else {["cn-north-1" := ProviderClient.ProjectID v]}).
Proof.
  assert (configureProvider env_ok d_aksk "0.12.0" w_init = (Ret (), w_aksk)) as H
    by (vm_compute; reflexivity).
  split; [exact H|].
  destruct (configureProvider_success env_ok d_aksk "0.12.0" w_init w_aksk H)
    as (hw & dc & v & Hhw & Hdc & Hne & _ & _ & Hv & _ & _ & Hmap & _).
  exists hw, dc, v.
  split; [exact Hhw|]. split; [exact Hdc|]. split; [exact Hne|].
  split; [exact Hv|exact Hmap].
Defined.

(** X12.  On a provider built by [configureProvider], after any sequence of
    factory operations, a service client for a catalog entry of scope
    "global" always has the endpoint [https://{name}.{cloud}/], and any
    other entry [https://{name}.{region}.{cloud}/], with the cloud of the
    configuration bag: [RegionClient] is never switched on. *)
Theorem configured_provider_endpoints
    (env : Env.t) (allServiceCatalog : gmap string ServiceCatalog.t)
    (d : ResourceData.t) (terraformVersion : string) (w0 w : World.t)
    (ops : list Op) (srv region : string) (sc : ServiceClient.t) (w' : World.t) :
  configureProvider env d terraformVersion w0 = (Ret (), w) →
  NewServiceClient env allServiceCatalog srv region (run env allServiceCatalog ops w)
  = (Ret sc, w') →
  let entry := catalog_of allServiceCatalog srv in
  ServiceClient.Endpoint sc
  = (if decide (ServiceCatalog.Scope entry = "global")
     then "https://" +:+ ServiceCatalog.Name entry +:+ "." +:+ ResourceData.cloud d +:+ "/"
     else "https://" +:+ ServiceCatalog.Name entry +:+ "." +:+ region
          +:+ "." +:+ ResourceData.cloud d +:+ "/").
Proof.
  intros H Hcall. cbv zeta.
  apply (configured_invariant env allServiceCatalog _ _ _ _ ops) in H as (Hset & _).
  rewrite NewServiceClient_unfold in Hcall.
  apply newServiceClientByName_Ret in Hcall as (-> & _).
  cbn [ServiceClient.Endpoint]. unfold endpoint_of.
  pose proof (f_equal Config.RegionClient Hset) as Hrc.
  pose proof (f_equal Config.Cloud Hset) as Hcloud. cbn in Hrc, Hcloud.
  rewrite Hrc, Hcloud.
  destruct (decide (ServiceCatalog.Scope (catalog_of allServiceCatalog srv) = "global")).
  - by rewrite decide_True.
  - by rewrite decide_False by (by intros []).
Qed.

Lemma configured_provider_endpoints_witness :
  let w2 := run env_ok sample_catalog [OpNewServiceClient "vpc" "cn-north-1"] w_password in
  ∃ sc w', NewServiceClient env_ok sample_catalog "dns" "cn-north-1" w2 = (Ret sc, w')
           ∧ ServiceClient.Endpoint sc = "https://dns.myhuaweicloud.com/".
Proof.
  cbv zeta.
  assert (configureProvider env_ok d_password "0.12.0" w_init = (Ret (), w_password)) as Hc
    by (vm_compute; reflexivity).
  destruct (NewServiceClient env_ok sample_catalog "dns" "cn-north-1"
              (run env_ok sample_catalog [OpNewServiceClient "vpc" "cn-north-1"]
                 w_password)) as [r w'] eqn:E.
  assert (∃ sc, r = Ret sc) as [sc ->].
  { pose proof E as E'. vm_compute in E'. injection E' as <- _. eexists. reflexivity. }
  exists sc, w'. split; [reflexivity|].
  pose proof (configured_provider_endpoints env_ok sample_catalog d_password "0.12.0"
                w_init w_password [OpNewServiceClient "vpc" "cn-north-1"] "dns"
                "cn-north-1" sc w' Hc E) as Hend.
  vm_compute in Hend. exact Hend.
Defined.

(** X13.  Set-up never panics: [configureProvider], [LoadAndValidate],
    [genClient], [generateTLSConfig] and [newS3Session] end with a result or
    an error in every environment.  In particular [configureProvider] reads
    [HwClient.ProjectID] only through a live pointer. *)
Theorem setup_never_panics
    (env : Env.t) (d : ResourceData.t) (terraformVersion : string) (w0 w : World.t)
    (ao : AuthOptionsProvider) (c : Config.t) (osDebug : bool) (p : fault) :
  fst (configureProvider env d terraformVersion w0) ≠ Panic p
  ∧ fst (LoadAndValidate env w) ≠ Panic p
  ∧ fst (genClient env ao w) ≠ Panic p
  ∧ fst (generateTLSConfig env c w) ≠ Panic p
  ∧ fst (newS3Session env osDebug w) ≠ Panic p.
Proof.
  split; [|split; [|split; [|split]]].
  - rewrite configureProvider_eval.
    destruct (LoadAndValidate env _) as [[[]|e|p'] w1] eqn:HL; [|done|].
    + apply LoadAndValidate_Ret in HL as (_ & _ & _ & _ & Hhw & _ & (v1 & v2 & Hcl) & _).
      unfold seed_default_region. cbv zeta. rewrite Hhw, Hcl.
      cbn [World.clients World.set_config].
      rewrite (list_lookup_middle _ _ _ (length (World.clients w0))) by done.
      by case_decide.
    + by apply LoadAndValidate_no_panic in HL.
  - destruct (LoadAndValidate env w) as [r w1] eqn:E. cbn. intros ->.
    by apply LoadAndValidate_no_panic in E.
  - destruct (genClient env ao w) as [r w1] eqn:E. cbn. intros ->.
    by apply genClient_no_panic in E.
  - destruct (generateTLSConfig env c w) as [r w1] eqn:E. cbn. intros ->.
    by apply generateTLSConfig_no_panic in E.
  - destruct (newS3Session env osDebug w) as [r w1] eqn:E. cbn. intros ->.
    by apply newS3Session_no_panic in E.
Qed.

(** X14.  On a provider built by a successful [configureProvider], after any
    sequence of factory operations (even ones handed a nil client), the lock
    is free, [HwClient] and [DomainClient] are still two distinct live
    clients, and [NewServiceClient] does not panic, for any service and
    region: it dereferences no nil pointer and never blocks on the lock. *)
Theorem configured_factory_never_panics
    (env : Env.t) (allServiceCatalog : gmap string ServiceCatalog.t)
    (d : ResourceData.t) (terraformVersion : string) (w0 w : World.t)
    (ops : list Op) (srv region : string) (p : fault) :
  configureProvider env d terraformVersion w0 = (Ret (), w) →
  let w2 := run env allServiceCatalog ops w in
  Config.RPLock (World.config w2) = false
  ∧ (∃ hw dc, Config.HwClient (World.config w2) = Some hw
              ∧ Config.DomainClient (World.config w2) = Some dc
              ∧ hw ≠ dc
              ∧ is_Some (World.clients w2 !! hw) ∧ is_Some (World.clients w2 !! dc))
  ∧ fst (NewServiceClient env allServiceCatalog srv region w2) ≠ Panic p.
Proof.
  intros H. cbv zeta.
  apply (configured_invariant env allServiceCatalog _ _ _ _ ops) in H
    as (Hset & Hhw & Hdc & Hlen & _).
  pose proof (f_equal Config.RPLock Hset) as Hfree. cbn in Hfree.
  split; [exact Hfree|]. split.
  - exists (length (World.clients w0)), (S (length (World.clients w0))).
    split; [done|]. split; [done|]. split; [lia|].
    split; apply lookup_lt_is_Some_2; lia.
  - rewrite NewServiceClient_unfold.
    destruct (ServiceCatalog.Admin (catalog_of allServiceCatalog srv)).
    + rewrite Hdc. by eapply newServiceClientByName_no_panic.
    + rewrite Hhw. eapply newServiceClientByName_no_panic; [done..|lia].
Qed.

Lemma configured_factory_never_panics_witness :
  let w2 := run env_ok sample_catalog
              [OpNewServiceClientByName None entry_kms "cn-north-1";
               OpNewServiceClient "vpc" "cn-north-4"] w_aksk in
  Config.RPLock (World.config w2) = false
  ∧ fst (NewServiceClient env_ok sample_catalog "iam" "cn-north-4" w2)
    ≠ Panic NilDereference.
Proof.
  cbv zeta.
  assert (configureProvider env_ok d_aksk "0.12.0" w_init = (Ret (), w_aksk)) as Hc
    by (vm_compute; reflexivity).
  destruct (configured_factory_never_panics env_ok sample_catalog d_aksk "0.12.0"
              w_init w_aksk
              [OpNewServiceClientByName None entry_kms "cn-north-1";
               OpNewServiceClient "vpc" "cn-north-4"]
              "iam" "cn-north-4" NilDereference Hc) as (Hfree & _ & Hnp).
  split; [exact Hfree|exact Hnp].
Defined.

(** X15.  On a provider built by a successful [configureProvider] whose map
    was seeded with the provider's region, [NewServiceClient] for that
    region and any catalog entry with a name and a version succeeds, after
    any sequence of factory operations, and sends nothing. *)
Theorem configured_default_region_succeeds
    (env : Env.t) (allServiceCatalog : gmap string ServiceCatalog.t)
    (d : ResourceData.t) (terraformVersion : string) (w0 w : World.t)
    (ops : list Op) (srv : string) :
  configureProvider env d terraformVersion w0 = (Ret (), w) →
  is_Some (rpmap w !! ResourceData.region d) →
  ServiceCatalog.Name (catalog_of allServiceCatalog srv) ≠ "" →
  ServiceCatalog.Version (catalog_of allServiceCatalog srv) ≠ "" →
  let w2 := run env allServiceCatalog ops w in
  ∃ sc w',
    NewServiceClient env allServiceCatalog srv (ResourceData.region d) w2 = (Ret sc, w')
    ∧ World.trace w' = World.trace w2.
Proof.
  intros H Hseed Hname Hversion. cbv zeta.
  apply (configured_invariant env allServiceCatalog _ _ _ _ ops) in H
    as (Hset & Hhw & Hdc & Hlen & _).
  pose proof (f_equal Config.RPLock Hset) as Hfree.
  pose proof (f_equal Config.Region Hset) as Hregion. cbn in Hfree, Hregion.
  assert (is_Some (rpmap (run env allServiceCatalog ops w) !! ResourceData.region d))
    as [pid Hpid].
  { apply elem_of_dom. apply (run_keys_kept env allServiceCatalog ops w).
    by apply elem_of_dom. }
  set (w2 := run env allServiceCatalog ops w) in *.
  assert (∃ l, (if ServiceCatalog.Admin (catalog_of allServiceCatalog srv)
                then Config.DomainClient (World.config w2)
                else Config.HwClient (World.config w2)) = Some l
               ∧ l < length (World.clients w2)) as (l & Hl & Hlive).
  { destruct (ServiceCatalog.Admin _); eexists; (split; [done|lia]). }
  destruct (lookup_lt_is_Some_2 _ _ Hlive) as [v Hv].
  rewrite NewServiceClient_unfold, Hl, newServiceClientByName_eval. cbv zeta.
  rewrite decide_False by (by intros []).
  rewrite decide_False by (by intros [? _]).
  rewrite Hfree, resolve_eval. change (rpmap (locked w2)) with (rpmap w2).
  rewrite Hpid, assemble_eval. change (World.clients (locked w2)) with (World.clients w2).
  cbn [mbind option_bind]. rewrite (lookup_app_l_Some _ _ _ _ Hv).
  eexists _, _. split; [reflexivity|done].
Qed.

Lemma configured_default_region_succeeds_witness :
  let w2 := run env_ok sample_catalog [OpNewServiceClient "vpc" "cn-north-4"] w_aksk in
  ∃ sc w',
    NewServiceClient env_ok sample_catalog "kms" "cn-north-1" w2 = (Ret sc, w')
    ∧ World.trace w' = World.trace w2.
Proof.
  assert (configureProvider env_ok d_aksk "0.12.0" w_init = (Ret (), w_aksk)) as Hc
    by (vm_compute; reflexivity).
  apply (configured_default_region_succeeds env_ok sample_catalog d_aksk "0.12.0"
           w_init w_aksk [OpNewServiceClient "vpc" "cn-north-4"] "kms" Hc).
  - vm_compute. eexists. reflexivity.
  - vm_compute. discriminate.
  - vm_compute. discriminate.
Defined.

(** ** The base client of a construction *)

(** X16.  [newServiceClientByName] on a nil base client, once past the two
    guards and with the lock free, panics with a nil dereference.  The
    deferred unlock has run: the configuration, the lock included, is as
    before, and no request was sent.  When the region is not in the map the
    panic comes from [loadUserProjects] before anything is allocated, and
    the world is untouched. *)
Theorem newServiceClientByName_nil_client
    (env : Env.t) (catalog : ServiceCatalog.t) (region : string) (w : World.t) :
  let c := World.config w in
  let r := newServiceClientByName env None catalog region w in
  ServiceCatalog.Name catalog ≠ "" → ServiceCatalog.Version catalog ≠ "" →
  region = Config.Region c ∨ (Config.AccessKey c ≠ "" ∧ Config.SecretKey c ≠ "") →
  Config.RPLock c = false →
  fst r = Panic NilDereference
  ∧ World.config (snd r) = c
  ∧ World.trace (snd r) = World.trace w
  ∧ World.transports (snd r) = World.transports w
  ∧ (rpmap w !! region = None → snd r = w).
Proof.
  intros c r Hname Hversion Hguard Hfree. subst r.
  rewrite newServiceClientByName_eval. cbv zeta. fold c.
  rewrite decide_False by (by intros []).
  rewrite decide_False
    by (intros [Hne Hk]; destruct Hguard as [|[]]; [done|by destruct Hk]).
  rewrite Hfree, resolve_eval. change (rpmap (locked w)) with (rpmap w).
  assert (∀ w1, World.config w1 = World.config (locked w) →
            World.config (RPLock_Unlock w1) = c) as Hunlock.
  { intros w1 H1. subst c. unfold RPLock_Unlock. cbn. rewrite H1.
    destruct w as [c0 ? ? ?]. destruct c0. cbn in *. by subst. }
  destruct (rpmap w !! region) as [pid|] eqn:Em.
  - rewrite assemble_eval. cbn [mbind option_bind fst snd].
    split; [done|]. split; [by apply Hunlock|].
    split; [reflexivity|]. split; [reflexivity|]. intros Hn. subst c. congruence.
  - rewrite loadUserProjects_eval. cbn [mbind option_bind fst snd].
    split; [done|]. split; [by apply Hunlock|]. split; [done|]. split; [done|].
    intros _. subst c. destruct w as [c0 ? ? ?]. destruct c0. cbn in *. by subst.
Qed.

Lemma newServiceClientByName_nil_client_witness :
  Config.HwClient (World.config (w_of d_password)) = None
  ∧ fst (newServiceClientByName env_ok None entry_vpc "cn-north-1" (w_of d_password))
    = Panic NilDereference
  ∧ snd (newServiceClientByName env_ok None entry_vpc "cn-north-1" (w_of d_password))
    = w_of d_password.
Proof.
  split; [reflexivity|].
  destruct (newServiceClientByName_nil_client env_ok entry_vpc "cn-north-1"
              (w_of d_password)) as (Hp & _ & _ & _ & Hsame).
  - vm_compute. discriminate.
  - vm_compute. discriminate.
  - left. vm_compute. reflexivity.
  - vm_compute. reflexivity.
  - split; [exact Hp|]. apply Hsame. vm_compute. reflexivity.
Defined.

(** X17.  [NewServiceClient] builds the clone from [DomainClient] when the
    catalog entry is flagged [Admin] and from [HwClient] otherwise: with
    that base a live client, the returned service client points to a new
    object holding the base's fields with the three overrides, the base is
    unchanged, and the project listing, when one is needed, is sent through
    that base with its [DomainID]. *)
Theorem NewServiceClient_base_client
    (env : Env.t) (allServiceCatalog : gmap string ServiceCatalog.t)
    (srv region : string) (w : World.t) (sc : ServiceClient.t) (w' : World.t)
    (base : loc) (v : ProviderClient.t) :
  NewServiceClient env allServiceCatalog srv region w = (Ret sc, w') →
  (if ServiceCatalog.Admin (catalog_of allServiceCatalog srv)
   then Config.DomainClient (World.config w)
   else Config.HwClient (World.config w)) = Some base →
  World.clients w !! base = Some v →
  let clone := length (World.clients w) in
  let projectID := default "" (rpmap w' !! region) in
  ServiceClient.ProviderClient sc = Some clone
  ∧ World.clients w' !! clone = Some (overridden projectID region v)
  ∧ World.clients w' !! base = Some v
  ∧ (rpmap w !! region = None →
     World.trace w'
     = World.trace w
       ++ [CallListProjects (Some base)
             (Config.IdentityEndpoint (World.config w) +:+ "/")
             (ListOpts.mk (ProviderClient.DomainID v) region)]).
Proof.
  intros H Hbase Hv. cbv zeta. rewrite NewServiceClient_unfold, Hbase in H.
  pose proof (newServiceClientByName_Ret _ _ _ _ _ _ _ H)
    as (-> & (v' & Hv' & Hheap) & _).
  cbn [mbind option_bind] in Hv'. rewrite (lookup_app_l_Some _ _ _ _ Hv) in Hv'.
  injection Hv' as <-.
  split; [done|]. split; [|split].
  - rewrite Hheap. by apply list_lookup_middle.
  - rewrite Hheap. by apply lookup_app_l_Some.
  - intros Hnone.
    apply newServiceClientByName_cases in H as [(_ & _ & Hs)|(_ & v2 & Hv2 & Ht & _)].
    + destruct (Hs _ eq_refl) as [x Hx]. congruence.
    + cbn [mbind option_bind] in Hv2. rewrite Hv in Hv2. injection Hv2 as <-. done.
Qed.

Lemma NewServiceClient_base_client_witness :
  NewServiceClient env_ok sample_catalog "iam" "cn-north-1" w_aksk = (Ret sc_iam, w_iam)
  ∧ Config.DomainClient (World.config w_aksk) = Some 1
  ∧ ServiceClient.ProviderClient sc_iam = Some 2
  ∧ World.clients w_iam !! 1 = World.clients w_aksk !! 1.
Proof.
  assert (NewServiceClient env_ok sample_catalog "iam" "cn-north-1" w_aksk
          = (Ret sc_iam, w_iam)) as H by (vm_compute; reflexivity).
  split; [exact H|]. split; [reflexivity|].
  destruct (World.clients w_aksk !! 1) as [v|] eqn:Hv; [|vm_compute in Hv; discriminate].
  destruct (NewServiceClient_base_client env_ok sample_catalog "iam" "cn-north-1"
              w_aksk sc_iam w_iam 1 v H) as (Hsc & _ & Hbase & _).
  - vm_compute. reflexivity.
  - exact Hv.
  - split; [exact Hsc|exact Hbase].
Defined.

(** ** loadUserProjects *)

Lemma store_projects_dom all (m : gmap string string) :
  dom (store_projects all m) = dom m ∪ list_to_set (Project.Name <$> all).
Proof.
  revert m. induction all as [|a all IH]; intros m.
  - cbn. by rewrite (right_id_L ∅ (∪)).
  - rewrite store_projects_cons, IH, dom_insert_L. cbn [fmap list_fmap list_to_set].
    rewrite (comm_L (∪) {[Project.Name a]} (dom m)).
    by rewrite <- (assoc_L (∪)).
Qed.

Lemma store_projects_idemp all (m : gmap string string) :
  store_projects all (store_projects all m) = store_projects all m.
Proof.
  apply map_eq. intros k. rewrite (store_projects_lookup all (store_projects all m)).
  rewrite (store_projects_lookup all m).
  by destruct (list.last (filter _ all)).
Qed.

(** X18.  A successful [loadUserProjects] has listed at least one project
    and stored them all: the keys of the map are the old keys and the names
    of the listed projects; a listed name maps to the ID of a listed project
    of that name; every other key keeps its value; storing the same listing
    again changes nothing; and nothing of the configuration but the map has
    changed. *)
Theorem loadUserProjects_success
    (env : Env.t) (client : option loc) (region : string) (w w' : World.t) :
  loadUserProjects env client region w = (Ret (), w') →
  ∃ v all,
    client ≫= (λ l, World.clients w !! l) = Some v
    ∧ query_projects env w v region = Ok all
    ∧ all ≠ []
    ∧ dom (rpmap w') = dom (rpmap w) ∪ list_to_set (Project.Name <$> all)
    ∧ (∀ p, p ∈ all →
         ∃ q, q ∈ all ∧ Project.Name q = Project.Name p
              ∧ rpmap w' !! Project.Name p = Some (Project.ID q))
    ∧ (∀ k, (∀ p, p ∈ all → Project.Name p ≠ k) → rpmap w' !! k = rpmap w !! k)
    ∧ store_projects all (rpmap w') = rpmap w'
    ∧ factory_frame w w'.
Proof.
  rewrite loadUserProjects_eval.
  destruct (client ≫= _) as [v|]; [|done]. cbv zeta.
  destruct (query_projects env w v region) as [all|e] eqn:Eq; [|done].
  destruct (decide (length all = 0)) as [|Hlen]; [done|].
  intros [= <-]. exists v, all.
  cbn [World.config World.set_config Config.RegionProjectIDMap
       Config.set_RegionProjectIDMap].
  split; [done|]. split; [done|]. split; [by destruct all|].
  split; [apply store_projects_dom|]. split; [|split; [|split]].
  - intros p Hp.
    destruct (store_projects_named all (rpmap w) (Project.Name p) p Hp eq_refl)
      as (q & _ & Hq & Hname & Hlookup). eauto.
  - intros k Hk. by apply store_projects_lookup_other.
  - apply store_projects_idemp.
  - split; [|done]. cbn. by destruct (World.config w).
Qed.

Lemma loadUserProjects_success_witness :
  loadUserProjects env_extra_project (Some 0) "cn-north-4" w_aksk = (Ret (), w_listed)
  ∧ factory_frame w_aksk w_listed
  ∧ ∃ all, dom (rpmap w_listed)
           = dom (rpmap w_aksk) ∪ list_to_set (Project.Name <$> all).
Proof.
  assert (loadUserProjects env_extra_project (Some 0) "cn-north-4" w_aksk
          = (Ret (), w_listed)) as H by (vm_compute; reflexivity).
  split; [exact H|].
  destruct (loadUserProjects_success env_extra_project _ _ _ _ H)
    as (v & all & _ & _ & _ & Hdom & _ & _ & _ & Hf).
  split; [exact Hf|]. exists all. exact Hdom.
Defined.

(** ** Sequences of constructions *)

(** X19.  Two successive successful constructions for the same service and
    region return two different clones, at successive addresses, with the
    same endpoint.  When the region is in the map after the first, the
    second sends nothing, returns the same resource base, and its clone
    holds the same fields as the first. *)
Theorem repeated_constructions
    (env : Env.t) (allServiceCatalog : gmap string ServiceCatalog.t)
    (srv region : string) (w : World.t)
    (sc1 : ServiceClient.t) (w1 : World.t) (sc2 : ServiceClient.t) (w2 : World.t) :
  NewServiceClient env allServiceCatalog srv region w = (Ret sc1, w1) →
  NewServiceClient env allServiceCatalog srv region w1 = (Ret sc2, w2) →
  ServiceClient.ProviderClient sc1 = Some (length (World.clients w))
  ∧ ServiceClient.ProviderClient sc2 = Some (S (length (World.clients w)))
  ∧ ServiceClient.Endpoint sc2 = ServiceClient.Endpoint sc1
  ∧ (is_Some (rpmap w1 !! region) →
     ServiceClient.ResourceBase sc2 = ServiceClient.ResourceBase sc1
     ∧ World.trace w2 = World.trace w1
     ∧ World.clients w2 !! S (length (World.clients w))
       = World.clients w2 !! length (World.clients w)).
Proof.
  intros H1 H2. rewrite NewServiceClient_unfold in H1, H2.
  pose proof (newServiceClientByName_frame _ _ _ _ _ _ _ H1) as (Hc1 & _ & _).
  pose proof (newServiceClientByName_Ret _ _ _ _ _ _ _ H1)
    as (-> & (v1 & Hv1 & Hheap1) & _).
  pose proof (newServiceClientByName_Ret _ _ _ _ _ _ _ H2)
    as (-> & (v2 & Hv2 & Hheap2) & _).
  assert (length (World.clients w1) = S (length (World.clients w))) as Hlen.
  { rewrite Hheap1, length_app. cbn. lia. }
  rewrite Hlen. cbn [ServiceClient.ProviderClient ServiceClient.Endpoint
                     ServiceClient.ResourceBase].
  split; [done|]. split; [done|]. split.
  { unfold endpoint_of. rewrite Hc1. done. }
  intros [pid Hpid].
  destruct (newServiceClientByName_hit _ _ _ _ _ _ _ _ Hpid H2)
    as [Ht Hm].
  rewrite Hm, Hpid in Hheap2 |- *. cbn [default from_option id] in Hheap2 |- *.
  rewrite Hpid in Hheap1. cbn [default from_option id] in Hheap1.
  split; [|split; [done|]].
  { unfold resource_base_of, endpoint_of. rewrite Hc1. done. }
  (* the second clone copies the same base, or the first clone itself *)
  assert (overridden pid region v2 = overridden pid region v1) as Hsame.
  { rewrite Hc1 in Hv2.
    cbn [Config.HwClient Config.DomainClient Config.set_RegionProjectIDMap] in Hv2.
    destruct (if ServiceCatalog.Admin (catalog_of allServiceCatalog srv)
              then Config.DomainClient (World.config w)
              else Config.HwClient (World.config w)) as [base|]; [|done].
    cbn [mbind option_bind] in Hv1, Hv2.
    rewrite Hheap1 in Hv2.
    destruct (decide (base < length (World.clients w))) as [Hlt|Hge].
    - rewrite lookup_app_l in Hv1 by done.
      rewrite <- app_assoc, lookup_app_l in Hv2 by done. congruence.
    - assert (base = length (World.clients w)) as ->.
      { apply lookup_lt_Some in Hv1. rewrite length_app in Hv1. cbn in Hv1. lia. }
      rewrite list_lookup_middle in Hv1 by done. injection Hv1 as <-.
      rewrite <- app_assoc in Hv2. cbn [app] in Hv2.
      rewrite list_lookup_middle in Hv2 by done.
      injection Hv2 as <-. reflexivity. }
  rewrite Hheap2, Hheap1, Hsame.
  rewrite (list_lookup_middle _ [] _ (S (length (World.clients w))))
    by (rewrite length_app; cbn; lia).
  rewrite <- app_assoc. cbn [app]. by rewrite list_lookup_middle.
Qed.

Lemma repeated_constructions_witness :
  NewServiceClient env_ok sample_catalog "vpc" "cn-north-4" w_aksk = (Ret sc_vpc, w_vpc)
  ∧ NewServiceClient env_ok sample_catalog "vpc" "cn-north-4" w_vpc
    = (Ret sc_vpc2, w_vpc2)
  ∧ ServiceClient.ProviderClient sc_vpc = Some 2
  ∧ ServiceClient.ProviderClient sc_vpc2 = Some 3
  ∧ ServiceClient.ResourceBase sc_vpc2 = ServiceClient.ResourceBase sc_vpc
  ∧ World.clients w_vpc2 !! 3 = World.clients w_vpc2 !! 2.
Proof.
  assert (NewServiceClient env_ok sample_catalog "vpc" "cn-north-4" w_aksk
          = (Ret sc_vpc, w_vpc)) as H1 by (vm_compute; reflexivity).
  assert (NewServiceClient env_ok sample_catalog "vpc" "cn-north-4" w_vpc
          = (Ret sc_vpc2, w_vpc2)) as H2 by (vm_compute; reflexivity).
  split; [exact H1|]. split; [exact H2|].
  destruct (repeated_constructions env_ok sample_catalog _ _ _ _ _ _ _ H1 H2)
    as (Hp1 & Hp2 & _ & Hrest).
  split; [exact Hp1|]. split; [exact Hp2|].
  destruct Hrest as (Hrb & _ & Hcl); [vm_compute; eexists; reflexivity|].
  split; [exact Hrb|exact Hcl].
Defined.

(** ** What the factory never does *)

Lemma newServiceClientByName_allocates env client catalog region w r w' :
  newServiceClientByName env client catalog region w = (r, w') →
  World.clients w' = World.clients w
  ∨ ∃ v, World.clients w' = World.clients w ++ [v].
Proof.
  rewrite newServiceClientByName_eval. cbv zeta.
  repeat case_decide; try (intros [= _ <-]; by left).
  destruct (Config.RPLock (World.config w)); [intros [= _ <-]; by left|].
  rewrite resolve_eval. change (rpmap (locked w)) with (rpmap w).
  destruct (rpmap w !! region) as [pid|].
  - rewrite assemble_eval. change (World.clients (locked w)) with (World.clients w).
    destruct (client ≫= _); intros [= _ <-]; right; eauto.
  - rewrite loadUserProjects_eval.
    change (World.clients (locked w)) with (World.clients w).
    destruct (client ≫= λ l, World.clients w !! l) as [v|];
      [|intros [= _ <-]; by left].
    cbv zeta. destruct (query_projects env (locked w) v region) as [all|e];
      [|intros [= _ <-]; by left].
    destruct (decide (length all = 0)); [intros [= _ <-]; by left|].
    rewrite assemble_eval.
    destruct (client ≫= λ l, (_ ++ [ProviderClient.zero]) !! l);
      cbv beta iota zeta; intros [= _ <-]; right; eauto.
Qed.

Lemma exec_allocates env cat o w :
  (length (World.clients (exec env cat o w)) ≤ S (length (World.clients w)))%nat.
Proof.
  assert (∀ client catalog region,
    (length (World.clients (newServiceClientByName env client catalog region w).2)
     ≤ S (length (World.clients w)))%nat) as Hnsc.
  { intros client catalog region.
    destruct (newServiceClientByName env client catalog region w) as [r w'] eqn:E.
    cbn [snd]. apply newServiceClientByName_allocates in E as [->|[v ->]];
      [lia|rewrite length_app; cbn; lia]. }
  destruct o as [srv region|client catalog region|client region]; cbn [exec].
  - rewrite NewServiceClient_unfold. apply Hnsc.
  - apply Hnsc.
  - destruct (loadUserProjects env client region w) as [r w'] eqn:E.
    rewrite loadUserProjects_eval in E.
    destruct (client ≫= _) as [v|]; [|injection E as _ <-; cbn; lia].
    cbv zeta in E. destruct (query_projects env w v region) as [all|e];
      [|injection E as _ <-; cbn; lia].
    destruct (decide (length all = 0)); injection E as _ <-; cbn; lia.
Qed.

Lemma exec_trace env cat o w :
  ∃ events, World.trace (exec env cat o w) = World.trace w ++ events
    ∧ Forall (λ e, is_query e = true) events ∧ (length events ≤ 1)%nat.
Proof.
  assert (∀ client catalog region,
    ∃ events, World.trace (newServiceClientByName env client catalog region w).2
              = World.trace w ++ events
      ∧ Forall (λ e, is_query e = true) events ∧ (length events ≤ 1)%nat) as Hnsc.
  { intros client catalog region.
    destruct (newServiceClientByName env client catalog region w) as [r w'] eqn:E.
    apply newServiceClientByName_cases in E as [(Ht & _)|(_ & v & _ & Ht & _)]; cbn [snd].
    - exists []. rewrite app_nil_r. split; [done|]. split; [constructor|cbn; lia].
    - eexists. split; [exact Ht|]. split; [by repeat constructor|cbn; lia]. }
  destruct o as [srv region|client catalog region|client region]; cbn [exec].
  - rewrite NewServiceClient_unfold. apply Hnsc.
  - apply Hnsc.
  - rewrite loadUserProjects_eval.
    destruct (client ≫= _) as [v|].
    2:{ exists []. rewrite app_nil_r. split; [done|]. split; [constructor|cbn; lia]. }
    cbv zeta. exists [query_event w client v region].
    split; [|split; [by repeat constructor|cbn; lia]].
    destruct (query_projects env w v region) as [all|e]; [|done].
    by destruct (decide (length all = 0)).
Qed.

(** X20.  Over any sequence of factory operations the only requests sent are
    project listings, at most one per operation: the factory never
    authenticates again.  It builds no transport, leaves [HwClient],
    [DomainClient] and the S3 session as they are, changes no client that
    exists, and allocates at most one client per operation. *)
Theorem factory_only_lists_projects
    (env : Env.t) (allServiceCatalog : gmap string ServiceCatalog.t)
    (ops : list Op) (w : World.t) :
  let w' := run env allServiceCatalog ops w in
  (∃ events, World.trace w' = World.trace w ++ events
     ∧ Forall (λ e, is_query e = true) events
     ∧ (length events ≤ length ops)%nat)
  ∧ World.transports w' = World.transports w
  ∧ Config.HwClient (World.config w') = Config.HwClient (World.config w)
  ∧ Config.DomainClient (World.config w') = Config.DomainClient (World.config w)
  ∧ Config.s3sess (World.config w') = Config.s3sess (World.config w)
  ∧ (∀ l v, World.clients w !! l = Some v → World.clients w' !! l = Some v)
  ∧ (length (World.clients w') ≤ length (World.clients w) + length ops)%nat.
Proof.
  cbv zeta. split; [|split; [|split; [|split; [|split; [|split]]]]].
  7:{ revert w. induction ops as [|o ops IH]; intros w; [cbn; lia|].
      cbn [run foldl]. fold (run env allServiceCatalog ops (exec env allServiceCatalog o w)).
      pose proof (IH (exec env allServiceCatalog o w)) as H1.
      pose proof (exec_allocates env allServiceCatalog o w) as H2. cbn. lia. }
  - revert w. induction ops as [|o ops IH]; intros w.
    + exists []. rewrite app_nil_r. split; [done|]. split; [constructor|done].
    + cbn [run foldl]. fold (run env allServiceCatalog ops (exec env allServiceCatalog o w)).
      destruct (exec_trace env allServiceCatalog o w) as (e1 & Ht1 & Hq1 & Hl1).
      destruct (IH (exec env allServiceCatalog o w)) as (e2 & Ht2 & Hq2 & Hl2).
      exists (e1 ++ e2). split; [by rewrite Ht2, Ht1, app_assoc|].
      split; [by apply Forall_app|]. rewrite length_app. cbn. lia.
  - by destruct (run_frame env allServiceCatalog ops w) as (Hc & Hp & Ht).
  - destruct (run_frame env allServiceCatalog ops w) as (Hc & Hp & Ht). by rewrite Hc.
  - destruct (run_frame env allServiceCatalog ops w) as (Hc & Hp & Ht). by rewrite Hc.
  - destruct (run_frame env allServiceCatalog ops w) as (Hc & Hp & Ht). by rewrite Hc.
  - destruct (run_frame env allServiceCatalog ops w) as (Hc & Hp & Ht).
    intros l v Hl. by eapply prefix_lookup_Some.
Qed.

(** X21.  A call that one of the two guards rejects (the entry has no name
    or no version; or the region is not the provider's and a key is
    missing) returns the guard's error and leaves the world untouched, and
    so does the same call after any sequence of factory operations and
    with any base client: the factory never changes what the guards
    read. *)
Theorem guard_errors_are_permanent
    (env : Env.t) (allServiceCatalog : gmap string ServiceCatalog.t)
    (client : option loc) (catalog : ServiceCatalog.t) (region : string)
    (w : World.t) :
  let c := World.config w in
  (ServiceCatalog.Name catalog = "" ∨ ServiceCatalog.Version catalog = "")
  ∨ (region ≠ Config.Region c ∧ (Config.AccessKey c = "" ∨ Config.SecretKey c = "")) →
  ∃ e,
    (e = "must specify the service name and api version" ∨ e = region_mismatch)
    ∧ newServiceClientByName env client catalog region w = (Fail e, w)
    ∧ ∀ (ops : list Op) (client' : option loc),
        let w2 := run env allServiceCatalog ops w in
        newServiceClientByName env client' catalog region w2 = (Fail e, w2).
Proof.
  intros c Hguard.
  assert (∀ ops, Config.Region (World.config (run env allServiceCatalog ops w))
                 = Config.Region c
               ∧ Config.AccessKey (World.config (run env allServiceCatalog ops w))
                 = Config.AccessKey c
               ∧ Config.SecretKey (World.config (run env allServiceCatalog ops w))
                 = Config.SecretKey c) as Hkept.
  { intros ops. destruct (run_frame env allServiceCatalog ops w) as (Hc & _ & _).
    by rewrite Hc. }
  destruct (decide (ServiceCatalog.Name catalog = "" ∨ ServiceCatalog.Version catalog = ""))
    as [Hn|Hn].
  - exists "must specify the service name and api version".
    split; [by left|]. split.
    + rewrite newServiceClientByName_eval. cbv zeta. by rewrite decide_True.
    + intros ops client'. cbv zeta.
      rewrite newServiceClientByName_eval. cbv zeta. by rewrite decide_True.
  - destruct Hguard as [?|Hr]; [done|]. exists region_mismatch.
    split; [by right|]. split.
    + rewrite newServiceClientByName_eval. cbv zeta. rewrite decide_False by done.
      by rewrite decide_True.
    + intros ops client'. cbv zeta. destruct (Hkept ops) as (Hreg & Hak & Hsk).
      rewrite newServiceClientByName_eval. cbv zeta. rewrite decide_False by done.
      rewrite Hreg, Hak, Hsk. by rewrite decide_True.
Qed.

Lemma guard_errors_are_permanent_witness :
  let w2 := run env_ok sample_catalog [OpNewServiceClient "vpc" "cn-north-1"] w_password in
  newServiceClientByName env_ok (Some 0) entry_kms "cn-north-4" w_password
  = (Fail region_mismatch, w_password)
  ∧ newServiceClientByName env_ok (Some 1) entry_kms "cn-north-4" w2
    = (Fail region_mismatch, w2).
Proof.
  cbv zeta.
  assert (newServiceClientByName env_ok (Some 0) entry_kms "cn-north-4" w_password
          = (Fail region_mismatch, w_password)) as H by (vm_compute; reflexivity).
  split; [exact H|].
  destruct (guard_errors_are_permanent env_ok sample_catalog (Some 0) entry_kms
              "cn-north-4" w_password) as (e & _ & H0 & Hlater).
  - right. split; [vm_compute; discriminate|left; vm_compute; reflexivity].
  - rewrite H in H0. injection H0 as <-.
    exact (Hlater [OpNewServiceClient "vpc" "cn-north-1"] (Some 1)).
Defined.

(** ** Object storage *)

(** X22.  On a provider built by a successful [configureProvider], after any
    sequence of factory operations: when both keys are configured,
    [computeS3conn] returns the S3 session of set-up under the endpoint
    [https://obs.{region}.{cloud}/] and the two OBS constructors return what
    [obs.New] answers for the configured keys and that endpoint; when a key
    is missing, all three fail with their missing-credentials error. *)
Theorem object_storage_after_configureProvider
    (env : Env.t) (allServiceCatalog : gmap string ServiceCatalog.t)
    {ObsClient : Type} (obs : Obs.Sdk ObsClient)
    (d : ResourceData.t) (terraformVersion : string) (w0 w : World.t)
    (ops : list Op) (region : string) :
  configureProvider env d terraformVersion w0 = (Ret (), w) →
  let c := World.config (run env allServiceCatalog ops w) in
  let endpoint := "https://obs." +:+ region +:+ "." +:+ ResourceData.cloud d +:+ "/" in
  (ResourceData.access_key d ≠ "" ∧ ResourceData.secret_key d ≠ "" →
     (∃ sess, Config.s3sess (World.config w) = Some sess
              ∧ computeS3conn c region = Ok (S3.mk sess endpoint))
     ∧ snd (newObjectStorageClient env obs c region)
       = Obs.New obs (ResourceData.access_key d) (ResourceData.secret_key d) endpoint []
     ∧ snd (newObjectStorageClientWithSignature env obs c region)
       = Obs.New obs (ResourceData.access_key d) (ResourceData.secret_key d) endpoint
           [Obs.WithSignature "OBS"])
  ∧ (ResourceData.access_key d = "" ∨ ResourceData.secret_key d = "" →
     computeS3conn c region
     = Err "missing credentials for Swift S3 Provider, need access_key and secret_key values for provider"
     ∧ newObjectStorageClient env obs c region
       = ([], Err "missing credentials for OBS, need access_key and secret_key values for provider")
     ∧ newObjectStorageClientWithSignature env obs c region
       = ([], Err "missing credentials for OBS, need access_key and secret_key values for provider")).
Proof.
  intros H. cbv zeta.
  pose proof (configureProvider_Ret _ _ _ _ _ H) as (_ & _ & _ & _ & _ & Hkeys & Hno).
  apply (configured_invariant env allServiceCatalog _ _ _ _ ops) in H
    as (Hset & _ & _ & _ & Hs3 & _).
  pose proof (f_equal Config.AccessKey Hset) as Hak.
  pose proof (f_equal Config.SecretKey Hset) as Hsk.
  pose proof (f_equal Config.Cloud Hset) as Hcloud. cbn in Hak, Hsk, Hcloud.
  unfold computeS3conn, newObjectStorageClient, newObjectStorageClientWithSignature,
    getObsEndpoint.
  rewrite Hs3, Hak, Hsk, Hcloud. split.
  - intros [Ha Hs]. destruct (Hkeys (conj Ha Hs)) as [sess Hsess].
    rewrite Hsess. rewrite !decide_False by (by intros []). eauto.
  - intros Hk. rewrite (Hno Hk). by rewrite !decide_True.
Qed.

Lemma object_storage_after_configureProvider_witness :
  (∃ sess, computeS3conn (World.config w_aksk) "cn-north-4"
           = Ok (S3.mk sess "https://obs.cn-north-4.myhuaweicloud.com/"))
  ∧ snd (newObjectStorageClient env_ok obs_sdk (World.config w_aksk) "cn-north-4")
    = Ok "https://obs.cn-north-4.myhuaweicloud.com/"
  ∧ newObjectStorageClient env_ok obs_sdk (World.config w_password) "cn-north-4"
    = ([], Err "missing credentials for OBS, need access_key and secret_key values for provider").
Proof.
  assert (configureProvider env_ok d_aksk "0.12.0" w_init = (Ret (), w_aksk)) as Hk
    by (vm_compute; reflexivity).
  assert (configureProvider env_ok d_password "0.12.0" w_init = (Ret (), w_password))
    as Hp by (vm_compute; reflexivity).
  destruct (object_storage_after_configureProvider env_ok sample_catalog obs_sdk
              d_aksk "0.12.0" w_init w_aksk [] "cn-north-4" Hk) as [Hset _].
  destruct (object_storage_after_configureProvider env_ok sample_catalog obs_sdk
              d_password "0.12.0" w_init w_password [] "cn-north-4" Hp) as [_ Hmissing].
  destruct Hset as ((sess & _ & Hs3) & Hobs & _); [split; vm_compute; discriminate|].
  destruct Hmissing as (_ & Hno & _); [left; vm_compute; reflexivity|].
  split; [exists sess; exact Hs3|]. split; [exact Hobs|exact Hno].
Defined.

(** X23.  [newObjectStorageClient] and [newObjectStorageClientWithSignature]
    log the same lines.  With a key missing both fail with "missing
    credentials for OBS, ..." and neither logs nor calls the SDK.  With both
    keys each returns the answer of [obs.New] for the keys and the endpoint
    [https://obs.{region}.{cloud}/], the second with the option
    [WithSignature("OBS")]; a failure of [obs.InitLog], which is called only
    at debug level, is logged as a warning and changes nothing else. *)
Theorem newObjectStorageClient_outcome
    (env : Env.t) {ObsClient : Type} (obs : Obs.Sdk ObsClient)
    (c : Config.t) (region : string) :
  let plain := newObjectStorageClient env obs c region in
  let signed := newObjectStorageClientWithSignature env obs c region in
  let endpoint := "https://obs." +:+ region +:+ "." +:+ Config.Cloud c +:+ "/" in
  let missing :=
    "missing credentials for OBS, need access_key and secret_key values for provider" in
  fst plain = fst signed
  ∧ (Config.AccessKey c = "" ∨ Config.SecretKey c = "" →
     plain = ([], Err missing) ∧ signed = ([], Err missing))
  ∧ (Config.AccessKey c ≠ "" → Config.SecretKey c ≠ "" →
     snd plain = Obs.New obs (Config.AccessKey c) (Config.SecretKey c) endpoint []
     ∧ snd signed = Obs.New obs (Config.AccessKey c) (Config.SecretKey c) endpoint
                      [Obs.WithSignature "OBS"]
     ∧ fst plain
       = match Obs.InitLog obs "./.obs-sdk.log" 10485760 10 Obs.LEVEL_DEBUG false with
         | Err err =>
             if Env.logging_IsDebugOrHigher env
             then ["[WARN] initial obs sdk log failed: " +:+ err] else []
         | Ok _ => []
         end).
Proof.
  cbv zeta. unfold newObjectStorageClient, newObjectStorageClientWithSignature,
    getObsEndpoint.
  destruct (decide (Config.AccessKey c = "" ∨ Config.SecretKey c = "")) as [Hk|Hk].
  - split; [done|]. split; [done|]. intros Ha Hs. by destruct Hk.
  - cbn [fst snd]. split; [done|]. split; [intros ?; by destruct Hk|].
    intros _ _. split; [done|]. split; [done|].
    destruct (Env.logging_IsDebugOrHigher env);
      by destruct (Obs.InitLog obs _ _ _ _ _).
Qed.

(** ** The S3 logger *)

Lemma tokens_foldl {T} (acc : list string) (args : list (LogArg T)) :
  foldl (λ tokens arg,
           match arg with
           | StringArg token => tokens ++ [token]
           | OtherArg _ => tokens
           end) acc args
  = acc ++ omap (λ arg, match arg with StringArg t => Some t | OtherArg _ => None end) args.
Proof.
  revert acc. induction args as [|[t|o] args IH]; intros acc; cbn.
  - by rewrite app_nil_r.
  - rewrite IH. by rewrite <- app_assoc.
  - apply IH.
Qed.

Lemma strings_Join_snoc (ts : list string) (t sep : string) :
  ts ≠ [] → strings_Join (ts ++ [t]) sep = strings_Join ts sep +:+ sep +:+ t.
Proof.
  unfold strings_Join. induction ts as [|a ts IH]; [done|]. intros _.
  destruct ts as [|b ts]; [done|].
  change ((a :: b :: ts) ++ [t]) with (a :: (b :: ts) ++ [t]).
  change (String.concat sep (a :: (b :: ts) ++ [t]))
    with (a +:+ sep +:+ String.concat sep ((b :: ts) ++ [t])).
  rewrite IH by done.
  change (String.concat sep (a :: b :: ts))
    with (a +:+ sep +:+ String.concat sep (b :: ts)).
  by rewrite !append_assoc.
Qed.

(** X24.  [sLogger.Log] drops every argument that is not a string, wherever
    it stands; the line logged is "[DEBUG] [aws-sdk-go] " followed by the
    string arguments joined by single spaces, so it is the bare prefix when
    no argument is a string, and one more string argument after a string
    argument adds a space and that string. *)
Theorem sLogger_Log_tokens {T : Type} :
  (∀ (a b : list (LogArg T)) (o : T),
     sLogger_Log (a ++ OtherArg o :: b) = sLogger_Log (a ++ b))
  ∧ (∀ tokens : list string,
       sLogger_Log (T := T) (StringArg <$> tokens)
       = "[DEBUG] [aws-sdk-go] " +:+ strings_Join tokens " ")
  ∧ (∀ os : list T, sLogger_Log (OtherArg <$> os) = "[DEBUG] [aws-sdk-go] ")
  ∧ (∀ (a : list (LogArg T)) (t u : string),
       sLogger_Log (a ++ [StringArg t; StringArg u])
       = sLogger_Log (a ++ [StringArg t]) +:+ " " +:+ u).
Proof.
  unfold sLogger_Log. cbv zeta. split; [|split; [|split]].
  - intros a b o. rewrite !tokens_foldl. cbn [app].
    by rewrite !omap_app.
  - intros tokens. rewrite tokens_foldl. cbn [app]. f_equal. f_equal.
    induction tokens as [|t ts IH]; [done|]. cbn. by rewrite IH.
  - intros os. rewrite tokens_foldl. cbn [app].
    replace (omap _ (OtherArg <$> os)) with (@nil string); [done|].
    induction os as [|o os IH]; [done|]. by cbn.
  - intros a t u. rewrite !tokens_foldl. cbn [app]. rewrite !omap_app.
    cbn [omap list_omap app].
    set (ts := omap _ a).
    replace (ts ++ [t; u]) with ((ts ++ [t]) ++ [u]) by (by rewrite <- app_assoc).
    rewrite strings_Join_snoc by (by destruct ts).
    by rewrite !append_assoc.
Qed.
